(** * utmdash: CSV ingestion, filtering, grouping and rollup

    A shallow embedding of the analytical core of the dashboard
    ([parseCSV] of [App.tsx] and the derived views of [Dashboard]:
    [filteredRows], [groupedPerformance], [stats] and the per-cluster
    CPA/ROI), followed by the properties stated about it.

    Conventions of the embedding.
    - A JavaScript string is a [string]; each character stands for one
      UTF-16 code unit below 256, so the texts covered are those written
      in the Latin-1 range.
    - A JavaScript number is a binary64 [float]; arithmetic is the
      primitive IEEE arithmetic, comparison is [PrimFloat.ltb]/[eqb].
    - A cell of a row is a [value]: a number, a string, or [undefined].
    - An object used as a dictionary ([DataRow], [types], [productsMap])
      is a [gmap]; the [groups] object, whose enumeration order is
      observed, is an association list in insertion order.
    - What the host provides and the language leaves to it (the clock,
      the time zone, [Date.parse], the decimal rendering of a number)
      is collected in the class [Host]. *)

From Stdlib Require Import ZArith Floats Ascii String List Bool Lia.
From Stdlib Require Import Permutation Sorted DecimalString.
From stdpp Require Import gmap strings list.

#[local] Set Warnings "-inexact-float".
#[local] Open Scope string_scope.
#[local] Open Scope Z_scope.

(** ** Strings of the language *)

Module JS.

(** WhiteSpace and LineTerminator code units below 256: TAB, LF, VT, FF,
    CR, SP and NBSP. [trim], the regular-expression class [\s] and the
    numeric-string grammar all use this set. *)
Definition is_ws (c : ascii) : bool :=
  let n := nat_of_ascii c in
  ((9 <=? n) && (n <=? 13) || (n =? 32) || (n =? 160))%nat.

Definition is_digit (c : ascii) : bool :=
  let n := nat_of_ascii c in ((48 <=? n) && (n <=? 57))%nat.

Definition quote : ascii := "034"%char.

Fixpoint trimStart (s : string) : string :=
  match s with
  | String c r => if is_ws c then trimStart r else s
  | EmptyString => EmptyString
  end.

(** Drops the trailing white space: a character is kept when something
    that is not white space follows or when it is not white space itself. *)
Fixpoint trimEnd (s : string) : string :=
  match s with
  | String c r =>
      match trimEnd r with
      | EmptyString => if is_ws c then EmptyString else String c EmptyString
      | r' => String c r'
      end
  | EmptyString => EmptyString
  end.

Definition trim (s : string) : string := trimEnd (trimStart s).

Definition eqs (a b : string) : bool := String.eqb a b.

Fixpoint startsWith (p s : string) : bool :=
  match p, s with
  | EmptyString, _ => true
  | String a p', String b s' => Ascii.eqb a b && startsWith p' s'
  | String _ _, EmptyString => false
  end.

(** [s.includes(p)] *)
Fixpoint includes (p s : string) : bool :=
  startsWith p s ||
  match s with
  | String _ r => includes p r
  | EmptyString => false
  end.

Fixpoint drop (n : nat) (s : string) : string :=
  match n, s with
  | O, _ => s
  | S n', String _ r => drop n' r
  | S _, EmptyString => EmptyString
  end.

(** [s.replace(p, '')] with a string pattern: the first occurrence only. *)
Fixpoint removeFirst (p s : string) : string :=
  if startsWith p s then drop (String.length p) s
  else match s with
       | String c r => String c (removeFirst p r)
       | EmptyString => EmptyString
       end.

(** [s.replace(/c/g, '')] for a class of single characters. *)
Fixpoint removeAll (f : ascii -> bool) (s : string) : string :=
  match s with
  | String c r => if f c then removeAll f r else String c (removeAll f r)
  | EmptyString => EmptyString
  end.

(** [s.replace(a, b)] for one-character strings: first occurrence only. *)
Fixpoint replaceFirstChar (a b : ascii) (s : string) : string :=
  match s with
  | String c r => if Ascii.eqb c a then String b r else String c (replaceFirstChar a b r)
  | EmptyString => EmptyString
  end.

(** [s.split(c)] for a one-character separator; never the empty list. *)
Fixpoint split (sep : ascii) (s : string) : list string :=
  match s with
  | EmptyString => [EmptyString]
  | String c r =>
      if Ascii.eqb c sep then EmptyString :: split sep r
      else match split sep r with
           | p :: ps => String c p :: ps
           | [] => [String c EmptyString]
           end
  end.

(** [s.split(/\r?\n/)]: a line feed ends a piece, and a carriage return
    directly before it belongs to the separator. *)
Fixpoint splitLines (s : string) : list string :=
  match s with
  | EmptyString => [EmptyString]
  | String c r =>
      if Ascii.eqb c "010" then EmptyString :: splitLines r
      else if Ascii.eqb c "013" && startsWith (String "010" EmptyString) r
      then splitLines r
      else match splitLines r with
           | p :: ps => String c p :: ps
           | [] => [String c EmptyString]
           end
  end.

Fixpoint countChar (a : ascii) (s : string) : nat :=
  match s with
  | String c r => (if Ascii.eqb c a then 1 else 0) + countChar a r
  | EmptyString => 0
  end.

(** [line.split] on the quote-aware pattern of [parseCSV] (a comma
    followed, up to the end of the string, by pairs of double quotes): a
    comma separates when the rest of the string holds an even number of
    double quotes. *)
Fixpoint splitQuoteAware (s : string) : list string :=
  match s with
  | EmptyString => [EmptyString]
  | String c r =>
      if Ascii.eqb c "," && Nat.even (countChar quote r)
      then EmptyString :: splitQuoteAware r
      else match splitQuoteAware r with
           | p :: ps => String c p :: ps
           | [] => [String c EmptyString]
           end
  end.

Fixpoint dropLastQuote (s : string) : string :=
  match s with
  | EmptyString => EmptyString
  | String c EmptyString => if Ascii.eqb c quote then EmptyString else s
  | String c r => String c (dropLastQuote r)
  end.

(** [s.replace] of a double quote anchored at the start or at the end,
    globally, by nothing: a quote at the start goes, then a quote at the
    end of what is left. *)
Definition stripQuotes (s : string) : string :=
  match s with
  | String c r => if Ascii.eqb c quote then dropLastQuote r else dropLastQuote s
  | EmptyString => EmptyString
  end.

(** [toLowerCase] on code units below 256: A-Z and the capital letters
    U+00C0-U+00DE (but the multiplication sign U+00D7) move up by 32. *)
Definition lowerChar (c : ascii) : ascii :=
  let n := nat_of_ascii c in
  if ((65 <=? n) && (n <=? 90) || (192 <=? n) && (n <=? 222) && negb (n =? 215))%nat
  then ascii_of_nat (n + 32) else c.

Fixpoint toLowerCase (s : string) : string :=
  match s with
  | String c r => String (lowerChar c) (toLowerCase r)
  | EmptyString => EmptyString
  end.

(** ** Numbers *)

(** The number nearest to [m * 10^e] (ties to even), with sign [neg]. *)
Definition decimalToSF (neg : bool) (m : positive) (e : Z) : spec_float :=
  match e with
  | Zneg p =>
      let '(q, e', l) := SFdiv_core_binary prec emax (Zpos m) 0 (Zpos (10 ^ p)) 0 in
      binary_round_aux prec emax neg q e' l
  | _ => binary_round prec emax neg (m * Z.to_pos (10 ^ e)) 0
  end.

Definition decimalToNumber (neg : bool) (m : N) (e : Z) : float :=
  match m with
  | N0 => if neg then PrimFloat.neg_zero else PrimFloat.zero
  | Npos p => SF2Prim (decimalToSF neg p e)
  end.

Definition digitVal (c : ascii) : N := N.of_nat (nat_of_ascii c - 48).

(** Reads a run of decimal digits: the number read on top of [acc], how
    many digits there were, and what follows. *)
Fixpoint takeDigits (s : string) (acc : N) (cnt : nat) : N * nat * string :=
  match s with
  | String c r =>
      if is_digit c then takeDigits r (10 * acc + digitVal c)%N (S cnt)
      else (acc, cnt, s)
  | EmptyString => (acc, cnt, s)
  end.

Definition takeSign (s : string) : bool * string :=
  match s with
  | String "-" r => (true, r)
  | String "+" r => (false, r)
  | _ => (false, s)
  end.

(** StrUnsignedDecimalLiteral without [Infinity]: mantissa and decimal
    exponent, or [None] when the string is not of that form. *)
Definition parseUnsignedDecimal (s : string) : option (N * Z) :=
  let '(ip, ni, r1) := takeDigits s 0%N 0%nat in
  let '(m, nf, r2) :=
    match r1 with
    | String "." r => takeDigits r ip 0%nat
    | _ => (ip, 0%nat, r1)
    end in
  if (ni + nf =? 0)%nat then None
  else match r2 with
       | EmptyString => Some (m, - Z.of_nat nf)
       | String c r3 =>
           if Ascii.eqb c "e" || Ascii.eqb c "E" then
             let '(sg, r4) := takeSign r3 in
             let '(ev, ne, r5) := takeDigits r4 0%N 0%nat in
             if (ne =? 0)%nat || negb (eqs r5 EmptyString) then None
             else Some (m, (if sg then - Z.of_N ev else Z.of_N ev) - Z.of_nat nf)
           else None
       end.

Definition radixDigit (radix : N) (c : ascii) : option N :=
  let n := nat_of_ascii c in
  let v := if is_digit c then Some (N.of_nat (n - 48))
           else if ((97 <=? n) && (n <=? 102))%nat then Some (N.of_nat (n - 87))
           else if ((65 <=? n) && (n <=? 70))%nat then Some (N.of_nat (n - 55))
           else None in
  match v with
  | Some d => if (d <? radix)%N then Some d else None
  | None => None
  end.

Fixpoint radixDigits (radix : N) (s : string) (acc : N) : option N :=
  match s with
  | EmptyString => Some acc
  | String c r =>
      match radixDigit radix c with
      | Some d => radixDigits radix r (radix * acc + d)%N
      | None => None
      end
  end.

(** NonDecimalIntegerLiteral: [0x], [0o] or [0b] and at least one digit. *)
Definition parseNonDecimal (s : string) : option N :=
  match s with
  | String "0" (String p (String c r)) =>
      let radix := if Ascii.eqb p "x" || Ascii.eqb p "X" then Some 16%N
                   else if Ascii.eqb p "o" || Ascii.eqb p "O" then Some 8%N
                   else if Ascii.eqb p "b" || Ascii.eqb p "B" then Some 2%N
                   else None in
      match radix with
      | Some b => radixDigits b (String c r) 0%N
      | None => None
      end
  | _ => None
  end.

(** [Number(s)] on a string (StringToNumber): white space is trimmed, the
    empty string is 0, what is not a numeric literal is NaN. The value of
    a literal is rounded to the nearest number. *)
Definition StringToNumber (s : string) : float :=
  let t := trim s in
  if eqs t EmptyString then PrimFloat.zero
  else match parseNonDecimal t with
       | Some n => decimalToNumber false n 0
       | None =>
           let '(neg, u) := takeSign t in
           if eqs u "Infinity" then (if neg then PrimFloat.neg_infinity else PrimFloat.infinity)
           else match parseUnsignedDecimal u with
                | Some (m, e) => decimalToNumber neg m e
                | None => PrimFloat.nan
                end
       end.

(** ** Values *)

Inductive value : Type :=
  | VUndef
  | VNum (n : float)
  | VStr (s : string).

Definition isNaN (x : float) : bool := PrimFloat.is_nan x.

(** Truthiness: [undefined], [0], [-0], [NaN] and [''] are falsy. *)
Definition truthy (v : value) : bool :=
  match v with
  | VUndef => false
  | VNum n => negb (PrimFloat.is_zero n || PrimFloat.is_nan n)
  | VStr s => negb (eqs s EmptyString)
  end.

(** [a || b] *)
Definition or_else (a b : value) : value := if truthy a then a else b.

(** [a ?? b] *)
Definition nullish (a b : value) : value :=
  match a with VUndef => b | _ => a end.

(** [Number(v)] *)
Definition ToNumber (v : value) : float :=
  match v with
  | VUndef => PrimFloat.nan
  | VNum n => n
  | VStr s => StringToNumber s
  end.

(** [x || 0] on a number. *)
Definition numOrZero (x : float) : float :=
  if PrimFloat.is_zero x || PrimFloat.is_nan x then PrimFloat.zero else x.

(** The number of an array index or of a count (exact below 2^53). *)
Definition ofNat (n : nat) : float :=
  match N.of_nat n with
  | N0 => PrimFloat.zero
  | Npos p => SF2Prim (binary_round prec emax false p 0)
  end.

(** The integer part of a finite number (ToIntegerOrInfinity), [None] for
    NaN and the infinities. *)
Definition toInteger (x : float) : option Z :=
  match Prim2SF x with
  | S754_zero _ => Some 0
  | S754_finite s m e =>
      let a := match e with
               | Zneg p => Z.shiftr (Zpos m) (Zpos p)
               | _ => Z.shiftl (Zpos m) e
               end in
      Some (if s then - a else a)
  | _ => None
  end.

End JS.

Import JS.

(** ** Ingestion: [parseCSV] *)

(** The type names of [DashboardData.types]: ['number'] and ['string']. *)
Inductive coltype : Type := TNumber | TString.

(** [DataRow]: a dictionary from column name to cell. *)
Abbreviation DataRow := (gmap string value).

Record DashboardData : Type := {
  headers : list string;
  rows : list DataRow;
  types : gmap string coltype
}.

(** [row[k]]: the cell, [undefined] when the row has no such key. *)
Definition get (row : DataRow) (k : string) : value :=
  match row !! k with
  | Some v => v
  | None => VUndef
  end.

(** [o[k] = v] for a [v] that is no object: the object gets the entry,
    but not under the name [__proto__], where the assignment goes to
    the setter that every object inherits, which ignores such a value. *)
Definition assign {V : Type} (k : string) (v : V) (o : gmap string V)
    : gmap string V :=
  if eqs k "__proto__" then o else <[k := v]> o.

Fixpoint allDigits (s : string) : bool :=
  match s with
  | String c r => is_digit c && allDigits r
  | EmptyString => true
  end.

(** The tail of the decimal-comma pattern: digits and dots (at least one
    when [seen]), a comma, and digits up to the end. *)
Fixpoint digitsDotsCommaDigits (s : string) (seen : bool) : bool :=
  match s with
  | String c r =>
      if is_digit c || Ascii.eqb c "." then digitsDotsCommaDigits r true
      else if Ascii.eqb c "," then seen && negb (eqs r EmptyString) && allDigits r
      else false
  | EmptyString => false
  end.

(** The test of the pattern [^-?[\d\.]+,[\d]+$]. *)
Definition decimalCommaPattern (s : string) : bool :=
  match s with
  | String "-" r => digitsDotsCommaDigits r false
  | _ => digitsDotsCommaDigits s false
  end.

Definition hasMarker (cleaned : string) : bool :=
  includes "R$" cleaned || includes "%" cleaned || decimalCommaPattern cleaned.

(** The decimal separator of a marked value: with both a comma and a dot
    the dots go and the first comma becomes a dot; with commas only the
    first comma becomes a dot. *)
Definition normalizeSeparators (c : string) : string :=
  if includes "," c && includes "." c
  then replaceFirstChar "," "." (removeAll (Ascii.eqb ".") c)
  else if includes "," c then replaceFirstChar "," "." c
  else c.

(** The first [R$], the first [%] and all white space removed. *)
Definition stripMarkers (c : string) : string :=
  removeAll is_ws (removeFirst "%" (removeFirst "R$" c)).

(** The local [cleaned] of [cleanAndParse] as it stands before the
    numeric conversion (for an input that is not blank). *)
Definition cleanedText (val : string) : string :=
  let cleaned := stripQuotes (trim val) in
  if hasMarker cleaned then normalizeSeparators (stripMarkers cleaned)
  else cleaned.

Definition cleanAndParse (val : string) : value :=
  if eqs (trim val) "" then VStr ""
  else
    let cleaned := cleanedText val in
    let num := StringToNumber cleaned in
    if negb (isNaN num) && negb (eqs cleaned "") then VNum num else VStr cleaned.

(** [headers.forEach((header, index) => row[header] =
    cleanAndParse(values[index] || ''))], from position [index] on. *)
Fixpoint fillRow (hs : list string) (index : nat) (values : list string)
    (row : DataRow) : DataRow :=
  match hs with
  | [] => row
  | header :: hs' =>
      fillRow hs' (S index) values
        (assign header (cleanAndParse (nth index values "")) row)
  end.

Definition parseLine (hs : list string) (line : string) : DataRow :=
  fillRow hs 0 (map trim (splitQuoteAware line)) ∅.

(** [typeof v === 'number'], [v === undefined] and [v === '']. *)
Definition isNumber (v : value) : bool :=
  match v with VNum _ => true | _ => false end.

Definition isUndefined (v : value) : bool :=
  match v with VUndef => true | _ => false end.

Definition isEmptyString (v : value) : bool :=
  match v with VStr s => eqs s "" | _ => false end.

(** The predicate of [rows.find] in the type inference: the cell is not
    [undefined], not the empty string, and a number. *)
Definition numericCell (header : string) (r : DataRow) : bool :=
  let v := get r header in
  negb (isUndefined v) && negb (isEmptyString v) && isNumber v.

Definition inferType (rs : list DataRow) (header : string) : coltype :=
  let firstVal := match List.find (numericCell header) rs with
                  | Some r => get r header
                  | None => VUndef
                  end in
  if isNumber firstVal then TNumber else TString.

Definition inferTypes (hs : list string) (rs : list DataRow) : gmap string coltype :=
  fold_left (fun ts header => assign header (inferType rs header) ts) hs ∅.

Definition nonBlank (line : string) : bool := negb (eqs (trim line) "").

Definition csvLines (csvText : string) : list string :=
  List.filter nonBlank (splitLines csvText).

Definition headerName (h : string) : string := stripQuotes (trim h).

Definition parseCSV (csvText : string) : option DashboardData :=
  match csvLines csvText with
  | [] => None
  | first :: rest =>
      let hs := map headerName (split "," first) in
      let rs := map (parseLine hs) rest in
      Some {| headers := hs; rows := rs; types := inferTypes hs rs |}
  end.

(** ** The host: clock, time zone, [Date.parse], number rendering *)

Class Host : Type := {
  (** [String(x)] for a number [x]. *)
  Number_toString : float -> string;
  (** [Date.parse(s)]: the time value, [None] for NaN. *)
  Date_parse : string -> option Z;
  (** [LocalTime(t)]: UTC time value to local time value. *)
  LocalTime : Z -> Z;
  (** [UTC(t)]: local time value to UTC time value. *)
  UTC : Z -> Z;
  (** The time value [new Date()] reads during one recomputation. *)
  clock : Z
}.

(** ** Dates

    A [Date] object is its time value: an integral number of
    milliseconds since the epoch, or NaN ([InvalidDate]). The day and
    calendar functions are those of the language definition. *)

Inductive Date : Type :=
  | InvalidDate
  | DateAt (t : Z).

Definition msPerDay : Z := 86400000.
Definition maxTime : Z := 8640000000000000.

Definition Day (t : Z) : Z := t / msPerDay.
Definition TimeWithinDay (t : Z) : Z := t mod msPerDay.

Definition DaysInYear (y : Z) : Z :=
  if negb (y mod 4 =? 0) then 365
  else if negb (y mod 100 =? 0) then 366
  else if negb (y mod 400 =? 0) then 365
  else 366.

Definition DayFromYear (y : Z) : Z :=
  365 * (y - 1970) + (y - 1969) / 4 - (y - 1901) / 100 + (y - 1601) / 400.

(** The largest year whose first day is not after day [d]: searched
    around the estimate given by the mean length of a year. *)
Definition yearOfDay (d : Z) : Z :=
  let y0 := 1970 + d * 400 / 146097 in
  if DayFromYear (y0 + 2) <=? d then y0 + 2
  else if DayFromYear (y0 + 1) <=? d then y0 + 1
  else if DayFromYear y0 <=? d then y0
  else if DayFromYear (y0 - 1) <=? d then y0 - 1
  else y0 - 2.

Definition YearFromTime (t : Z) : Z := yearOfDay (Day t).

Definition leapDays (y : Z) : Z := DaysInYear y - 365.

Definition DayWithinYear (t : Z) : Z := Day t - DayFromYear (YearFromTime t).

(** The day of the year on which month [m] (0 to 11) starts. *)
Definition monthStart (leap m : Z) : Z :=
  match m with
  | 0 => 0
  | 1 => 31
  | 2 => 59 + leap
  | 3 => 90 + leap
  | 4 => 120 + leap
  | 5 => 151 + leap
  | 6 => 181 + leap
  | 7 => 212 + leap
  | 8 => 243 + leap
  | 9 => 273 + leap
  | 10 => 304 + leap
  | 11 => 334 + leap
  | _ => 365 + leap
  end.

Definition MonthFromTime (t : Z) : Z :=
  let d := DayWithinYear t in
  let leap := leapDays (YearFromTime t) in
  if d <? monthStart leap 1 then 0
  else if d <? monthStart leap 2 then 1
  else if d <? monthStart leap 3 then 2
  else if d <? monthStart leap 4 then 3
  else if d <? monthStart leap 5 then 4
  else if d <? monthStart leap 6 then 5
  else if d <? monthStart leap 7 then 6
  else if d <? monthStart leap 8 then 7
  else if d <? monthStart leap 9 then 8
  else if d <? monthStart leap 10 then 9
  else if d <? monthStart leap 11 then 10
  else 11.

Definition DateFromTime (t : Z) : Z :=
  DayWithinYear t - monthStart (leapDays (YearFromTime t)) (MonthFromTime t) + 1.

(** [MakeDay] on finite arguments: the day of the first of the month,
    moved by the date; the first of the month need not lie within the
    range of the time values. NaN when an argument is not finite. *)
Definition MakeDay (year month date : option Z) : option Z :=
  match year, month, date with
  | Some y, Some m, Some dt =>
      let ym := y + m / 12 in
      let mn := m mod 12 in
      Some (DayFromYear ym + monthStart (leapDays ym) mn + dt - 1)
  | _, _, _ => None
  end.

(** The years and months for which the engine (V8) computes a day at
    all: a year within a million years of the year zero and a month
    within ten million months; NaN is outside. *)
Definition inDayRange (y m : float) : bool :=
  ((-1000000 <=? y) && (y <=? 1000000)
   && (-10000000 <=? m) && (m <=? 10000000))%float.

Definition MakeTime (h m s ms : Z) : Z :=
  h * 3600000 + m * 60000 + s * 1000 + ms.

Definition MakeDate (day time : Z) : Z := day * msPerDay + time.

Definition TimeClip (t : Z) : Date :=
  if Z.abs t <=? maxTime then DateAt t else InvalidDate.

(** The year argument of the [Date] constructor: 0 to 99 mean 1900 to
    1999. *)
Definition MakeFullYear (y : float) : option Z :=
  match toInteger y with
  | Some yi => if (0 <=? yi) && (yi <=? 99) then Some (1900 + yi) else Some yi
  | None => None
  end.

(** [a < b] on two dates: their time values are compared as numbers, and
    a comparison with NaN is false. *)
Definition dateLt (a b : Date) : bool :=
  match a, b with
  | DateAt x, DateAt y => x <? y
  | _, _ => false
  end.

Section WithHost.
Context {host : Host}.

(** [new Date(y, m, d)] *)
Definition newDate3 (y m d : float) : Date :=
  if inDayRange y m then
    match MakeDay (MakeFullYear y) (toInteger m) (toInteger d) with
    | Some day => TimeClip (UTC (MakeDate day (MakeTime 0 0 0 0)))
    | None => InvalidDate
    end
  else InvalidDate.

(** [new Date(s)] on a string. *)
Definition newDateString (s : string) : Date :=
  match Date_parse s with
  | Some t => TimeClip t
  | None => InvalidDate
  end.

(** [new Date()] *)
Definition newDateNow : Date := DateAt clock.

(** [d.setHours(h, m, s, ms)]: the date afterwards. *)
Definition setHours (d : Date) (h m s ms : Z) : Date :=
  match d with
  | DateAt t => TimeClip (UTC (MakeDate (Day (LocalTime t)) (MakeTime h m s ms)))
  | InvalidDate => InvalidDate
  end.

(** [d.getDate()]: the day of the month, [None] for NaN. *)
Definition getDate (d : Date) : option Z :=
  match d with
  | DateAt t => Some (DateFromTime (LocalTime t))
  | InvalidDate => None
  end.

(** [d.setDate(dt)]: the date afterwards. *)
Definition setDate (d : Date) (dt : option Z) : Date :=
  match d with
  | DateAt t =>
      let lt := LocalTime t in
      match MakeDay (Some (YearFromTime lt)) (Some (MonthFromTime lt)) dt with
      | Some day => TimeClip (UTC (MakeDate day (TimeWithinDay lt)))
      | None => InvalidDate
      end
  | InvalidDate => InvalidDate
  end.

(** [d.toDateString()], kept as what the text is made of: the local
    year, month and day of a valid date (the week day follows from
    them), [None] for the text of an invalid date. *)
Definition toDateString (d : Date) : option (Z * Z * Z) :=
  match d with
  | DateAt t =>
      let lt := LocalTime t in
      Some (YearFromTime lt, MonthFromTime lt, DateFromTime lt)
  | InvalidDate => None
  end.

Definition sameDateString (a b : option (Z * Z * Z)) : bool :=
  match a, b with
  | Some (y1, m1, d1), Some (y2, m2, d2) => (y1 =? y2) && (m1 =? m2) && (d1 =? d2)
  | None, None => true
  | _, _ => false
  end.

(** [String(v)] *)
Definition ToString (v : value) : string :=
  match v with
  | VUndef => "undefined"
  | VNum n => Number_toString n
  | VStr s => s
  end.

(** [s.split(c)[0]] *)
Definition firstPiece (c : ascii) (s : string) : string :=
  hd "" (split c s).

(** ** The dashboard *)

Definition cleanUTMSource (val : string) : string :=
  if eqs val "" then "organic"
  else
    let s := toLowerCase val in
    if includes "tiktok" s then "tiktok"
    else if includes "facebook" s || includes "fb" s then "facebook"
    else if includes "instagram" s || includes "ig" s then "instagram"
    else if includes "google" s then "google"
    else if includes "kwai" s then "kwai"
    else val.

Definition cleanUTMCampaign (val : string) : string :=
  if eqs val "" then "n/a"
  else trim (firstPiece "|" val).

Definition parseBrazilianDate (dateStr : value) : option Date :=
  match dateStr with
  | VStr s =>
      if eqs s "" then None
      else
        match split "/" (firstPiece " " s) with
        | [p0; p1; p2] =>
            Some (newDate3 (StringToNumber p2) (StringToNumber p1 - 1)%float
                           (StringToNumber p0))
        | _ =>
            match newDateString s with
            | InvalidDate => None
            | isoDate => Some isoDate
            end
        end
  | _ => None
  end.

End WithHost.

Inductive DatePreset : Type :=
  | PresetAll | PresetToday | Preset7days | Preset15days | Preset30days | PresetCustom.

Definition isAll (p : DatePreset) : bool :=
  match p with PresetAll => true | _ => false end.

(** The entries of one cluster of [groupedPerformance]. [vendas] counts
    rows, so it is a natural number. *)
Record cluster : Type := {
  source : string;
  campanha : string;
  vendas : nat;
  faturamento : float;
  minDate : string;
  maxDate : string;
  productsMap : gmap string nat;
  contents : list string;
  key : string
}.

(** The result of [stats]. *)
Record rollup : Type := {
  fat : float;
  gas : float;
  imp : float;
  luc : float;
  roas : float
}.

(** [s] or, when [s] is [undefined] or empty, the empty string. *)
Definition orEmpty (col : option string) : string :=
  match col with
  | Some c => c
  | None => ""
  end.

(** [col === c] for a column that may be [undefined]. *)
Definition isCol (col : option string) (c : string) : bool :=
  match col with
  | Some c' => eqs c c'
  | None => false
  end.

Definition optSub (a : option Z) (b : Z) : option Z :=
  match a with
  | Some x => Some (x - b)
  | None => None
  end.

(** [groups[key]] on the insertion-ordered object. *)
Fixpoint lookupGroup (k : string) (groups : list (string * cluster)) : option cluster :=
  match groups with
  | [] => None
  | (k', c) :: rest => if eqs k k' then Some c else lookupGroup k rest
  end.

(** Assignment to the fields of [groups[key]], the entry staying where
    it is. *)
Fixpoint updateGroup (k : string) (f : cluster -> cluster)
    (groups : list (string * cluster)) : list (string * cluster) :=
  match groups with
  | [] => []
  | (k', c) :: rest =>
      if eqs k k' then (k', f c) :: rest else (k', c) :: updateGroup k f rest
  end.

(** [set.add(x)] on a set kept in insertion order. *)
Definition setAdd (x : string) (l : list string) : list string :=
  if existsb (eqs x) l then l else (l ++ [x])%list.

(** The comparator of the final sort, [b.vendas - a.vendas]. *)
Definition byVendasDesc (a b : cluster) : Z :=
  Z.of_nat (vendas b) - Z.of_nat (vendas a).

(** [Array.prototype.sort] with a comparator: the sort is stable, which
    fixes its result. [insertSorted cmp x l] puts [x], which came before
    every element of [l], in front of the first element that need not
    precede it. *)
Fixpoint insertSorted {A : Type} (cmp : A -> A -> Z) (x : A) (l : list A) : list A :=
  match l with
  | [] => [x]
  | y :: l' => if 0 <? cmp x y then y :: insertSorted cmp x l' else x :: l
  end.

Fixpoint sortBy {A : Type} (cmp : A -> A -> Z) (l : list A) : list A :=
  match l with
  | [] => []
  | x :: l' => insertSorted cmp x (sortBy cmp l')
  end.

Section Dashboard.
Context {host : Host}.
Variable data : DashboardData.

(** [rowsWithIndex]: every row with its position under [_id]. *)
Fixpoint indexFrom (i : nat) (rs : list DataRow) : list DataRow :=
  match rs with
  | [] => []
  | row :: rs' => <["_id" := VNum (ofNat i)]> row :: indexFrom (S i) rs'
  end.

Definition rowsWithIndex : list DataRow := indexFrom 0 (rows data).

Definition matchesKey (h k : string) : bool :=
  eqs (toLowerCase h) (toLowerCase k) || includes (toLowerCase k) (toLowerCase h).

(** [findHeader(keys, indexHint)]: the header at the hinted position when
    there is a non-empty one, else the first header matching a key. *)
Definition findHeader (keys : list string) (indexHint : nat) : option string :=
  match nth_error (headers data) indexHint with
  | Some h =>
      if negb (eqs h "") then Some h
      else List.find (fun h => existsb (matchesKey h) keys) (headers data)
  | None => List.find (fun h => existsb (matchesKey h) keys) (headers data)
  end.

Definition colData : option string := findHeader ["data venda"; "data"] 1.
Definition colProduto : option string := findHeader ["produto"] 8.
Definition colFaturamento : option string := findHeader ["valor da venda"; "valor"] 12.
Definition colSource : option string := findHeader ["utm_source"; "source"] 29.
Definition colCampaign : option string := findHeader ["utm_campaign"; "campanha"] 31.
Definition colContent : option string :=
  findHeader ["utm_content"; "conte" ++ String "250" "do"]%string 33.

(** *** [filteredRows] *)

Variable filters : list (string * list string).
Variable searchTerm : string.
Variable datePreset : DatePreset.
Variable customStartDate customEndDate : string.

Definition now : Date := setHours newDateNow 23 59 59 999.

(** [new Date()] moved to the day of the month of [now] less [n]. *)
Definition daysAgo (n : Z) : Date := setDate newDateNow (optSub (getDate now) n).

(** The date part of the filter callback: [false] where it returns
    [false], [true] where it falls through to the other predicates. *)
Definition passesDate (row : DataRow) : bool :=
  match colData with
  | Some cd =>
      if negb (eqs cd "") && negb (isAll datePreset) then
        match parseBrazilianDate (get row cd) with
        | None => false
        | Some rowDate =>
            match datePreset with
            | PresetToday =>
                sameDateString (toDateString rowDate) (toDateString newDateNow)
            | Preset7days => negb (dateLt rowDate (daysAgo 7))
            | Preset15days => negb (dateLt rowDate (daysAgo 15))
            | Preset30days => negb (dateLt rowDate (daysAgo 30))
            | PresetCustom =>
                if negb (eqs customStartDate "") && negb (eqs customEndDate "") then
                  let start := newDateString customStartDate in
                  let end_ := setHours (newDateString customEndDate) 23 59 59 999 in
                  negb (dateLt rowDate start || dateLt end_ rowDate)
                else true
            | PresetAll => true
            end
        end
      else true
  | None => true
  end.

Definition matchesFilters (row : DataRow) : bool :=
  forallb (fun '(col, selectedValues) =>
    match selectedValues with
    | [] => true
    | _ =>
        let rowVal := ToString (nullish (get row col) (VStr "N/A")) in
        let rowVal := if isCol colSource col then cleanUTMSource rowVal else rowVal in
        let rowVal := if isCol colCampaign col then cleanUTMCampaign rowVal else rowVal in
        existsb (eqs rowVal) selectedValues
    end) filters.

Definition matchesSearch (row : DataRow) : bool :=
  eqs searchTerm "" ||
  existsb (fun h => includes (toLowerCase searchTerm) (toLowerCase (ToString (get row h))))
          (headers data).

Definition keepRow (row : DataRow) : bool :=
  passesDate row && (matchesFilters row && matchesSearch row).

Definition filteredRows : list DataRow := List.filter keepRow rowsWithIndex.

(** *** [groupedPerformance] and [stats] *)

Definition rowSource (row : DataRow) : string :=
  cleanUTMSource (ToString (or_else (get row (orEmpty colSource)) (VStr ""))).

Definition rowCampaign (row : DataRow) : string :=
  cleanUTMCampaign (ToString (or_else (get row (orEmpty colCampaign)) (VStr ""))).

Definition rowKey (row : DataRow) : string :=
  (rowSource row ++ "|" ++ rowCampaign row)%string.

(** [Number(row[colFaturamento || '']) || 0] *)
Definition rowValue (row : DataRow) : float :=
  numOrZero (ToNumber (get row (orEmpty colFaturamento))).

Definition rowDateStr (row : DataRow) : string :=
  firstPiece " " (ToString (get row (orEmpty colData))).

Definition newGroup (row : DataRow) : cluster :=
  {| source := rowSource row;
     campanha := rowCampaign row;
     vendas := 0;
     faturamento := 0;
     minDate := rowDateStr row;
     maxDate := rowDateStr row;
     productsMap := ∅;
     contents := [];
     key := rowKey row |}.

Definition isBefore (a b : option Date) : bool :=
  match a, b with
  | Some x, Some y => dateLt x y
  | _, _ => false
  end.

(** What one row does to its cluster. *)
Definition addRow (row : DataRow) (g : cluster) : cluster :=
  let prodName := ToString (or_else (get row (orEmpty colProduto)) (VStr "N/A")) in
  let content := ToString (or_else (get row (orEmpty colContent)) (VStr "N/A")) in
  let dCurr := parseBrazilianDate (VStr (rowDateStr row)) in
  let dMin := parseBrazilianDate (VStr (minDate g)) in
  let dMax := parseBrazilianDate (VStr (maxDate g)) in
  {| source := source g;
     campanha := campanha g;
     vendas := S (vendas g);
     faturamento := (faturamento g + rowValue row)%float;
     minDate := if isBefore dCurr dMin then rowDateStr row else minDate g;
     maxDate := if isBefore dMax dCurr then rowDateStr row else maxDate g;
     productsMap :=
       <[prodName := S (default 0%nat (productsMap g !! prodName))]> (productsMap g);
     contents := setAdd content (contents g);
     key := key g |}.

(** The body of the [forEach] of [groupedPerformance]. *)
Definition groupStep (groups : list (string * cluster)) (row : DataRow)
    : list (string * cluster) :=
  let k := rowKey row in
  let groups := match lookupGroup k groups with
                | Some _ => groups
                | None => (groups ++ [(k, newGroup row)])%list
                end in
  updateGroup k (addRow row) groups.

Definition collectGroups (rs : list DataRow) : list (string * cluster) :=
  fold_left groupStep rs [].

(** [Object.values(groups).sort((a, b) => b.vendas - a.vendas)] *)
Definition groupRows (rs : list DataRow) : list cluster :=
  sortBy byVendasDesc (map snd (collectGroups rs)).

Definition groupedPerformance : list cluster := groupRows filteredRows.

Variable manualInvestment : float.

Definition sumFaturamento (rs : list DataRow) : float :=
  fold_left (fun acc row => (acc + rowValue row)%float) rs 0%float.

Definition statsOf (rs : list DataRow) : rollup :=
  let fat := sumFaturamento rs in
  let imp := (fat * 0.06)%float in
  let gas := manualInvestment in
  let luc := (fat - gas - imp)%float in
  let avgRoas := if (0 <? gas)%float then (fat / gas)%float else 0%float in
  {| fat := fat; gas := gas; imp := imp; luc := luc; roas := avgRoas |}.

Definition stats : rollup := statsOf filteredRows.

(** *** The figures of one line of the cluster table *)

Variable groupInvestments : gmap string float.

(** [groupInvestments[group.key] || 0] *)
Definition investmentOf (g : cluster) : float :=
  match groupInvestments !! key g with
  | Some x => numOrZero x
  | None => 0%float
  end.

Definition cpaOf (g : cluster) : float :=
  if (0 <? vendas g)%nat then (investmentOf g / ofNat (vendas g))%float else 0%float.

Definition roiOf (g : cluster) : float :=
  if (0 <? investmentOf g)%float then (faturamento g / investmentOf g)%float
  else 0%float.

(** The ROI cell shows the pending badge when the investment is zero. *)
Definition roiPending (g : cluster) : bool := (investmentOf g =? 0)%float.

End Dashboard.

(** ** Notions used to state the properties *)

(** A number that is neither NaN nor an infinity. *)
Definition isFinite (x : float) : bool :=
  negb (PrimFloat.is_nan x || PrimFloat.is_infinity x).




(** The input with only the outer white space and quotes stripped and,
    for a marked value, the markers and inner white space removed: no
    rewriting of the decimal separator. *)
Definition strippedOnly (val : string) : string :=
  let q := stripQuotes (trim val) in
  if hasMarker q then stripMarkers q else q.

(** The sums over the clusters, taken in the order of the list. *)
Definition sumVendas (cs : list cluster) : nat :=
  fold_left (fun acc c => (acc + vendas c)%nat) cs 0%nat.

Definition sumClusterFaturamento (cs : list cluster) : float :=
  fold_left (fun acc c => (acc + faturamento c)%float) cs 0%float.

(** The position of the first row with cluster key [k]; the length of
    the list when there is none. *)
Definition firstSeen {host : Host} (data : DashboardData) (k : string)
    : list DataRow -> nat :=
  fix go (rs : list DataRow) : nat :=
    match rs with
    | [] => 0%nat
    | r :: rs' => if eqs (rowKey data r) k then 0%nat else S (go rs')
    end.

(** The rows of a list that belong to the cluster with key [k]. *)
Definition rowsOfKey {host : Host} (data : DashboardData) (k : string)
    (rs : list DataRow) : list DataRow :=
  List.filter (fun r => eqs (rowKey data r) k) rs.

(** The table of a text, the empty table when there is none. *)
Definition tableOf (csvText : string) : DashboardData :=
  match parseCSV csvText with
  | Some t => t
  | None => {| headers := []; rows := []; types := ∅ |}
  end.

(** ** A host for the examples

    The UTC time zone; integral numbers are rendered in decimal;
    [Date.parse] reads the date-only form [YYYY-MM-DD]. *)

Definition renderNumber (x : float) : string :=
  match toInteger x with
  | Some (Zneg p) => String "-" (NilEmpty.string_of_uint (Pos.to_uint p))
  | Some (Zpos p) => NilEmpty.string_of_uint (Pos.to_uint p)
  | Some Z0 => "0"
  | None => if PrimFloat.is_nan x then "NaN"
            else if (x <? 0)%float then "-Infinity" else "Infinity"
  end.

Definition digitsToZ (s : string) : option Z :=
  if allDigits s then Some (Z.of_N (fst (fst (takeDigits s 0%N 0%nat)))) else None.

Definition parseIsoDate (s : string) : option Z :=
  match split "-" s with
  | [y; m; d] =>
      if ((String.length y =? 4) && (String.length m =? 2) && (String.length d =? 2))%nat then
        match digitsToZ y, digitsToZ m, digitsToZ d with
        | Some yy, Some mm, Some dd =>
            let leap := leapDays yy in
            if (1 <=? mm) && (mm <=? 12) && (1 <=? dd)
               && (dd <=? monthStart leap mm - monthStart leap (mm - 1))
            then Some ((DayFromYear yy + monthStart leap (mm - 1) + dd - 1) * msPerDay)
            else None
        | _, _, _ => None
        end
      else None
  | _ => None
  end.

(** The clock stands at 2 November 2026, 13:00 UTC. *)
Definition exampleHost : Host :=
  {| Number_toString := renderNumber;
     Date_parse := parseIsoDate;
     LocalTime := fun t => t;
     UTC := fun t => t;
     clock := 1793624400000 |}.

Definition LF : string := String "010" "".

(** A field between double quotes. *)
Definition quoted (s : string) : string :=
  String quote (s ++ String quote "").

(** ** Sample inputs *)

(** A plain two-column text, and one whose header line repeats a name. *)
Definition plainCsv : string := "a,b" ++ LF ++ "1,2".

Definition duplicateHeaderCsv : string := "a,a" ++ LF ++ "1,2".





(** The scenario with two sales, as a text whose columns the dashboard
    resolves to the source, date, campaign, product and value roles. *)
Definition scenarioCsv : string :=
  "utm_source,data,utm_campaign,produto,valor" ++ LF ++
  "fb_ads,01/01/2024,Promo|v2,A,"
  ++ quoted "R$ 100,00" ++ LF ++
  "google,02/01/2024,Promo|v2,B,"
  ++ quoted "R$ 50,00".

Definition scenario : DashboardData := tableOf scenarioCsv.

(** Three sales of 19,90, 29,90 and 99,90, the first and the last from
    the same source and campaign. *)
Definition centsCsv : string :=
  "utm_source,data,utm_campaign,produto,valor" ++ LF ++
  "fb_ads,01/01/2024,promo,A,"
  ++ quoted "R$ 19,90" ++ LF ++
  "google,02/01/2024,promo,B,"
  ++ quoted "R$ 29,90" ++ LF ++
  "fb_ads,03/01/2024,promo,C,"
  ++ quoted "R$ 99,90".

(** Five sales over three clusters, two of them with two sales each. *)
Definition tiesCsv : string :=
  "utm_source,data,utm_campaign,produto,valor" ++ LF ++
  "google,01/01/2024,x,A,10" ++ LF ++
  "fb_ads,01/01/2024,x,A,10" ++ LF ++
  "kwai,02/01/2024,x,A,10" ++ LF ++
  "fb_ads,02/01/2024,x,A,10" ++ LF ++
  "google,03/01/2024,x,A,10".

(** Two sales of 1e308 each in one cluster: every cell is a finite
    number, their sum is not. *)
Definition overflowCsv : string :=
  "utm_source,data,utm_campaign,produto,valor" ++ LF ++
  "fb,01/01/2024,promo,A,1e308" ++ LF ++
  "fb,02/01/2024,promo,A,1e308".

(** One sale whose date cell splits at the slashes into three parts
    that are not numbers. *)
Definition badDateCsv : string :=
  "id,data" ++ LF ++ "1,a/b/c".

(** Three sales: a date in day/month/year form, a cell that is no date,
    and an empty date cell. *)
Definition datedCsv : string :=
  "id,data" ++ LF ++ "1,01/01/2024" ++ LF ++ "2,soon" ++ LF ++ "3,".

Definition datedTable : DashboardData := tableOf datedCsv.

(** Whether a date cell parses to a date object, not to null. *)
Definition parsesToDate {host : Host} (v : value) : bool :=
  match parseBrazilianDate v with
  | Some _ => true
  | None => false
  end.

(** [a] stands before [b] in the list. *)
Fixpoint Before {A : Type} (a b : A) (l : list A) : Prop :=
  match l with
  | [] => False
  | y :: l' => (a = y /\ In b l') \/ Before a b l'
  end.

(** What holds of the [groups] object once the rows [pre] are read: its
    keys stand in the order of their first row, they are the keys seen
    so far, every entry holds the count and the revenue of the rows of
    its key, and the counts add up to the number of rows read. *)
Definition groupsInv {host : Host} (data : DashboardData)
    (groups : list (string * cluster)) (pre : list DataRow) : Prop :=
  StronglySorted (fun k1 k2 => (firstSeen data k1 pre < firstSeen data k2 pre)%nat)
    (map fst groups)
  /\ (forall k, In k (map fst groups) <-> (firstSeen data k pre < length pre)%nat)
  /\ (forall k c, In (k, c) groups ->
        key c = k
        /\ vendas c = length (rowsOfKey data k pre)
        /\ faturamento c = sumFaturamento data (rowsOfKey data k pre))
  /\ list_sum (map vendas (map snd groups)) = length pre.

(** The number of an integer, and the integer part of a number. *)
Definition Z2F (z : Z) : float := SF2Prim (binary_normalize prec emax z 0 false).

(** The canonical form of a non-zero integer of magnitude [v] below 2^53:
    the mantissa is [v] shifted up to 53 binary digits. *)
Definition shiftUp (v : positive) (n : Z) : positive :=
  match n with
  | Zpos d => Pos.iter xO v d
  | _ => v
  end.

Definition canonical (s : bool) (v : positive) : spec_float :=
  S754_finite s (shiftUp v (53 - Zpos (digits2_pos v))) (Zpos (digits2_pos v) - 53).

(** The integer part of a number, 0 for NaN and the infinities. *)
Definition wholePart (x : float) : Z :=
  match toInteger x with
  | Some z => z
  | None => 0
  end.

(** A number that is whole: the number of its integer part. *)
Definition isWhole (x : float) : bool :=
  PrimFloat.Leibniz.eqb x (Z2F (wholePart x)).

Definition zsum {A : Type} (f : A -> Z) (l : list A) : Z :=
  fold_right (fun x acc => f x + acc) 0 l.

(** The revenue of a row as an integer, and the sum of the magnitudes
    over a list of rows. *)
Definition rowWhole (data : DashboardData) (r : DataRow) : Z :=
  wholePart (rowValue data r).

Definition sumMagnitudes (data : DashboardData) (rs : list DataRow) : Z :=
  zsum (fun r => Z.abs (rowWhole data r)) rs.

(** ** The rest of the application

    What follows embeds the code around the functions above: the link
    rewriting and the ingestion steps of [App], and in [Dashboard] the
    filter controls, the option lists, the top-five rankings, the period
    counters and the colouring of a cluster line. *)

(** *** The link of [loadFromUrl] *)

(** What [.] of a regular expression does not match: line feed and
    carriage return (the other line terminators lie above 255). *)
Definition isLineTerminator (c : ascii) : bool :=
  let n := nat_of_ascii c in ((n =? 10) || (n =? 13))%nat.

Definition noLineTerminator (s : string) : bool :=
  eqs (removeAll (fun c => negb (isLineTerminator c)) s) "".

(** [s.replace] of the first [/edit] that is followed, up to the end of
    the string, by no line terminator, by [/export?format=csv]. *)
Fixpoint replaceEditTail (s : string) : string :=
  if startsWith "/edit" s && noLineTerminator (drop 5 s) then "/export?format=csv"
  else match s with
       | String c r => String c (replaceEditTail r)
       | EmptyString => EmptyString
       end.

(** The local [targetUrl] of [loadFromUrl]. *)
Definition targetUrl (sheetUrl : string) : string :=
  if includes "/edit" sheetUrl then replaceEditTail sheetUrl else sheetUrl.

(** The table held by [App] after [loadFromUrl]: [fetch] stands for the
    request and the reading of its text, [None] when either throws. *)
Definition loadFromUrl (fetch : string -> option string) (sheetUrl : string)
    (data : option DashboardData) : option DashboardData :=
  if eqs sheetUrl "" then data
  else match fetch (targetUrl sheetUrl) with
       | Some csvText =>
           match parseCSV csvText with
           | Some parsed => Some parsed
           | None => data
           end
       | None => data
       end.

(** The table held by [App] after the reader of [handleFileUpload] has
    delivered the text of the file. *)
Definition fileLoaded (text : string) (data : option DashboardData)
    : option DashboardData :=
  match parseCSV text with
  | Some parsed => Some parsed
  | None => data
  end.

(** *** The filter controls *)

(** The names that every object inherits from [Object.prototype]: a
    counting object answers for them before anything is counted. *)
Definition inheritedName (s : string) : bool :=
  existsb (eqs s)
    ["constructor"; "hasOwnProperty"; "isPrototypeOf"; "propertyIsEnumerable";
     "toLocaleString"; "toString"; "valueOf"; "__proto__";
     "__defineGetter__"; "__defineSetter__"; "__lookupGetter__"; "__lookupSetter__"].

(** [filters[column]] *)
Fixpoint lookupFilter (column : string) (fs : list (string * list string))
    : option (list string) :=
  match fs with
  | [] => None
  | (c, vals) :: rest => if eqs column c then Some vals else lookupFilter column rest
  end.

(** The object with [column] set to [vals]: an existing entry keeps its
    place, a new one comes last. *)
Fixpoint setFilter (column : string) (vals : list string)
    (fs : list (string * list string)) : list (string * list string) :=
  match fs with
  | [] => [(column, vals)]
  | (c, v) :: rest =>
      if eqs column c then (c, vals) :: rest else (c, v) :: setFilter column vals rest
  end.

(** The next [filters] object; [None] where the update throws: a column
    without entry whose name every object inherits answers with
    something that has no [includes]. *)
Definition toggleFilter (column value : string) (prev : list (string * list string))
    : option (list (string * list string)) :=
  match lookupFilter column prev with
  | Some current =>
      let updated := if existsb (eqs value) current
                     then List.filter (fun v => negb (eqs v value)) current
                     else (current ++ [value])%list in
      Some (setFilter column updated prev)
  | None =>
      if inheritedName column then None
      else Some (setFilter column [value] prev)
  end.

(** [filters[col]?.includes(val)], the mark of a chosen option; [None]
    where it throws. *)
Definition isSelected (col val : string) (filters : list (string * list string))
    : option bool :=
  match lookupFilter col filters with
  | Some vals => Some (existsb (eqs val) vals)
  | None => if inheritedName col then None else Some false
  end.

(** The state that the filter reads. *)
Record controls : Type := {
  ctlFilters : list (string * list string);
  ctlSearchTerm : string;
  ctlDatePreset : DatePreset;
  ctlCustomStartDate : string;
  ctlCustomEndDate : string;
  ctlActiveHeaderFilter : option string
}.

Definition clearAllFilters (c : controls) : controls :=
  {| ctlFilters := [];
     ctlSearchTerm := "";
     ctlDatePreset := PresetAll;
     ctlCustomStartDate := ctlCustomStartDate c;
     ctlCustomEndDate := ctlCustomEndDate c;
     ctlActiveHeaderFilter := None |}.

Definition filteredRowsOf {host : Host} (data : DashboardData) (c : controls)
    : list DataRow :=
  filteredRows data (ctlFilters c) (ctlSearchTerm c) (ctlDatePreset c)
    (ctlCustomStartDate c) (ctlCustomEndDate c).

(** *** The option lists: [uniqueValuesMap] *)

(** The value under which a row is offered in the list of [col]. *)
Definition optionValue {host : Host} (data : DashboardData) (col : string)
    (r : DataRow) : string :=
  let rawVal := ToString (nullish (get r col) (VStr "N/A")) in
  if isCol (colSource data) col then cleanUTMSource rawVal
  else if isCol (colCampaign data) col then cleanUTMCampaign rawVal
  else rawVal.

(** [Array.from(new Set(l))]: the first occurrences, in their order. *)
Definition distinct (l : list string) : list string :=
  fold_left (fun acc x => setAdd x acc) l [].

(** The comparator of a [sort()] without argument on strings: the order
    of the code units. *)
Definition compareStrings (a b : string) : Z :=
  match String.compare a b with
  | Lt => -1
  | Eq => 0
  | Gt => 1
  end.

(** The array that [uniqueValuesMap] holds for [col]. *)
Definition uniqueValuesOf {host : Host} (data : DashboardData) (col : string)
    : list string :=
  sortBy compareStrings
    (distinct (List.filter (fun v => negb (eqs v ""))
                 (map (optionValue data col) (rows data)))).

(** *** The rankings: [getTop5] *)

(** A property name that is an array index: the decimal form, without
    leading zero, of an integer below 2^32 - 1. *)
Definition isArrayIndex (s : string) : bool :=
  allDigits s && negb (eqs s "")
  && (eqs s "0" || negb (startsWith "0" s))
  && (String.length s <=? 10)%nat
  && (fst (fst (takeDigits s 0%N 0%nat)) <=? 4294967294)%N.

Definition indexOf (s : string) : Z := Z.of_N (fst (fst (takeDigits s 0%N 0%nat))).

(** [Object.entries(o)] of an object whose properties [l] are listed as
    they were created: the array indices come first, in rising order,
    the other names follow in the order of creation. *)
Definition objectEntries {V : Type} (l : list (string * V)) : list (string * V) :=
  (sortBy (fun a b => indexOf (fst a) - indexOf (fst b))
     (List.filter (fun e => isArrayIndex (fst e)) l)
   ++ List.filter (fun e => negb (isArrayIndex (fst e))) l)%list.

(** [counts[val] = (counts[val] || 0) + 1] *)
Fixpoint bump (val : string) (counts : list (string * nat)) : list (string * nat) :=
  match counts with
  | [] => [(val, 1%nat)]
  | (k, n) :: rest =>
      if eqs val k then (k, S n) :: rest else (k, n) :: bump val rest
  end.

Definition countBy (f : DataRow -> string) (rs : list DataRow) : list (string * nat) :=
  fold_left (fun counts row => bump (f row) counts) rs [].

(** The comparator [b.value - a.value]. *)
Definition byValueDesc (a b : string * nat) : Z :=
  Z.of_nat (snd b) - Z.of_nat (snd a).

(** The name under which [getTop5] counts a row. *)
Definition rankedValue {host : Host} (data : DashboardData) (colName : string)
    (row : DataRow) : string :=
  let val := trim (ToString (or_else (get row colName) (VStr "N/A"))) in
  let val := if isCol (colSource data) colName then cleanUTMSource val else val in
  let val := if isCol (colCampaign data) colName then cleanUTMCampaign val else val in
  val.

(** [getTop5(colName)] over the filtered rows [rs]: pairs of name and
    value. *)
Definition getTop5 {host : Host} (data : DashboardData) (rs : list DataRow)
    (colName : option string) : list (string * nat) :=
  match colName with
  | Some c =>
      if eqs c "" then []
      else firstn 5 (sortBy byValueDesc (objectEntries (countBy (rankedValue data c) rs)))
  | None => []
  end.

(** The number of rows that [f] maps to [k]. *)
Definition countOf (f : DataRow -> string) (k : string) (rs : list DataRow) : nat :=
  length (List.filter (fun r => eqs (f r) k) rs).

(** *** The period counters: [periodStats] *)

(** [a >= b] on two dates. *)
Definition dateGe (a b : Date) : bool :=
  match a, b with
  | DateAt x, DateAt y => y <=? x
  | _, _ => false
  end.

Record periodCounts : Type := {
  pcToday : nat;
  pcD7 : nat;
  pcD30 : nat
}.

(** The local [rDate] of the loop of [periodStats]. *)
Definition periodDate {host : Host} (data : DashboardData) (row : DataRow)
    : option Date :=
  parseBrazilianDate (get row (orEmpty (colData data))).

Definition periodStats {host : Host} (data : DashboardData) : periodCounts :=
  let today := setHours newDateNow 0 0 0 0 in
  let d7 := setDate newDateNow (optSub (getDate today) 7) in
  let d30 := setDate newDateNow (optSub (getDate today) 30) in
  fold_left
    (fun acc row =>
       match periodDate data row with
       | None => acc
       | Some rDate =>
           {| pcToday := if sameDateString (toDateString rDate) (toDateString today)
                         then S (pcToday acc) else pcToday acc;
              pcD7 := if dateGe rDate d7 then S (pcD7 acc) else pcD7 acc;
              pcD30 := if dateGe rDate d30 then S (pcD30 acc) else pcD30 acc |}
       end)
    (rowsWithIndex data)
    {| pcToday := 0; pcD7 := 0; pcD30 := 0 |}.

(** *** The colouring of a cluster line *)

Definition hasProfit (groupInvestments : gmap string float) (g : cluster) : bool :=
  (0 <? investmentOf groupInvestments g)%float
  && (investmentOf groupInvestments g <? faturamento g)%float.

Definition isLoss (groupInvestments : gmap string float) (g : cluster) : bool :=
  (0 <? investmentOf groupInvestments g)%float
  && (faturamento g <=? investmentOf groupInvestments g)%float.

(** *** Notions for the statements *)

(** The locals [prodName] and [content] of the loop of
    [groupedPerformance]. *)
Definition rowProduct {host : Host} (data : DashboardData) (row : DataRow) : string :=
  ToString (or_else (get row (orEmpty (colProduto data))) (VStr "N/A")).

Definition rowContent {host : Host} (data : DashboardData) (row : DataRow) : string :=
  ToString (or_else (get row (orEmpty (colContent data))) (VStr "N/A")).

(** The time value of the date to which a text parses, when it parses
    to a date that is valid. *)
Definition timeOf {host : Host} (s : string) : option Z :=
  match parseBrazilianDate (VStr s) with
  | Some (DateAt t) => Some t
  | _ => None
  end.

Definition hasTime {host : Host} (s : string) : bool :=
  match timeOf s with
  | Some _ => true
  | None => false
  end.

(** Five sales with a content column: three of one cluster, bought on
    the third, the first and the fifth of January, and two of another,
    the first of them with a date cell that is no date. *)
Definition adsCsv : string :=
  "utm_source,data,utm_campaign,produto,valor,utm_content" ++ LF ++
  "fb_ads,03/01/2024,promo|a,Curso,100,video1" ++ LF ++
  "google,soon,promo,Curso,50,banner" ++ LF ++
  "facebook,01/01/2024,promo,Ebook,30,video2" ++ LF ++
  "FB,05/01/2024,promo | b,Curso,20,video1" ++ LF ++
  "google,02/01/2024,promo,Ebook,10,banner".

Definition ads : DashboardData := tableOf adsCsv.

(** [counts[k] || 0] *)
Fixpoint lookupCount (k : string) (counts : list (string * nat)) : nat :=
  match counts with
  | [] => 0%nat
  | (k', n) :: rest => if eqs k k' then n else lookupCount k rest
  end.

(** The last position, counted from [i], at which [h] stands in [hs]. *)
Fixpoint lastIndexFrom (h : string) (hs : list string) (i : nat) : option nat :=
  match hs with
  | [] => None
  | x :: rest =>
      match lastIndexFrom h rest (S i) with
      | Some j => Some j
      | None => if eqs x h then Some i else None
      end
  end.

(** What a cell of a parsed table can be: a number that is not NaN, the
    empty text, or a text that does not read as a number. *)
Definition settledCell (v : value) : bool :=
  match v with
  | VUndef => false
  | VNum x => negb (isNaN x)
  | VStr s => eqs s "" || isNaN (StringToNumber s)
  end.

(** [l.join(sep)] *)
Fixpoint joinWith (sep : string) (l : list string) : string :=
  match l with
  | [] => ""
  | [x] => x
  | x :: rest => x ++ sep ++ joinWith sep rest
  end.

(** The text with a carriage return put before every line feed. *)
Fixpoint crlf (s : string) : string :=
  match s with
  | EmptyString => EmptyString
  | String c r =>
      if Ascii.eqb c "010" then String "013" (String "010" (crlf r))
      else String c (crlf r)
  end.

(** *** The daily chart: [evolutionData] *)

(** [(parseBrazilianDate(date) || new Date(0)).getTime()], [None] for
    NaN. *)
Definition evolutionTime {host : Host} (date : string) : option Z :=
  match parseBrazilianDate (VStr date) with
  | Some (DateAt t) => Some t
  | Some InvalidDate => None
  | None => Some 0
  end.

(** The comparator of the chart; a difference that is NaN sorts as
    zero. *)
Definition byDate {host : Host} (a b : string * nat) : Z :=
  match evolutionTime (fst a), evolutionTime (fst b) with
  | Some x, Some y => x - y
  | _, _ => 0
  end.

(** [evolutionData] over the filtered rows [rs]: pairs of date and
    count. *)
Definition evolutionData {host : Host} (data : DashboardData) (rs : list DataRow)
    : list (string * nat) :=
  sortBy byDate (objectEntries (countBy (rowDateStr data) rs)).

(** A text of blank lines only, with both kinds of line end. *)
Definition blankText : string :=
  "  " ++ LF ++ String "013" LF ++ String "009" "".


(** * Properties *)

#[local] Open Scope list_scope.

(** ** The scalar parser *)

Lemma eqs_true (a b : string) : eqs a b = true -> a = b.
Proof. unfold eqs. apply String.eqb_eq. Qed.

Lemma eqs_false (a b : string) : eqs a b = false -> a <> b.
Proof. unfold eqs. apply String.eqb_neq. Qed.

Lemma eqs_refl (a : string) : eqs a a = true.
Proof. unfold eqs. apply String.eqb_refl. Qed.

Lemma assign_eq {V : Type} (k : string) (v : V) (o : gmap string V) :
  k <> "__proto__" -> assign k v o !! k = Some v.
Proof.
  intros H. unfold assign. destruct (eqs k "__proto__") eqn:E.
  - apply eqs_true in E. contradiction.
  - apply lookup_insert_eq.
Qed.

Lemma assign_ne {V : Type} (k k' : string) (v : V) (o : gmap string V) :
  k <> k' -> assign k v o !! k' = o !! k'.
Proof.
  intros H. unfold assign. destruct (eqs k "__proto__"); [reflexivity|].
  now apply lookup_insert_ne.
Qed.


Lemma cleanedText_blank (val : string) : trim val = "" -> cleanedText val = "".
Proof. intros H. unfold cleanedText. rewrite H. reflexivity. Qed.

(** C5 (as amended): the three sample inputs parse to 1234.56, 12.5 and
    42, and an input whose cleaned text does not convert to a number
    comes back as that cleaned text: outer white space and one layer of
    quotes stripped and, for a value with a currency or percent marker
    or of the decimal-comma form, the markers and all white space
    removed and the decimal separator rewritten. *)
Theorem C5_scalar_parser :
  cleanAndParse "R$ 1.234,56" = VNum 1234.56
  /\ cleanAndParse "12,5%" = VNum 12.5
  /\ cleanAndParse "42" = VNum 42
  /\ forall val : string,
       isNaN (StringToNumber (cleanedText val)) = true ->
       cleanAndParse val = VStr (cleanedText val)
       /\ cleanedText val =
            (let q := stripQuotes (trim val) in
             if hasMarker q then normalizeSeparators (stripMarkers q) else q).
Proof.
  split; [vm_compute; reflexivity|].
  split; [vm_compute; reflexivity|].
  split; [vm_compute; reflexivity|].
  intros val H. split; [|reflexivity].
  unfold cleanAndParse.
  destruct (eqs (trim val) "") eqn:E.
  - apply eqs_true in E. now rewrite (cleanedText_blank _ E).
  - now rewrite H.
Qed.

Lemma C5_scalar_parser_witness :
  isNaN (StringToNumber (cleanedText "  abc ")) = true
  /\ cleanAndParse "  abc " = VStr "abc".
Proof.
  split; [vm_compute; reflexivity|].
  apply (proj2 (proj2 (proj2 C5_scalar_parser)) "  abc ").
  vm_compute; reflexivity.
Defined.

(** C5, as stated, fails: the cleaned text of [R$ a,b] does not convert
    to a number, yet the result is not the input with quotes, white
    space and markers stripped ([a,b]) but [a.b]. *)
Lemma C5_separator_counterexample :
  isNaN (StringToNumber (cleanedText "R$ a,b")) = true
  /\ strippedOnly "R$ a,b" = "a,b"
  /\ cleanAndParse "R$ a,b" = VStr "a.b"
  /\ cleanAndParse "R$ a,b" <> VStr (strippedOnly "R$ a,b").
Proof.
  split; [vm_compute; reflexivity|].
  split; [vm_compute; reflexivity|].
  split; [vm_compute; reflexivity|].
  vm_compute. discriminate.
Qed.

(** ** The table builder *)


Lemma parseCSV_inv (csvText : string) (t : DashboardData) :
  parseCSV csvText = Some t ->
  exists first rest,
    csvLines csvText = first :: rest
    /\ headers t = map headerName (split "," first)
    /\ rows t = map (parseLine (headers t)) rest
    /\ types t = inferTypes (headers t) (rows t).
Proof.
  unfold parseCSV. destruct (csvLines csvText) as [|first rest]; [discriminate|].
  intros [= <-]. exists first, rest. simpl. auto.
Qed.

(** C9 (as amended): the headers of a table are the comma-separated
    fields of the first non-blank line, each trimmed and stripped of one
    layer of quotes, in their order and with repetitions kept; so they
    are pairwise distinct exactly when those cleaned fields are. *)
Theorem C9_headers_of_first_line (csvText : string) (t : DashboardData) :
  parseCSV csvText = Some t ->
  exists first rest,
    csvLines csvText = first :: rest
    /\ headers t = map headerName (split "," first)
    /\ (List.NoDup (headers t) <-> List.NoDup (map headerName (split "," first))).
Proof.
  intros H. destruct (parseCSV_inv _ _ H) as (first & rest & Hl & Hh & _).
  exists first, rest. rewrite Hh. tauto.
Qed.

Lemma C9_headers_of_first_line_witness :
  parseCSV plainCsv = Some (tableOf plainCsv)
  /\ exists first rest,
       csvLines plainCsv = first :: rest
       /\ headers (tableOf plainCsv) = map headerName (split "," first)
       /\ (List.NoDup (headers (tableOf plainCsv))
           <-> List.NoDup (map headerName (split "," first))).
Proof.
  split; [vm_compute; reflexivity|].
  apply C9_headers_of_first_line. vm_compute; reflexivity.
Defined.

(** C9, as stated, fails: the text with the header line [a,a] yields a
    table whose header list holds [a] twice. *)
Lemma C9_duplicate_header_counterexample :
  parseCSV duplicateHeaderCsv = Some (tableOf duplicateHeaderCsv)
  /\ headers (tableOf duplicateHeaderCsv) = ["a"; "a"]
  /\ ~ List.NoDup (headers (tableOf duplicateHeaderCsv)).
Proof.
  split; [vm_compute; reflexivity|]. split; [vm_compute; reflexivity|].
  intros H. vm_compute in H.
  inversion H as [|x l Hn Hd]. apply Hn. left. reflexivity.
Qed.

(** ** Column types *)










(** ** Shape of the table *)












(** ** Column roles and the two-sale scenario *)

(** A non-empty header at the hinted position is taken for the role,
    whatever its name. *)
Lemma findHeader_hint (data : DashboardData) (keys : list string)
    (indexHint : nat) (h : string) :
  nth_error (headers data) indexHint = Some h -> h <> "" ->
  findHeader data keys indexHint = Some h.
Proof.
  intros Hn Hh. unfold findHeader. rewrite Hn.
  destruct (eqs h "") eqn:E; [apply eqs_true in E; contradiction|reflexivity].
Qed.


(** C6: the two-row input (sources fb_ads and google, campaign Promo|v2
    twice, products A and B, values R$ 100,00 and R$ 50,00, dates
    01/01/2024 and 02/01/2024), ingested and left unfiltered, gives the
    cleaned sources facebook and google, the cleaned campaign Promo for
    both, two clusters with distinct keys and one sale each, a rollup
    revenue of 150 and, with no investment, tax 9, profit 141, ROAS 0. *)
Theorem C6_two_sale_scenario (host : Host) :
  (cleanUTMSource "fb_ads", cleanUTMSource "google", cleanUTMCampaign "Promo|v2")
    = ("facebook", "google", "Promo")
  /\ parseCSV scenarioCsv = Some scenario
  /\ map (fun r => (get r "utm_source", get r "utm_campaign", get r "produto",
                    get r "valor", get r "data")) (rows scenario)
     = [ (VStr "fb_ads", VStr "Promo|v2", VStr "A", VNum 100, VStr "01/01/2024");
         (VStr "google", VStr "Promo|v2", VStr "B", VNum 50, VStr "02/01/2024") ]
  /\ (colSource scenario, colCampaign scenario, colProduto scenario,
      colFaturamento scenario, colData scenario)
     = (Some "utm_source", Some "utm_campaign", Some "produto", Some "valor", Some "data")
  /\ map (fun r => (rowSource scenario r, rowCampaign scenario r))
         (filteredRows scenario [] "" PresetAll "" "")
     = [("facebook", "Promo"); ("google", "Promo")]
  /\ map (fun c => (key c, source c, campanha c, vendas c))
         (groupedPerformance scenario [] "" PresetAll "" "")
     = [("facebook|Promo", "facebook", "Promo", 1%nat);
        ("google|Promo", "google", "Promo", 1%nat)]
  /\ stats scenario [] "" PresetAll "" "" 0
     = {| fat := 150; gas := 0; imp := 9; luc := 141; roas := 0 |}.
Proof.
  split; [vm_compute; reflexivity|].
  split; [vm_compute; reflexivity|].
  split; [vm_compute; reflexivity|].
  split; [vm_compute; reflexivity|].
  split; [vm_compute; reflexivity|].
  split; [vm_compute; reflexivity|].
  vm_compute; reflexivity.
Qed.

(** ** Rollup and cluster figures *)

Lemma Prim2SF_zero : Prim2SF 0%float = S754_zero false.
Proof. reflexivity. Qed.

(** A number equal to zero is not above zero. *)
Lemma eqb_zero_not_positive (x : float) :
  (x =? 0)%float = true -> (0 <? x)%float = false.
Proof.
  rewrite FloatAxioms.eqb_spec, FloatAxioms.ltb_spec, Prim2SF_zero.
  destruct (Prim2SF x) as [s|s| |s m e]; try destruct s; cbn; congruence.
Qed.

(** ** Division of numbers *)

Lemma is_nan_Prim2SF (x : float) :
  PrimFloat.is_nan x = true <-> Prim2SF x = S754_nan.
Proof.
  unfold Prim2SF. destruct (PrimFloat.is_nan x); [tauto|].
  split; [discriminate|].
  destruct (PrimFloat.is_zero x); [discriminate|].
  destruct (PrimFloat.is_infinity x); [discriminate|].
  destruct (Z.frexp x) as [r e].
  destruct (shr_fexp prec emax (Uint63Axioms.to_Z (normfr_mantissa r)) (e - prec) loc_Exact)
    as [rec e'].
  destruct (shr_m rec); discriminate.
Qed.

Lemma is_infinity_Prim2SF (x : float) (s : bool) :
  Prim2SF x = S754_infinity s -> PrimFloat.is_infinity x = true.
Proof.
  unfold Prim2SF. destruct (PrimFloat.is_nan x); [discriminate|].
  destruct (PrimFloat.is_zero x); [discriminate|].
  destruct (PrimFloat.is_infinity x); [reflexivity|].
  destruct (Z.frexp x) as [r e].
  destruct (shr_fexp prec emax (Uint63Axioms.to_Z (normfr_mantissa r)) (e - prec) loc_Exact)
    as [rec e'].
  destruct (shr_m rec); discriminate.
Qed.

Lemma iter_pos_invariant {A : Type} (P : A -> Prop) (f : A -> A) :
  (forall a, P a -> P (f a)) -> forall (p : positive) (a : A), P a -> P (SpecFloat.iter_pos f p a).
Proof.
  intros Hf. induction p as [p IH|p IH|]; intros a Ha; cbn [SpecFloat.iter_pos]; auto.
Qed.

Lemma shr_1_nonneg (mrs : shr_record) : 0 <= shr_m mrs -> 0 <= shr_m (shr_1 mrs).
Proof.
  destruct mrs as [m r s]. cbn [shr_m]. intros H.
  destruct m as [|[p|p|]|p]; cbn; lia.
Qed.

Lemma shr_fexp_nonneg (m e : Z) (l : location) :
  0 <= m -> 0 <= shr_m (fst (shr_fexp prec emax m e l)).
Proof.
  intros H. unfold shr_fexp, shr.
  assert (H0 : 0 <= shr_m (shr_record_of_loc m l)).
  { destruct l as [|[]]; exact H. }
  destruct (fexp prec emax (Zdigits2 m + e) - e) as [|p|p]; cbn [fst]; try exact H0.
  apply (iter_pos_invariant (fun r => 0 <= shr_m r)); [apply shr_1_nonneg|exact H0].
Qed.

Lemma round_nearest_even_nonneg (m : Z) (l : location) :
  0 <= m -> 0 <= round_nearest_even m l.
Proof.
  intros H. destruct l as [|[]]; cbn [round_nearest_even]; try lia.
  destruct (Z.even m); lia.
Qed.

Lemma binary_round_aux_not_nan (s : bool) (m e : Z) (l : location) :
  0 <= m -> binary_round_aux prec emax s m e l <> S754_nan.
Proof.
  intros H. unfold binary_round_aux.
  pose proof (shr_fexp_nonneg m e l H) as H1.
  destruct (shr_fexp prec emax m e l) as [mrs' e']. cbn [fst] in H1.
  pose proof (shr_fexp_nonneg _ e' loc_Exact
                (round_nearest_even_nonneg _ (loc_of_shr_record mrs') H1)) as H2.
  destruct (shr_fexp prec emax
              (round_nearest_even (shr_m mrs') (loc_of_shr_record mrs')) e' loc_Exact)
    as [mrs'' e'']. cbn [fst] in H2.
  destruct (shr_m mrs'') as [|p|p]; [discriminate| |lia].
  destruct (e'' <=? emax - prec); discriminate.
Qed.

Lemma SFdiv_core_nonneg (m1 m2 : positive) (e1 e2 : Z) :
  0 <= fst (fst (SFdiv_core_binary prec emax (Zpos m1) e1 (Zpos m2) e2)).
Proof.
  unfold SFdiv_core_binary.
  set (s := e1 - e2 - _).
  set (m' := match s with Z0 => Zpos m1 | Zpos _ => Z.shiftl (Zpos m1) s | Zneg _ => 0 end).
  assert (Hm : 0 <= m').
  { subst m'. destruct s; try lia. apply Z.shiftl_nonneg. lia. }
  pose proof (Z_div_mod m' (Zpos m2) ltac:(lia)) as Hd.
  destruct (Z.div_eucl m' (Zpos m2)) as [q r]. cbn [fst].
  destruct Hd as [Hq Hr]. nia.
Qed.

(** A quotient by a number above zero is NaN only when the dividend is
    NaN or both are infinite. *)
Lemma div_positive_nan (x y : float) :
  (0 <? y)%float = true ->
  PrimFloat.is_nan (x / y)%float = true ->
  PrimFloat.is_nan x = true
  \/ (PrimFloat.is_infinity x = true /\ PrimFloat.is_infinity y = true).
Proof.
  rewrite FloatAxioms.ltb_spec, Prim2SF_zero, !is_nan_Prim2SF, FloatAxioms.div_spec.
  intros Hy Hd. unfold SF64div in Hd.
  destruct (Prim2SF y) as [sy|sy| |sy my ey] eqn:Ey; try destruct sy; try discriminate Hy.
  - destruct (Prim2SF x) as [sx|sx| |sx mx ex] eqn:Ex; try discriminate Hd.
    + right. split; [exact (is_infinity_Prim2SF _ _ Ex)|exact (is_infinity_Prim2SF _ _ Ey)].
    + now left.
  - destruct (Prim2SF x) as [sx|sx| |sx mx ex] eqn:Ex; try discriminate Hd.
    + now left.
    + exfalso. cbn [SFdiv] in Hd.
      pose proof (SFdiv_core_nonneg mx my ex ey) as Hq.
      destruct (SFdiv_core_binary prec emax (Zpos mx) ex (Zpos my) ey) as [[mz ez] lz].
      cbn [fst] in Hq. exact (binary_round_aux_not_nan _ _ _ _ Hq Hd).
Qed.

(** The return is pending exactly for an entry that counts as zero. *)
Lemma roiPending_entered (groupInvestments : gmap string float) (g : cluster)
    (x : float) :
  groupInvestments !! key g = Some x ->
  roiPending groupInvestments g = PrimFloat.is_zero x || PrimFloat.is_nan x.
Proof.
  intros H. unfold roiPending, investmentOf, numOrZero. rewrite H.
  destruct (PrimFloat.is_zero x) eqn:Ez; cbn [orb]; [reflexivity|].
  destruct (PrimFloat.is_nan x); [reflexivity|]. exact Ez.
Qed.

(** C3 (as amended): over any filtered rows and any investment, tax is
    revenue times 0.06, profit is revenue less investment less tax, and
    ROAS is revenue over investment when the investment is above zero
    and 0 otherwise, in particular when it is zero; per cluster, CPA is
    investment over sale count for a cluster with sales and 0 without,
    ROI is revenue over investment when the investment is above zero
    and 0 otherwise, and an investment of zero (none entered, or a zero
    or NaN entered, and no other) is shown as pending. So no
    division by zero is made, and ROAS and ROI are NaN only when the
    revenue is NaN or when revenue and investment are both infinite.
    Nothing more is said of a revenue sum that is not finite or of a
    quotient that overflows. *)
Theorem C3_rollup_and_guards (data : DashboardData)
    (rs : list DataRow) (investment : float)
    (groupInvestments : gmap string float) (g : cluster) :
  let st := statsOf data investment rs in
  fat st = sumFaturamento data rs
  /\ gas st = investment
  /\ imp st = (fat st * 0.06)%float
  /\ luc st = (fat st - investment - imp st)%float
  /\ ((0 <? investment)%float = true -> roas st = (fat st / investment)%float)
  /\ ((0 <? investment)%float = false -> roas st = 0%float)
  /\ ((investment =? 0)%float = true -> roas st = 0%float)
  /\ (PrimFloat.is_nan (roas st) = true ->
      PrimFloat.is_nan (fat st) = true
      \/ (PrimFloat.is_infinity (fat st) = true
          /\ PrimFloat.is_infinity investment = true))
  /\ (vendas g = 0%nat -> cpaOf groupInvestments g = 0%float)
  /\ ((0 < vendas g)%nat ->
      cpaOf groupInvestments g
      = (investmentOf groupInvestments g / ofNat (vendas g))%float)
  /\ ((0 <? investmentOf groupInvestments g)%float = true ->
      roiOf groupInvestments g
      = (faturamento g / investmentOf groupInvestments g)%float)
  /\ ((0 <? investmentOf groupInvestments g)%float = false ->
      roiOf groupInvestments g = 0%float)
  /\ (roiPending groupInvestments g = true -> roiOf groupInvestments g = 0%float)
  /\ ((investmentOf groupInvestments g =? 0)%float = true ->
      roiPending groupInvestments g = true)
  /\ (groupInvestments !! key g = None -> roiPending groupInvestments g = true)
  /\ (forall x : float, groupInvestments !! key g = Some x ->
        roiPending groupInvestments g = PrimFloat.is_zero x || PrimFloat.is_nan x)
  /\ (PrimFloat.is_nan (roiOf groupInvestments g) = true ->
      PrimFloat.is_nan (faturamento g) = true
      \/ (PrimFloat.is_infinity (faturamento g) = true
          /\ PrimFloat.is_infinity (investmentOf groupInvestments g) = true)).
Proof.
  cbv zeta.
  assert (R : forall b : bool, (0 <? investment)%float = b ->
              roas (statsOf data investment rs)
              = if b then (sumFaturamento data rs / investment)%float else 0%float).
  { intros b Hb. unfold statsOf. cbn [roas]. now rewrite Hb. }
  assert (I : forall b : bool, (0 <? investmentOf groupInvestments g)%float = b ->
              roiOf groupInvestments g
              = if b then (faturamento g / investmentOf groupInvestments g)%float
                else 0%float).
  { intros b Hb. unfold roiOf. now rewrite Hb. }
  split; [reflexivity|]. split; [reflexivity|]. split; [reflexivity|].
  split; [reflexivity|].
  split; [intros H; exact (R true H)|].
  split; [intros H; exact (R false H)|].
  split; [intros H; exact (R false (eqb_zero_not_positive _ H))|].
  split.
  { rewrite (R _ eq_refl).
    destruct (0 <? investment)%float eqn:E; [apply div_positive_nan, E|discriminate]. }
  split; [intros H; unfold cpaOf; now rewrite H|].
  split.
  { intros H. unfold cpaOf.
    destruct (0 <? vendas g)%nat eqn:E; [reflexivity|].
    apply Nat.ltb_ge in E. lia. }
  split; [intros H; exact (I true H)|].
  split; [intros H; exact (I false H)|].
  split; [intros H; exact (I false (eqb_zero_not_positive _ H))|].
  split; [intros H; exact H|].
  split; [intros H; unfold roiPending, investmentOf; now rewrite H|].
  split; [intros x H; now apply (roiPending_entered _ _ x)|].
  rewrite (I _ eq_refl).
  destruct (0 <? investmentOf groupInvestments g)%float eqn:E;
    [apply div_positive_nan, E|discriminate].
Qed.

Lemma C3_rollup_and_guards_witness :
  (0 <? 50)%float = true
  /\ roas (statsOf scenario 50 (rows scenario)) = 3%float.
Proof.
  split; [vm_compute; reflexivity|].
  rewrite (proj1 (proj2 (proj2 (proj2 (proj2
             (C3_rollup_and_guards scenario (rows scenario) 50 ∅
                (@newGroup exampleHost scenario ∅))))))
             ltac:(vm_compute; reflexivity)).
  vm_compute; reflexivity.
Defined.

(** C3, as stated, fails: two sales of 1e308 add up to Infinity, and
    with an investment of 1 the ROAS and the ROI of the cluster are
    Infinity and the profit is NaN. *)
Lemma C3_non_finite_counterexample :
  parseCSV overflowCsv = Some (tableOf overflowCsv)
  /\ map (fun r => get r "valor") (rows (tableOf overflowCsv))
     = [VNum 1e308; VNum 1e308]
  /\ @stats exampleHost (tableOf overflowCsv) [] "" PresetAll "" "" 1
     = {| fat := infinity; gas := 1; imp := infinity; luc := nan; roas := infinity |}
  /\ map (fun g => (key g, roiOf {[ "facebook|promo" := 1%float ]} g))
         (@groupedPerformance exampleHost (tableOf overflowCsv) [] "" PresetAll "" "")
     = [("facebook|promo", infinity)]
  /\ isFinite infinity = false /\ isFinite nan = false.
Proof.
  split; [vm_compute; reflexivity|].
  split; [vm_compute; reflexivity|].
  split; [vm_compute; reflexivity|].
  split; [vm_compute; reflexivity|].
  split; vm_compute; reflexivity.
Qed.

(** ** The date part of the filter *)

Lemma dateLt_invalid_l (b : Date) : dateLt InvalidDate b = false.
Proof. reflexivity. Qed.

Lemma dateLt_invalid_r (a : Date) : dateLt a InvalidDate = false.
Proof. now destruct a. Qed.

(** A found date column has a non-empty name. *)
Lemma colData_nonempty (data : DashboardData) (cd : string) :
  colData data = Some cd -> eqs cd "" = false.
Proof.
  unfold colData, findHeader.
  assert (F : forall l,
             List.find (fun h => existsb (matchesKey h) ["data venda"; "data"]) l = Some cd ->
             eqs cd "" = false).
  { intros l H. apply find_some in H. destruct H as [_ H].
    destruct cd; [discriminate H|reflexivity]. }
  destruct (nth_error (headers data) 1) as [h|]; [|apply F].
  destruct (eqs h "") eqn:E; cbn [negb]; [apply F|].
  now intros [= <-].
Qed.

(** With a date restriction in force a row whose date parses to null is
    dropped. *)
Lemma passesDate_null {host : Host} (data : DashboardData) (preset : DatePreset)
    (customStartDate customEndDate cd : string) (row : DataRow) :
  colData data = Some cd ->
  isAll preset = false ->
  parseBrazilianDate (get row cd) = None ->
  passesDate data preset customStartDate customEndDate row = false.
Proof.
  intros Hc Hp Hn. unfold passesDate.
  rewrite Hc, (colData_nonempty _ _ Hc), Hp, Hn. reflexivity.
Qed.

(** A row whose date is an invalid [Date] object passes every window
    that is tested by comparison. *)
Lemma passesDate_invalid {host : Host} (data : DashboardData) (preset : DatePreset)
    (customStartDate customEndDate cd : string) (row : DataRow) :
  colData data = Some cd ->
  parseBrazilianDate (get row cd) = Some InvalidDate ->
  preset <> PresetToday ->
  passesDate data preset customStartDate customEndDate row = true.
Proof.
  intros Hc Hd Hp. unfold passesDate.
  rewrite Hc, (colData_nonempty _ _ Hc), Hd.
  destruct preset; cbn [isAll negb andb]; try reflexivity; try contradiction.
  destruct (negb (eqs customStartDate "") && negb (eqs customEndDate ""));
    [|reflexivity].
  now rewrite dateLt_invalid_l, dateLt_invalid_r.
Qed.

(** C4 (the code at the failing input): the sale whose date cell is
    [a/b/c] has a date that fails to parse, the three parts are turned
    into an invalid date rather than null, and the row is kept under the
    7, 15 and 30 day presets and under a custom range. *)
Theorem C4_unparseable_date_kept (host : Host) :
  parseCSV badDateCsv = Some (tableOf badDateCsv)
  /\ colData (tableOf badDateCsv) = Some "data"
  /\ map (fun r => get r "data") (rowsWithIndex (tableOf badDateCsv)) = [VStr "a/b/c"]
  /\ parseBrazilianDate (VStr "a/b/c") = Some InvalidDate
  /\ filteredRows (tableOf badDateCsv) [] "" Preset7days "" ""
     = rowsWithIndex (tableOf badDateCsv)
  /\ filteredRows (tableOf badDateCsv) [] "" Preset15days "" ""
     = rowsWithIndex (tableOf badDateCsv)
  /\ filteredRows (tableOf badDateCsv) [] "" Preset30days "" ""
     = rowsWithIndex (tableOf badDateCsv)
  /\ filteredRows (tableOf badDateCsv) [] "" PresetCustom "2024-01-01" "2024-12-31"
     = rowsWithIndex (tableOf badDateCsv).
Proof.
  split; [vm_compute; reflexivity|].
  split; [vm_compute; reflexivity|].
  split; [vm_compute; reflexivity|].
  split; [vm_compute; reflexivity|].
  assert (K : forall preset s e, preset <> PresetToday ->
            filteredRows (tableOf badDateCsv) [] "" preset s e
            = rowsWithIndex (tableOf badDateCsv)).
  { intros preset s e Hp. unfold filteredRows.
    assert (R : exists row, rowsWithIndex (tableOf badDateCsv) = [row]
                            /\ get row "data" = VStr "a/b/c").
    { eexists. split; vm_compute; reflexivity. }
    destruct R as (row & -> & Hrow). cbn [List.filter].
    unfold keepRow.
    rewrite (passesDate_invalid (tableOf badDateCsv) preset s e "data" row);
      [reflexivity| vm_compute; reflexivity | rewrite Hrow; vm_compute; reflexivity | exact Hp]. }
  repeat split; apply K; discriminate.
Qed.

Lemma passesDate_custom_open {host : Host} (data : DashboardData)
    (customStartDate customEndDate cd : string) (row : DataRow) :
  colData data = Some cd ->
  customStartDate = "" \/ customEndDate = "" ->
  passesDate data PresetCustom customStartDate customEndDate row
  = parsesToDate (get row cd).
Proof.
  intros Hc Hb. unfold passesDate, parsesToDate.
  rewrite Hc, (colData_nonempty _ _ Hc). cbn [isAll negb andb].
  destruct (parseBrazilianDate (get row cd)) as [d|]; [|reflexivity].
  destruct Hb as [-> | ->]; cbn [eqs String.eqb negb andb]; [reflexivity|].
  now rewrite andb_false_r.
Qed.

(** C10: with a date column found, the custom preset and an empty start
    or end date, the filter keeps exactly the rows whose date cell
    parses to a date object and that pass the column filters and the
    search: no bound of the range is applied, and every row whose date
    cell parses to null is dropped. *)
Theorem C10_custom_preset_without_bounds (host : Host) (data : DashboardData)
    (filters : list (string * list string)) (searchTerm : string)
    (customStartDate customEndDate cd : string) :
  colData data = Some cd ->
  customStartDate = "" \/ customEndDate = "" ->
  filteredRows data filters searchTerm PresetCustom customStartDate customEndDate
  = List.filter
      (fun row => parsesToDate (get row cd)
                  && (matchesFilters data filters row && matchesSearch data searchTerm row))
      (rowsWithIndex data)
  /\ Forall (fun row => parseBrazilianDate (get row cd) <> None)
       (filteredRows data filters searchTerm PresetCustom customStartDate customEndDate).
Proof.
  intros Hc Hb.
  assert (E : filteredRows data filters searchTerm PresetCustom
                customStartDate customEndDate
              = List.filter
                  (fun row => parsesToDate (get row cd)
                              && (matchesFilters data filters row
                                  && matchesSearch data searchTerm row))
                  (rowsWithIndex data)).
  { unfold filteredRows. apply filter_ext. intros row. unfold keepRow.
    now rewrite (passesDate_custom_open data _ _ cd row Hc Hb). }
  split; [exact E|].
  rewrite E. apply List.Forall_forall. intros row Hin.
  apply filter_In in Hin. destruct Hin as [_ Hk].
  apply andb_prop in Hk. destruct Hk as [Hk _].
  unfold parsesToDate in Hk.
  destruct (parseBrazilianDate (get row cd)); [discriminate|discriminate Hk].
Qed.

Lemma C10_custom_preset_without_bounds_witness :
  @colData datedTable = Some "data"
  /\ map (fun r => get r "data") (rowsWithIndex datedTable)
     = [VStr "01/01/2024"; VStr "soon"; VStr ""]
  /\ map (fun r => get r "id")
       (@filteredRows exampleHost datedTable [] "" PresetCustom "2030-01-01" "")
     = [VNum 1]
  /\ Forall (fun row => @parseBrazilianDate exampleHost (get row "data") <> None)
       (@filteredRows exampleHost datedTable [] "" PresetCustom "2030-01-01" "").
Proof.
  split; [vm_compute; reflexivity|].
  split; [vm_compute; reflexivity|].
  split; [vm_compute; reflexivity|].
  apply (C10_custom_preset_without_bounds exampleHost datedTable [] "" "2030-01-01" "" "data").
  - vm_compute; reflexivity.
  - right; reflexivity.
Defined.

(** ** Sums of whole numbers are exact *)

Lemma digits2_size (p : positive) : digits2_pos p = Pos.size p.
Proof. induction p; cbn; congruence. Qed.

Lemma digits2_iter_xO (v d : positive) :
  Zpos (digits2_pos (Pos.iter xO v d)) = Zpos (digits2_pos v) + Zpos d.
Proof.
  induction d as [|d IH] using Pos.peano_ind.
  - cbn. lia.
  - rewrite Pos.iter_succ. cbn [digits2_pos]. lia.
Qed.

Lemma digits2_shiftUp (v : positive) (n : Z) :
  0 <= n -> Zpos (digits2_pos (shiftUp v n)) = Zpos (digits2_pos v) + n.
Proof.
  intros H. destruct n as [|d|d]; cbn [shiftUp]; [lia| |lia].
  apply digits2_iter_xO.
Qed.

Lemma Zpos_iter_xO (v d : positive) :
  Zpos (Pos.iter xO v d) = Zpos v * 2 ^ Zpos d.
Proof.
  induction d as [|d IH] using Pos.peano_ind.
  - cbn. lia.
  - rewrite Pos.iter_succ, Pos2Z.inj_succ, Z.pow_succ_r by lia.
    rewrite Pos2Z.inj_xO, IH. lia.
Qed.

Lemma Zpos_shiftUp (v : positive) (n : Z) :
  0 <= n -> Zpos (shiftUp v n) = Zpos v * 2 ^ n.
Proof.
  intros H. destruct n as [|d|d]; cbn [shiftUp]; [lia| |lia].
  apply Zpos_iter_xO.
Qed.

Lemma shiftUp_shiftUp (v : positive) (a b : Z) :
  0 <= a -> 0 <= b -> shiftUp (shiftUp v a) b = shiftUp v (a + b).
Proof.
  intros Ha Hb. apply Pos2Z.inj.
  rewrite !Zpos_shiftUp by lia. rewrite Z.pow_add_r by lia. lia.
Qed.

Lemma digits2_bound (v : positive) :
  Zpos v < 2 ^ 53 -> Zpos (digits2_pos v) <= 53.
Proof.
  intros H. rewrite digits2_size.
  pose proof (Pos.size_le v) as Hs.
  destruct (Z_le_gt_dec (Zpos (Pos.size v)) 53) as [Hle|Hgt]; [exact Hle|exfalso].
  assert (H54 : 2 ^ 54 <= 2 ^ Zpos (Pos.size v)) by (apply Z.pow_le_mono_r; lia).
  assert (Hp : Zpos (2 ^ Pos.size v) = 2 ^ Zpos (Pos.size v)) by apply Pos2Z.inj_pow.
  assert (Hv : Zpos (2 ^ Pos.size v) <= Zpos v~0) by exact Hs.
  rewrite Hp in Hv. change (2 ^ 54) with (2 * 2 ^ 53) in H54. lia.
Qed.

Lemma fexp_small (d : Z) : 1 <= d -> d <= 53 -> fexp prec emax d = d - 53.
Proof. intros H1 H2. unfold fexp, SpecFloat.emin, prec, emax. lia. Qed.

Lemma iter_pos_iter {A : Type} (f : A -> A) (p : positive) (x : A) :
  SpecFloat.iter_pos f p x = Pos.iter f x p.
Proof.
  revert x. induction p as [p IH|p IH|]; intros x; cbn [SpecFloat.iter_pos Pos.iter].
  - rewrite !IH. rewrite <- !Pos.iter_swap. reflexivity.
  - now rewrite !IH.
  - reflexivity.
Qed.

(** Shifting down what was shifted up loses nothing. *)
Lemma shr_iter_exact (q p : positive) :
  SpecFloat.iter_pos shr_1 p
    {| shr_m := Zpos (Pos.iter xO q p); shr_r := false; shr_s := false |}
  = {| shr_m := Zpos q; shr_r := false; shr_s := false |}.
Proof.
  rewrite iter_pos_iter.
  induction p as [|p IH] using Pos.peano_ind.
  - reflexivity.
  - rewrite Pos.iter_succ_r, Pos.iter_succ. cbn [shr_1 orb]. exact IH.
Qed.

Lemma shr_fexp_fixed (M : positive) (E : Z) :
  fexp prec emax (Zpos (digits2_pos M) + E) = E ->
  shr_fexp prec emax (Zpos M) E loc_Exact
  = ({| shr_m := Zpos M; shr_r := false; shr_s := false |}, E).
Proof.
  intros H. unfold shr_fexp. cbn [Zdigits2 shr_record_of_loc].
  rewrite H, Z.sub_diag. reflexivity.
Qed.

Lemma binary_round_aux_exact (s : bool) (m : Z) (e : Z) (M : positive) (E : Z) :
  shr_fexp prec emax m e loc_Exact
  = ({| shr_m := Zpos M; shr_r := false; shr_s := false |}, E) ->
  fexp prec emax (Zpos (digits2_pos M) + E) = E ->
  E <= emax - prec ->
  binary_round_aux prec emax s m e loc_Exact = S754_finite s M E.
Proof.
  intros H1 H2 H3. unfold binary_round_aux. rewrite H1.
  cbn [shr_m loc_of_shr_record round_nearest_even].
  rewrite (shr_fexp_fixed M E H2). cbn [shr_m].
  apply Z.leb_le in H3. now rewrite H3.
Qed.

Lemma canonical_fixed (v : positive) :
  Zpos v < 2 ^ 53 ->
  fexp prec emax
    (Zpos (digits2_pos (shiftUp v (53 - Zpos (digits2_pos v))))
     + (Zpos (digits2_pos v) - 53))
  = Zpos (digits2_pos v) - 53.
Proof.
  intros H. pose proof (digits2_bound v H) as Hd.
  rewrite digits2_shiftUp by lia.
  replace (Zpos (digits2_pos v) + (53 - Zpos (digits2_pos v))
           + (Zpos (digits2_pos v) - 53)) with (Zpos (digits2_pos v)) by lia.
  apply fexp_small; lia.
Qed.

(** Rounding a whole number below 2^53, given with any number of
    trailing zero bits, yields its canonical form. *)
Lemma binary_round_shifted (s : bool) (v : positive) (k : Z) :
  Zpos v < 2 ^ 53 -> 0 <= k ->
  binary_round prec emax s (shiftUp v k) (- k) = canonical s v.
Proof.
  intros Hv Hk. pose proof (digits2_bound v Hv) as Hd.
  set (d := Zpos (digits2_pos v)) in *.
  assert (Hfix := canonical_fixed v Hv). fold d in Hfix.
  unfold binary_round, canonical. fold d.
  rewrite digits2_shiftUp by lia. fold d.
  replace (d + k + - k) with d by lia.
  rewrite fexp_small by lia.
  unfold shl_align.
  destruct (d - 53 - - k) as [|n|n] eqn:En.
  - (* already canonical *)
    assert (k = 53 - d) by lia. subst k.
    apply binary_round_aux_exact.
    + replace (- (53 - d)) with (d - 53) by lia. now apply shr_fexp_fixed.
    + exact Hfix.
    + unfold emax, prec. lia.
  - (* too many digits: shift down *)
    apply binary_round_aux_exact; [|exact Hfix|unfold emax, prec; lia].
    unfold shr_fexp. cbn [Zdigits2 shr_record_of_loc].
    rewrite digits2_shiftUp by lia. fold d.
    replace (d + k + - k) with d by lia.
    rewrite fexp_small by lia. rewrite En. cbn [shr].
    f_equal; [|lia].
    assert (Hs : shiftUp v k = Pos.iter xO (shiftUp v (53 - d)) n).
    { change (Pos.iter xO (shiftUp v (53 - d)) n)
        with (shiftUp (shiftUp v (53 - d)) (Zpos n)).
      rewrite shiftUp_shiftUp by lia. f_equal. lia. }
    rewrite Hs. apply shr_iter_exact.
  - (* too few digits: shift up *)
    change (Pos.iter xO (shiftUp v k) n) with (shiftUp (shiftUp v k) (Zpos n)).
    rewrite shiftUp_shiftUp by lia.
    replace (k + Zpos n) with (53 - d) by lia.
    apply binary_round_aux_exact.
    + now apply shr_fexp_fixed.
    + exact Hfix.
    + unfold emax, prec. lia.
Qed.

Lemma canonical_valid (s : bool) (v : positive) :
  Zpos v < 2 ^ 53 -> valid_binary (canonical s v) = true.
Proof.
  intros H. pose proof (digits2_bound v H) as Hd.
  unfold canonical. cbn [SpecFloat.valid_binary]. unfold bounded, canonical_mantissa.
  rewrite (canonical_fixed v H), Z.eqb_refl. cbn [andb].
  apply Z.leb_le. unfold emax, prec. lia.
Qed.

Lemma normalize_shifted (z k : Z) :
  Z.abs z < 2 ^ 53 -> 0 <= k ->
  binary_normalize prec emax (z * 2 ^ k) (- k) false
  = match z with
    | Z0 => S754_zero false
    | Zpos v => canonical false v
    | Zneg v => canonical true v
    end.
Proof.
  intros Hz Hk. destruct z as [|v|v].
  - reflexivity.
  - rewrite <- Zpos_shiftUp by exact Hk. cbn [binary_normalize].
    apply binary_round_shifted; [exact Hz|exact Hk].
  - replace (Zneg v * 2 ^ k) with (Zneg (shiftUp v k))
      by (rewrite <- Pos2Z.opp_pos, Zpos_shiftUp by exact Hk; lia).
    cbn [binary_normalize]. apply binary_round_shifted; [exact Hz|exact Hk].
Qed.

Lemma normalize_whole (z : Z) :
  Z.abs z < 2 ^ 53 ->
  binary_normalize prec emax z 0 false
  = match z with
    | Z0 => S754_zero false
    | Zpos v => canonical false v
    | Zneg v => canonical true v
    end.
Proof.
  intros Hz. rewrite <- (normalize_shifted z 0 Hz) by lia.
  f_equal. lia.
Qed.

Lemma Prim2SF_Z2F (z : Z) :
  Z.abs z < 2 ^ 53 -> Prim2SF (Z2F z) = binary_normalize prec emax z 0 false.
Proof.
  intros Hz. unfold Z2F. apply Prim2SF_SF2Prim.
  rewrite (normalize_whole z Hz).
  destruct z as [|v|v]; [reflexivity| |]; apply canonical_valid; exact Hz.
Qed.

Lemma fst_shl_align (m : positive) (e e' : Z) :
  e' <= e -> fst (shl_align m e e') = shiftUp m (e - e').
Proof.
  intros H. unfold shl_align.
  destruct (e' - e) as [|p|p] eqn:E; cbn [fst]; try lia.
  - replace (e - e') with 0 by lia. reflexivity.
  - replace (e - e') with (Zpos p) by lia. reflexivity.
Qed.

Lemma SFadd_canonical (sa sb : bool) (va vb : positive) :
  Zpos va < 2 ^ 53 -> Zpos vb < 2 ^ 53 ->
  Z.abs (cond_Zopp sa (Zpos va) + cond_Zopp sb (Zpos vb)) < 2 ^ 53 ->
  SFadd prec emax (canonical sa va) (canonical sb vb)
  = binary_normalize prec emax
      (cond_Zopp sa (Zpos va) + cond_Zopp sb (Zpos vb)) 0 false.
Proof.
  intros Ha Hb Hab.
  pose proof (digits2_bound va Ha) as Hda. pose proof (digits2_bound vb Hb) as Hdb.
  unfold canonical. cbn [SFadd].
  set (da := Zpos (digits2_pos va)) in *. set (db := Zpos (digits2_pos vb)) in *.
  set (ez := Z.min (da - 53) (db - 53)).
  assert (Hez : ez <= 0) by lia.
  rewrite !fst_shl_align by lia.
  rewrite !shiftUp_shiftUp by lia.
  replace (53 - da + (da - 53 - ez)) with (- ez) by lia.
  replace (53 - db + (db - 53 - ez)) with (- ez) by lia.
  assert (E : cond_Zopp sa (Zpos (shiftUp va (- ez)))
              + cond_Zopp sb (Zpos (shiftUp vb (- ez)))
              = (cond_Zopp sa (Zpos va) + cond_Zopp sb (Zpos vb)) * 2 ^ (- ez)).
  { rewrite !Zpos_shiftUp by lia. destruct sa, sb; cbn [cond_Zopp]; lia. }
  rewrite E.
  replace ez with (- - ez) at 2 by lia.
  rewrite normalize_shifted by lia.
  now rewrite normalize_whole.
Qed.

Lemma SFadd_whole (a b : Z) :
  Z.abs a < 2 ^ 53 -> Z.abs b < 2 ^ 53 -> Z.abs (a + b) < 2 ^ 53 ->
  SFadd prec emax (binary_normalize prec emax a 0 false)
    (binary_normalize prec emax b 0 false)
  = binary_normalize prec emax (a + b) 0 false.
Proof.
  intros Ha Hb Hab.
  rewrite (normalize_whole a Ha), (normalize_whole b Hb).
  destruct a as [|va|va], b as [|vb|vb];
    try (rewrite (normalize_whole _ Hab); reflexivity);
    try (rewrite Z.add_0_r in *; rewrite (normalize_whole _ Ha); reflexivity).
  - exact (SFadd_canonical false false va vb Ha Hb Hab).
  - exact (SFadd_canonical false true va vb Ha Hb Hab).
  - exact (SFadd_canonical true false va vb Ha Hb Hab).
  - exact (SFadd_canonical true true va vb Ha Hb Hab).
Qed.

(** Adding two whole numbers whose sum stays below 2^53 in magnitude
    gives the number of their sum. *)
Lemma Z2F_add (a b : Z) :
  Z.abs a < 2 ^ 53 -> Z.abs b < 2 ^ 53 -> Z.abs (a + b) < 2 ^ 53 ->
  (Z2F a + Z2F b)%float = Z2F (a + b).
Proof.
  intros Ha Hb Hab. apply Prim2SF_inj.
  rewrite FloatAxioms.add_spec, !Prim2SF_Z2F by assumption.
  now apply SFadd_whole.
Qed.

(** ** The stable sort *)

Section SortBy.
Context {A : Type}.
Variable cmp : A -> A -> Z.
(** The comparator orders by a measure, larger first. *)
Variable m : A -> nat.
Hypothesis cmp_measure : forall a b, (0 <? cmp a b) = (m a <? m b)%nat.

Lemma insertSorted_In (x : A) (l : list A) (b : A) :
  In b (insertSorted cmp x l) <-> b = x \/ In b l.
Proof.
  induction l as [|y l IH]; cbn [insertSorted In].
  - intuition.
  - destruct (0 <? cmp x y); cbn [In]; [rewrite IH|]; intuition.
Qed.

Lemma sortBy_In (l : list A) (b : A) : In b (sortBy cmp l) <-> In b l.
Proof.
  induction l as [|x l IH]; cbn [sortBy In]; [reflexivity|].
  rewrite insertSorted_In, IH. intuition.
Qed.

Lemma insertSorted_Permutation (x : A) (l : list A) :
  Permutation (insertSorted cmp x l) (x :: l).
Proof.
  induction l as [|y l IH]; cbn [insertSorted]; [reflexivity|].
  destruct (0 <? cmp x y); [|reflexivity].
  rewrite IH. apply perm_swap.
Qed.

Lemma sortBy_Permutation (l : list A) : Permutation (sortBy cmp l) l.
Proof.
  induction l as [|x l IH]; cbn [sortBy]; [reflexivity|].
  rewrite insertSorted_Permutation. now constructor.
Qed.

Lemma insertSorted_sorted (x : A) (l : list A) :
  StronglySorted (fun a b => (m b <= m a)%nat) l ->
  StronglySorted (fun a b => (m b <= m a)%nat) (insertSorted cmp x l).
Proof.
  induction l as [|y l IH]; intros Hs; cbn [insertSorted].
  - repeat constructor.
  - inversion Hs as [|y' l' Hl Hy]; subst.
    rewrite cmp_measure. destruct (m x <? m y)%nat eqn:E.
    + apply Nat.ltb_lt in E. constructor; [now apply IH|].
      apply List.Forall_forall. intros b Hb. apply (proj1 (insertSorted_In _ _ _)) in Hb.
      destruct Hb as [->|Hb]; [lia|].
      rewrite List.Forall_forall in Hy. now apply Hy.
    + apply Nat.ltb_ge in E. constructor; [exact Hs|].
      constructor; [exact E|].
      rewrite List.Forall_forall in Hy |- *. intros b Hb.
      specialize (Hy b Hb). lia.
Qed.

Lemma sortBy_sorted (l : list A) :
  StronglySorted (fun a b => (m b <= m a)%nat) (sortBy cmp l).
Proof.
  induction l as [|x l IH]; cbn [sortBy]; [constructor|].
  now apply insertSorted_sorted.
Qed.

(** Stability: elements of equal measure keep their order. *)
Lemma insertSorted_Before (x : A) (l : list A) (a b : A) :
  m a = m b ->
  Before a b (insertSorted cmp x l) -> Before a b (x :: l).
Proof.
  intros Hm. induction l as [|y l IH]; cbn [insertSorted].
  - intros H; exact H.
  - rewrite cmp_measure. destruct (m x <? m y)%nat eqn:E; [|intros H; exact H].
    apply Nat.ltb_lt in E. cbn [Before In].
    intros [[-> Hb]|H].
    + apply (proj1 (insertSorted_In _ _ _)) in Hb. destruct Hb as [->|Hb]; [lia|].
      right. left. now split.
    + specialize (IH H). cbn [Before] in IH.
      destruct IH as [[-> Hb]|IH]; [left; split; [reflexivity|now right]|].
      right. now right.
Qed.

Lemma sortBy_Before (l : list A) (a b : A) :
  m a = m b -> Before a b (sortBy cmp l) -> Before a b l.
Proof.
  intros Hm. induction l as [|x l IH]; cbn [sortBy]; [intros H; exact H|].
  intros H. apply (insertSorted_Before _ _ _ _ Hm) in H. cbn [Before] in H |- *.
  destruct H as [[-> Hb]|H].
  - left. split; [reflexivity|]. exact (proj1 (sortBy_In l b) Hb).
  - right. now apply IH.
Qed.

End SortBy.

Lemma nth_error_Before {A : Type} (l : list A) (i j : nat) (a b : A) :
  nth_error l i = Some a -> nth_error l j = Some b -> (i < j)%nat ->
  Before a b l.
Proof.
  revert i j. induction l as [|y l IH]; intros i j Hi Hj Hlt.
  - now destruct i.
  - destruct j as [|j]; [lia|]. cbn [nth_error] in Hj.
    destruct i as [|i]; cbn [nth_error Before] in *.
    + injection Hi as ->. left. split; [reflexivity|].
      now apply nth_error_In in Hj.
    + right. apply (IH i j); [assumption|assumption|lia].
Qed.

Lemma Before_map {A B : Type} (f : A -> B) (a b : A) (l : list A) :
  Before a b l -> Before (f a) (f b) (map f l).
Proof.
  induction l as [|y l IH]; cbn [Before map]; [intros []|].
  intros [[-> Hb]|H].
  - left. split; [reflexivity|]. now apply in_map.
  - right. now apply IH.
Qed.

Lemma Before_sorted {A : Type} (R : A -> A -> Prop) (a b : A) (l : list A) :
  StronglySorted R l -> Before a b l -> R a b.
Proof.
  induction 1 as [|y l Hs IH Hy]; cbn [Before]; [intros []|].
  intros [[-> Hb]|H]; [|now apply IH].
  rewrite List.Forall_forall in Hy. now apply Hy.
Qed.

Lemma byVendasDesc_measure (a b : cluster) :
  (0 <? byVendasDesc a b) = (vendas a <? vendas b)%nat.
Proof.
  unfold byVendasDesc.
  destruct (vendas a <? vendas b)%nat eqn:E.
  - apply Nat.ltb_lt in E. apply Z.ltb_lt. lia.
  - apply Nat.ltb_ge in E. apply Z.ltb_ge. lia.
Qed.

(** ** Grouping *)

Lemma lookupGroup_None (k : string) (groups : list (string * cluster)) :
  lookupGroup k groups = None <-> ~ In k (map fst groups).
Proof.
  induction groups as [|[k' c] groups IH]; cbn [lookupGroup map fst In].
  - intuition.
  - destruct (eqs k k') eqn:E.
    + apply eqs_true in E. subst. split; [discriminate|]. intros H. exfalso. apply H. now left.
    + apply eqs_false in E. rewrite IH. intuition.
Qed.

Lemma updateGroup_fst (k : string) (f : cluster -> cluster)
    (groups : list (string * cluster)) :
  map fst (updateGroup k f groups) = map fst groups.
Proof.
  induction groups as [|[k' c] groups IH]; cbn [updateGroup map fst]; [reflexivity|].
  destruct (eqs k k'); cbn [map fst]; [reflexivity|]. now rewrite IH.
Qed.

Lemma updateGroup_absent (k : string) (f : cluster -> cluster)
    (groups : list (string * cluster)) :
  ~ In k (map fst groups) -> updateGroup k f groups = groups.
Proof.
  induction groups as [|[k' c] groups IH]; cbn [updateGroup map fst In]; [reflexivity|].
  intros H. destruct (eqs k k') eqn:E.
  - apply eqs_true in E. subst. exfalso. apply H. now left.
  - rewrite IH; [reflexivity|]. intros Hin. apply H. now right.
Qed.

Lemma updateGroup_last (k : string) (f : cluster -> cluster)
    (groups : list (string * cluster)) (c : cluster) :
  ~ In k (map fst groups) ->
  updateGroup k f (groups ++ [(k, c)]) = groups ++ [(k, f c)].
Proof.
  induction groups as [|[k' c'] groups IH]; cbn [updateGroup map fst In app].
  - intros _. now rewrite eqs_refl.
  - intros H. destruct (eqs k k') eqn:E.
    + apply eqs_true in E. subst. exfalso. apply H. now left.
    + rewrite IH; [reflexivity|]. intros Hin. apply H. now right.
Qed.

Lemma updateGroup_In (k : string) (f : cluster -> cluster)
    (groups : list (string * cluster)) (k' : string) (c' : cluster) :
  List.NoDup (map fst groups) ->
  In (k', c') (updateGroup k f groups) ->
  (k' = k /\ exists c, In (k, c) groups /\ c' = f c)
  \/ (k' <> k /\ In (k', c') groups).
Proof.
  induction groups as [|[k0 c0] groups IH]; cbn [updateGroup map fst In]; [intros _ []|].
  intros Hnd. inversion Hnd as [|x l Hnin Hnd']; subst.
  destruct (eqs k k0) eqn:E.
  - apply eqs_true in E. subst k0. cbn [In]. intros [H|H].
    + injection H as <- <-. left. split; [reflexivity|]. exists c0. split; [now left|reflexivity].
    + right. split; [|now right]. intros ->. apply Hnin.
      change k with (fst (k, c')). now apply in_map.
  - apply eqs_false in E. cbn [In]. intros [H|H].
    + injection H as <- <-. right. split; [congruence|now left].
    + destruct (IH Hnd' H) as [[-> (c & Hc & ->)]|[Hne Hin]].
      * left. split; [reflexivity|]. exists c. split; [now right|reflexivity].
      * right. split; [exact Hne|now right].
Qed.

Lemma list_sum_cons (x : nat) (l : list nat) :
  list_sum (x :: l) = (x + list_sum l)%nat.
Proof. reflexivity. Qed.

Lemma updateGroup_sum (k : string) (f : cluster -> cluster)
    (groups : list (string * cluster)) :
  (forall c, vendas (f c) = S (vendas c)) ->
  In k (map fst groups) ->
  list_sum (map vendas (map snd (updateGroup k f groups)))
  = S (list_sum (map vendas (map snd groups))).
Proof.
  intros Hf. induction groups as [|[k' c] groups IH];
    cbn [updateGroup map fst snd In]; [intros []|].
  intros H. destruct (eqs k k') eqn:E; cbn [map fst snd]; rewrite !list_sum_cons.
  - now rewrite Hf.
  - apply eqs_false in E. destruct H as [H|H]; [congruence|].
    rewrite (IH H). lia.
Qed.

Lemma sumVendas_list_sum (cs : list cluster) :
  sumVendas cs = list_sum (map vendas cs).
Proof.
  unfold sumVendas.
  assert (G : forall a, fold_left (fun acc c => (acc + vendas c)%nat) cs a
                        = (a + list_sum (map vendas cs))%nat).
  { induction cs as [|c cs IH]; intros a; cbn [fold_left map];
      [cbn; lia|]. rewrite list_sum_cons, IH. lia. }
  now rewrite G.
Qed.

Lemma list_sum_Permutation (l l' : list nat) :
  Permutation l l' -> list_sum l = list_sum l'.
Proof. induction 1; rewrite ?list_sum_cons; cbn; lia. Qed.

Lemma sorted_lt_NoDup {A : Type} (f : A -> nat) (l : list A) :
  StronglySorted (fun a b => (f a < f b)%nat) l -> List.NoDup l.
Proof.
  induction 1 as [|x l Hs IH Hx]; constructor; [|exact IH].
  intros Hin. rewrite List.Forall_forall in Hx. specialize (Hx x Hin). lia.
Qed.

Section Grouping.
Context {host : Host}.
Variable data : DashboardData.

Lemma rowsOfKey_snoc (k : string) (pre : list DataRow) (r : DataRow) :
  rowsOfKey data k (pre ++ [r])
  = rowsOfKey data k pre ++ (if eqs (rowKey data r) k then [r] else []).
Proof. unfold rowsOfKey. rewrite List.filter_app. reflexivity. Qed.

Lemma sumFaturamento_snoc (l : list DataRow) (r : DataRow) :
  sumFaturamento data (l ++ [r]) = (sumFaturamento data l + rowValue data r)%float.
Proof. unfold sumFaturamento. now rewrite fold_left_app. Qed.

Lemma firstSeen_lt (k : string) (rs : list DataRow) :
  (firstSeen data k rs < length rs)%nat <-> exists r, In r rs /\ rowKey data r = k.
Proof.
  induction rs as [|r rs IH]; cbn [firstSeen length In].
  - split; [lia|]. intros (r & [] & _).
  - destruct (eqs (rowKey data r) k) eqn:E.
    + apply eqs_true in E. split; [|lia]. intros _. exists r. split; [now left|exact E].
    + apply eqs_false in E. split.
      * intros H. assert (H' : (firstSeen data k rs < length rs)%nat) by lia.
        apply IH in H'. destruct H' as (r' & Hin & Hk). exists r'. split; [now right|exact Hk].
      * intros (r' & [->|Hin] & Hk); [contradiction|].
        assert (H' : (firstSeen data k rs < length rs)%nat).
        { apply IH. now exists r'. }
        lia.
Qed.

Lemma firstSeen_app (k : string) (pre post : list DataRow) :
  firstSeen data k (pre ++ post)
  = if (firstSeen data k pre <? length pre)%nat then firstSeen data k pre
    else (length pre + firstSeen data k post)%nat.
Proof.
  induction pre as [|r pre IH]; cbn [firstSeen length app]; [reflexivity|].
  destruct (eqs (rowKey data r) k); [reflexivity|].
  rewrite IH. change (S (firstSeen data k pre) <? S (length pre))%nat
    with (firstSeen data k pre <? length pre)%nat.
  destruct (firstSeen data k pre <? length pre)%nat; reflexivity.
Qed.

Lemma rowsOfKey_unseen (k : string) (rs : list DataRow) :
  ~ (firstSeen data k rs < length rs)%nat -> rowsOfKey data k rs = [].
Proof.
  intros H. unfold rowsOfKey.
  induction rs as [|r rs IH]; cbn [List.filter]; [reflexivity|].
  destruct (eqs (rowKey data r) k) eqn:E.
  - exfalso. apply H. cbn [firstSeen length]. rewrite E. lia.
  - apply IH. intros H'. apply H. cbn [firstSeen length]. rewrite E. lia.
Qed.

Lemma groupsInv_nil : groupsInv data [] [].
Proof.
  repeat split; cbn; try constructor; try lia; intros; contradiction.
Qed.

Lemma groupsInv_step (groups : list (string * cluster)) (pre : list DataRow)
    (r : DataRow) :
  groupsInv data groups pre -> groupsInv data (groupStep data groups r) (pre ++ [r]).
Proof.
  intros (Hs & Hk & Hc & Hn).
  assert (Hseen : forall k, (firstSeen data k pre < length pre)%nat ->
                    firstSeen data k (pre ++ [r]) = firstSeen data k pre).
  { intros k H. rewrite firstSeen_app. apply Nat.ltb_lt in H. now rewrite H. }
  assert (Hsorted : StronglySorted
            (fun k1 k2 => (firstSeen data k1 (pre ++ [r]) < firstSeen data k2 (pre ++ [r]))%nat)
            (map fst groups)).
  { assert (G : forall l, (forall k, In k l -> In k (map fst groups)) ->
              StronglySorted (fun k1 k2 => (firstSeen data k1 pre < firstSeen data k2 pre)%nat) l ->
              StronglySorted (fun k1 k2 => (firstSeen data k1 (pre ++ [r])
                                            < firstSeen data k2 (pre ++ [r]))%nat) l).
    { induction l as [|x l IH]; intros Hsub Hl; [constructor|].
      inversion Hl as [|x' l' Hl' Hx]; subst. constructor.
      - apply IH; [|exact Hl']. intros k Hin. apply Hsub. now right.
      - rewrite List.Forall_forall in Hx |- *. intros y Hy.
        rewrite (Hseen x), (Hseen y); [now apply Hx| |].
        + apply Hk, Hsub. now right.
        + apply Hk, Hsub. now left. }
    apply G; [auto|exact Hs]. }
  assert (Hnd : List.NoDup (map fst groups)) by exact (sorted_lt_NoDup _ _ Hs).
  unfold groupStep. set (k := rowKey data r).
  assert (Hlen : length (pre ++ [r]) = S (length pre)).
  { rewrite length_app. cbn [length]. lia. }
  destruct (lookupGroup k groups) as [c0|] eqn:L.
  - (* the key is known *)
    assert (Hin : In k (map fst groups)).
    { destruct (in_dec string_dec k (map fst groups)) as [H|H]; [exact H|].
      apply lookupGroup_None in H. congruence. }
    repeat split.
    + now rewrite updateGroup_fst.
    + rewrite updateGroup_fst. intros H. rewrite Hlen.
      apply Hk in H. rewrite (Hseen _ H). lia.
    + rewrite updateGroup_fst. intros H.
      destruct (Nat.lt_ge_cases (firstSeen data k0 pre) (length pre)) as [Hlt|Hge];
        [now apply Hk|].
      exfalso. rewrite firstSeen_app in H.
      apply Nat.ltb_ge in Hge. rewrite Hge in H.
      apply Nat.ltb_ge in Hge. cbn [firstSeen] in H.
      destruct (eqs (rowKey data r) k0) eqn:E.
      * apply eqs_true in E. fold k in E. subst k0.
        apply Hk in Hin. lia.
      * rewrite Hlen in H. lia.
    + apply updateGroup_In in H; [|exact Hnd].
      destruct H as [[-> (c1 & Hc1 & ->)]|[Hne Hc1]].
      * now destruct (Hc _ _ Hc1) as (H1 & _).
      * now destruct (Hc _ _ Hc1) as (H1 & _).
    + apply updateGroup_In in H; [|exact Hnd].
      rewrite rowsOfKey_snoc. fold k.
      destruct H as [[-> (c1 & Hc1 & ->)]|[Hne Hc1]].
      * destruct (Hc _ _ Hc1) as (_ & H2 & _). rewrite eqs_refl.
        rewrite length_app. cbn [length vendas addRow]. rewrite H2. lia.
      * destruct (Hc _ _ Hc1) as (_ & H2 & _).
        destruct (eqs k k0) eqn:E; [apply eqs_true in E; congruence|].
        now rewrite app_nil_r.
    + apply updateGroup_In in H; [|exact Hnd].
      rewrite rowsOfKey_snoc. fold k.
      destruct H as [[-> (c1 & Hc1 & ->)]|[Hne Hc1]].
      * destruct (Hc _ _ Hc1) as (_ & _ & H3). rewrite eqs_refl.
        rewrite sumFaturamento_snoc. cbn [faturamento addRow]. now rewrite H3.
      * destruct (Hc _ _ Hc1) as (_ & _ & H3).
        destruct (eqs k k0) eqn:E; [apply eqs_true in E; congruence|].
        now rewrite app_nil_r.
    + rewrite updateGroup_sum; [rewrite Hn; lia|intros; reflexivity|exact Hin].
  - (* a new key *)
    assert (Hnin : ~ In k (map fst groups)) by now apply lookupGroup_None.
    assert (Hunseen : ~ (firstSeen data k pre < length pre)%nat).
    { intros H. apply Hnin. now apply Hk. }
    assert (Hnew : firstSeen data k (pre ++ [r]) = length pre).
    { rewrite firstSeen_app.
      destruct (firstSeen data k pre <? length pre)%nat eqn:E;
        [apply Nat.ltb_lt in E; contradiction|].
      cbn [firstSeen]. unfold k. rewrite eqs_refl. lia. }
    rewrite (updateGroup_last _ _ _ _ Hnin).
    repeat split.
    + rewrite map_app. cbn [map fst].
      assert (G : forall l, (forall x, In x l -> In x (map fst groups)) ->
                StronglySorted (fun k1 k2 => (firstSeen data k1 (pre ++ [r])
                                              < firstSeen data k2 (pre ++ [r]))%nat) l ->
                StronglySorted (fun k1 k2 => (firstSeen data k1 (pre ++ [r])
                                              < firstSeen data k2 (pre ++ [r]))%nat)
                  (l ++ [k])).
      { induction l as [|x l IH]; intros Hsub Hl; cbn [app].
        - repeat constructor.
        - inversion Hl as [|x' l' Hl' Hx]; subst. constructor.
          + apply IH; [|exact Hl']. intros y Hy. apply Hsub. now right.
          + apply List.Forall_app. split; [exact Hx|]. constructor; [|constructor].
            rewrite Hnew, Hseen; apply Hk, Hsub; now left. }
      apply G; [auto|exact Hsorted].
    + rewrite map_app, in_app_iff. cbn [map fst In]. rewrite Hlen.
      intros [H|[<-|[]]]; [|rewrite Hnew; lia].
      apply Hk in H. rewrite (Hseen _ H). lia.
    + rewrite map_app, in_app_iff. cbn [map fst In]. intros H.
      destruct (Nat.lt_ge_cases (firstSeen data k0 pre) (length pre)) as [Hlt|Hge];
        [left; now apply Hk|].
      right. left. rewrite firstSeen_app in H.
      apply Nat.ltb_ge in Hge. rewrite Hge in H. cbn [firstSeen] in H.
      destruct (eqs (rowKey data r) k0) eqn:E; [now apply eqs_true in E|].
      rewrite Hlen in H. lia.
    + apply in_app_or in H. destruct H as [H|[H|[]]].
      * now destruct (Hc _ _ H) as (H1 & _).
      * now injection H as <- <-.
    + rewrite rowsOfKey_snoc. fold k.
      apply in_app_or in H. destruct H as [H|[H|[]]].
      * destruct (Hc _ _ H) as (_ & H2 & _).
        destruct (eqs k k0) eqn:E.
        -- apply eqs_true in E. subst k0. exfalso. apply Hnin.
           change k with (fst (k, c)). now apply in_map.
        -- now rewrite app_nil_r.
      * injection H as <- <-. rewrite eqs_refl, (rowsOfKey_unseen _ _ Hunseen).
        reflexivity.
    + rewrite rowsOfKey_snoc. fold k.
      apply in_app_or in H. destruct H as [H|[H|[]]].
      * destruct (Hc _ _ H) as (_ & _ & H3).
        destruct (eqs k k0) eqn:E.
        -- apply eqs_true in E. subst k0. exfalso. apply Hnin.
           change k with (fst (k, c)). now apply in_map.
        -- now rewrite app_nil_r.
      * injection H as <- <-. rewrite eqs_refl, (rowsOfKey_unseen _ _ Hunseen).
        reflexivity.
    + rewrite !map_app, list_sum_app. cbn [map snd vendas addRow newGroup].
      rewrite list_sum_cons, Hn, Hlen. cbn. lia.
Qed.

Lemma groupsInv_fold (rs : list DataRow) :
  forall (groups : list (string * cluster)) (pre : list DataRow),
    groupsInv data groups pre ->
    groupsInv data (fold_left (groupStep data) rs groups) (pre ++ rs).
Proof.
  induction rs as [|r rs IH]; intros groups pre H; cbn [fold_left].
  - now rewrite app_nil_r.
  - replace (pre ++ r :: rs) with ((pre ++ [r]) ++ rs) by now rewrite <- app_assoc.
    apply IH. now apply groupsInv_step.
Qed.

Lemma collectGroups_inv (rs : list DataRow) :
  groupsInv data (collectGroups data rs) rs.
Proof. exact (groupsInv_fold rs [] [] groupsInv_nil). Qed.

End Grouping.


Lemma zsum_cons {A : Type} (f : A -> Z) (x : A) (l : list A) :
  zsum f (x :: l) = f x + zsum f l.
Proof. reflexivity. Qed.

Lemma zsum_map {A B : Type} (g : A -> B) (f : B -> Z) (l : list A) :
  zsum f (map g l) = zsum (fun x => f (g x)) l.
Proof. induction l as [|x l IH]; cbn [map]; rewrite ?zsum_cons; [reflexivity|now rewrite IH]. Qed.

Lemma zsum_ext {A : Type} (f g : A -> Z) (l : list A) :
  (forall x, In x l -> f x = g x) -> zsum f l = zsum g l.
Proof.
  induction l as [|x l IH]; intros H; [reflexivity|].
  rewrite !zsum_cons, (H x) by now left. f_equal. apply IH. intros y Hy. apply H. now right.
Qed.

Lemma zsum_le {A : Type} (f g : A -> Z) (l : list A) :
  (forall x, In x l -> f x <= g x) -> zsum f l <= zsum g l.
Proof.
  induction l as [|x l IH]; intros H; [reflexivity|].
  rewrite !zsum_cons. specialize (H x (or_introl eq_refl)) as Hx.
  assert (zsum f l <= zsum g l) by (apply IH; intros y Hy; apply H; now right). lia.
Qed.

Lemma zsum_add {A : Type} (f g : A -> Z) (l : list A) :
  zsum (fun x => f x + g x) l = zsum f l + zsum g l.
Proof. induction l as [|x l IH]; rewrite ?zsum_cons; [reflexivity|rewrite IH; lia]. Qed.

Lemma zsum_abs {A : Type} (f : A -> Z) (l : list A) :
  Z.abs (zsum f l) <= zsum (fun x => Z.abs (f x)) l.
Proof. induction l as [|x l IH]; rewrite ?zsum_cons; [reflexivity|lia]. Qed.

Lemma zsum_abs_nonneg {A : Type} (f : A -> Z) (l : list A) :
  0 <= zsum (fun x => Z.abs (f x)) l.
Proof. induction l as [|x l IH]; rewrite ?zsum_cons; [reflexivity|lia]. Qed.

Lemma zsum_filter_le {A : Type} (f : A -> Z) (p : A -> bool) (l : list A) :
  zsum (fun x => Z.abs (f x)) (List.filter p l) <= zsum (fun x => Z.abs (f x)) l.
Proof.
  induction l as [|x l IH]; cbn [List.filter]; [reflexivity|].
  destruct (p x); rewrite ?zsum_cons; lia.
Qed.

Lemma zsum_zero {A : Type} (l : list A) : zsum (fun _ => 0) l = 0.
Proof. induction l as [|x l IH]; rewrite ?zsum_cons; [reflexivity|lia]. Qed.

(** A sum that picks one key out of distinct keys. *)
Lemma zsum_indicator (k0 : string) (v : Z) (ks : list string) :
  List.NoDup ks -> In k0 ks ->
  zsum (fun k => if eqs k0 k then v else 0) ks = v.
Proof.
  induction ks as [|k ks IH]; intros Hnd Hin; [destruct Hin|].
  inversion Hnd as [|k' ks' Hnin Hnd']; subst. rewrite zsum_cons.
  destruct (eqs k0 k) eqn:E.
  - apply eqs_true in E. subst k.
    rewrite (zsum_ext _ (fun _ => 0)).
    + rewrite zsum_zero. lia.
    + intros y Hy. destruct (eqs k0 y) eqn:E'; [|reflexivity].
      apply eqs_true in E'. subst y. contradiction.
  - apply eqs_false in E. destruct Hin as [->|Hin]; [contradiction|].
    rewrite IH by assumption. lia.
Qed.

(** Summing left to right from a whole number stays exact while the
    magnitudes add up to less than 2^53. *)
Lemma fold_add_whole {A : Type} (val : A -> float) (w : A -> Z) (l : list A) :
  forall a : Z,
    (forall x, In x l -> val x = Z2F (w x)) ->
    Z.abs a + zsum (fun x => Z.abs (w x)) l < 2 ^ 53 ->
    fold_left (fun acc x => (acc + val x)%float) l (Z2F a) = Z2F (a + zsum w l).
Proof.
  induction l as [|x l IH]; intros a Hw Hb; cbn [fold_left].
  - unfold zsum. cbn [fold_right]. f_equal. lia.
  - rewrite !zsum_cons in *.
    pose proof (zsum_abs_nonneg w l) as Hn.
    rewrite (Hw x) by now left.
    rewrite Z2F_add by lia.
    rewrite IH.
    + f_equal. lia.
    + intros y Hy. apply Hw. now right.
    + lia.
Qed.

Lemma Z2F_zero : Z2F 0 = 0%float.
Proof. reflexivity. Qed.

Section WholeRevenue.
Context {host : Host}.
Variable data : DashboardData.

Lemma rowsOfKey_cons (k : string) (r : DataRow) (rs : list DataRow) :
  rowsOfKey data k (r :: rs)
  = if eqs (rowKey data r) k then r :: rowsOfKey data k rs else rowsOfKey data k rs.
Proof. reflexivity. Qed.

(** The rows of distinct keys that cover a list split its sums. *)
Lemma zsum_partition (f : DataRow -> Z) (ks : list string) (rs : list DataRow) :
  List.NoDup ks ->
  (forall r, In r rs -> In (rowKey data r) ks) ->
  zsum (fun k => zsum f (rowsOfKey data k rs)) ks = zsum f rs.
Proof.
  intros Hnd. induction rs as [|r rs IH]; intros Hc.
  - rewrite (zsum_ext _ (fun _ => 0)); [apply zsum_zero|reflexivity].
  - rewrite (zsum_ext _ (fun k => (if eqs (rowKey data r) k then f r else 0)
                                  + zsum f (rowsOfKey data k rs))).
    + rewrite zsum_add, zsum_indicator, IH, zsum_cons; [reflexivity| | |].
      * intros r' Hr'. apply Hc. now right.
      * exact Hnd.
      * apply Hc. now left.
    + intros k _. rewrite rowsOfKey_cons.
      destruct (eqs (rowKey data r) k); rewrite ?zsum_cons; lia.
Qed.

Lemma isWhole_eq (x : float) : isWhole x = true -> x = Z2F (wholePart x).
Proof. unfold isWhole. apply FloatAxioms.Leibniz.eqb_spec. Qed.

Lemma sumFaturamento_whole (l : list DataRow) :
  (forall r, In r l -> isWhole (rowValue data r) = true) ->
  sumMagnitudes data l < 2 ^ 53 ->
  sumFaturamento data l = Z2F (zsum (rowWhole data) l).
Proof.
  intros Hw Hb. unfold sumFaturamento. rewrite <- Z2F_zero.
  rewrite (fold_add_whole (rowValue data) (rowWhole data) l 0); [f_equal| |].
  - intros r Hr. apply isWhole_eq, Hw, Hr.
  - exact Hb.
Qed.

End WholeRevenue.

(** ** The clusters and the rows *)

Lemma map_key_snd (groups : list (string * cluster)) :
  (forall k c, In (k, c) groups -> key c = k) ->
  map key (map snd groups) = map fst groups.
Proof.
  induction groups as [|[k c] groups IH]; intros H; cbn [map fst snd]; [reflexivity|].
  rewrite (H k c) by now left. f_equal. apply IH. intros k' c' Hin. apply H. now right.
Qed.

Lemma in_map_snd (groups : list (string * cluster)) (c : cluster) :
  In c (map snd groups) -> exists k, In (k, c) groups.
Proof.
  intros H. apply in_map_iff in H. destruct H as ([k c'] & <- & Hin). now exists k.
Qed.

Section Clusters.
Context {host : Host}.
Variable data : DashboardData.
Variable rs : list DataRow.

Lemma groupRows_Permutation :
  Permutation (groupRows data rs) (map snd (collectGroups data rs)).
Proof. apply sortBy_Permutation. Qed.

Lemma groupRows_keys :
  map key (map snd (collectGroups data rs)) = map fst (collectGroups data rs).
Proof.
  destruct (collectGroups_inv data rs) as (_ & _ & Hc & _).
  apply map_key_snd. intros k c H. now destruct (Hc k c H).
Qed.

Lemma groupRows_cluster (c : cluster) :
  In c (groupRows data rs) ->
  (firstSeen data (key c) rs < length rs)%nat
  /\ vendas c = length (rowsOfKey data (key c) rs)
  /\ faturamento c = sumFaturamento data (rowsOfKey data (key c) rs).
Proof.
  intros H. apply (Permutation_in _ groupRows_Permutation) in H.
  destruct (in_map_snd _ _ H) as (k & Hk).
  destruct (collectGroups_inv data rs) as (_ & Hseen & Hc & _).
  destruct (Hc k c Hk) as (Hkey & H2 & H3). rewrite Hkey.
  repeat split; [|exact H2|exact H3].
  apply Hseen. change k with (fst (k, c)). now apply in_map.
Qed.

Lemma groupRows_keys_Permutation :
  Permutation (map key (groupRows data rs)) (map fst (collectGroups data rs)).
Proof. rewrite <- groupRows_keys. apply Permutation_map, groupRows_Permutation. Qed.

Lemma groupRows_keys_NoDup : List.NoDup (map key (groupRows data rs)).
Proof.
  destruct (collectGroups_inv data rs) as (Hs & _).
  apply (Permutation_NoDup (Permutation_sym groupRows_keys_Permutation)).
  exact (sorted_lt_NoDup _ _ Hs).
Qed.

Lemma groupRows_cover (r : DataRow) :
  In r rs -> In (rowKey data r) (map key (groupRows data rs)).
Proof.
  intros Hr. destruct (collectGroups_inv data rs) as (_ & Hseen & _).
  apply (Permutation_in _ (Permutation_sym groupRows_keys_Permutation)), Hseen, firstSeen_lt.
  now exists r.
Qed.

(** With whole revenues of small total magnitude no addition rounds,
    and the cluster revenues add up to the revenue of all rows. *)
Lemma groupRows_whole_revenue :
  forallb (fun r => isWhole (rowValue data r)) rs = true ->
  sumMagnitudes data rs < 2 ^ 53 ->
  sumClusterFaturamento (groupRows data rs) = sumFaturamento data rs.
Proof.
  intros Hw Hb. rewrite forallb_forall in Hw.
  set (w := fun c : cluster => zsum (rowWhole data) (rowsOfKey data (key c) rs)).
  assert (Hc : forall c, In c (groupRows data rs) -> faturamento c = Z2F (w c)).
  { intros c Hin. destruct (groupRows_cluster c Hin) as (_ & _ & ->).
    apply sumFaturamento_whole.
    - intros r Hr. apply Hw. unfold rowsOfKey in Hr.
      now apply List.filter_In in Hr.
    - eapply Z.le_lt_trans; [apply zsum_filter_le|exact Hb]. }
  assert (Hp : forall f : DataRow -> Z,
             zsum (fun c => zsum f (rowsOfKey data (key c) rs)) (groupRows data rs)
             = zsum f rs).
  { intros f. rewrite <- (zsum_map key (fun k => zsum f (rowsOfKey data k rs))).
    apply zsum_partition; [exact groupRows_keys_NoDup|exact groupRows_cover]. }
  unfold sumClusterFaturamento. rewrite <- Z2F_zero.
  rewrite (fold_add_whole faturamento w (groupRows data rs) 0 Hc).
  - rewrite (sumFaturamento_whole data rs Hw Hb). f_equal.
    unfold w. rewrite Hp. lia.
  - eapply Z.le_lt_trans; [|exact Hb].
    unfold sumMagnitudes. rewrite <- (Hp (fun r => Z.abs (rowWhole data r))).
    cbn [Z.abs Z.add]. apply zsum_le. intros c _. unfold w. apply zsum_abs.
Qed.

End Clusters.

(** C2 (as amended): over any filtered rows, the sale counts of the
    clusters add up to the number of rows; the clusters have distinct
    keys and every row has the key of one of them; each cluster holds
    the number of the rows with its key and the rollup revenue computed
    over those rows; and when every row revenue is a whole number and
    the magnitudes add up to less than 2^53, so that no addition rounds,
    the cluster revenues add up to the rollup revenue of all rows. *)
Theorem C2_clusters_partition_rows (host : Host) (data : DashboardData)
    (investment : float) (rs : list DataRow) :
  sumVendas (groupRows data rs) = length rs
  /\ List.NoDup (map key (groupRows data rs))
  /\ List.Forall (fun r => In (rowKey data r) (map key (groupRows data rs))) rs
  /\ List.Forall
       (fun c => vendas c = length (rowsOfKey data (key c) rs)
                 /\ faturamento c
                    = fat (statsOf data investment (rowsOfKey data (key c) rs)))
       (groupRows data rs)
  /\ (forallb (fun r => isWhole (rowValue data r)) rs = true ->
      sumMagnitudes data rs < 2 ^ 53 ->
      sumClusterFaturamento (groupRows data rs) = fat (statsOf data investment rs)).
Proof.
  destruct (collectGroups_inv data rs) as (Hs & Hseen & Hc & Hn).
  split; [|split; [|split; [|split]]].
  - rewrite sumVendas_list_sum, <- Hn.
    apply list_sum_Permutation, Permutation_map, groupRows_Permutation.
  - apply groupRows_keys_NoDup.
  - apply List.Forall_forall. intros r Hr. now apply groupRows_cover.
  - apply List.Forall_forall. intros c Hin.
    destruct (groupRows_cluster data rs c Hin) as (_ & H2 & H3). now split.
  - apply groupRows_whole_revenue.
Qed.

Lemma C2_clusters_partition_rows_witness :
  forallb (fun r => isWhole (rowValue scenario r)) (rows scenario) = true
  /\ sumMagnitudes scenario (rows scenario) = 150
  /\ sumClusterFaturamento (@groupRows exampleHost scenario (rows scenario))
     = fat (statsOf scenario 0 (rows scenario)).
Proof.
  split; [vm_compute; reflexivity|]. split; [vm_compute; reflexivity|].
  apply (proj2 (proj2 (proj2 (proj2
           (C2_clusters_partition_rows exampleHost scenario 0 (rows scenario)))))).
  - vm_compute; reflexivity.
  - vm_compute; reflexivity.
Defined.

(** C2, as stated, fails: for the sales of 19,90 and 99,90 in one
    cluster and 29,90 in another, the cluster revenues add up to
    149.70000000000002 while the rollup revenue is 149.7. *)
Lemma C2_revenue_sum_counterexample :
  parseCSV centsCsv = Some (tableOf centsCsv)
  /\ map (fun c => (key c, vendas c, faturamento c))
       (@groupedPerformance exampleHost (tableOf centsCsv) [] "" PresetAll "" "")
     = [("facebook|promo", 2%nat, 119.80000000000001%float);
        ("google|promo", 1%nat, 29.9%float)]
  /\ sumClusterFaturamento
       (@groupedPerformance exampleHost (tableOf centsCsv) [] "" PresetAll "" "")
     = 149.70000000000002%float
  /\ fat (@stats exampleHost (tableOf centsCsv) [] "" PresetAll "" "" 0) = 149.7%float
  /\ (149.70000000000002 =? 149.7)%float = false
  /\ sumClusterFaturamento
       (@groupedPerformance exampleHost (tableOf centsCsv) [] "" PresetAll "" "")
     <> fat (@stats exampleHost (tableOf centsCsv) [] "" PresetAll "" "" 0).
Proof.
  split; [vm_compute; reflexivity|].
  split; [vm_compute; reflexivity|].
  split; [vm_compute; reflexivity|].
  split; [vm_compute; reflexivity|].
  split; [vm_compute; reflexivity|].
  intros H.
  apply (f_equal (fun x => (x =? 149.7)%float)) in H.
  vm_compute in H. discriminate H.
Qed.

(** C8: the clusters come sorted by falling sale count, each has the key
    of some row, and of two clusters with the same sale count the one
    listed first is the one whose key occurs first among the rows. *)
Theorem C8_clusters_sorted_stably (host : Host) (data : DashboardData)
    (rs : list DataRow) :
  StronglySorted (fun a b => (vendas b <= vendas a)%nat) (groupRows data rs)
  /\ List.Forall (fun c => (firstSeen data (key c) rs < length rs)%nat)
       (groupRows data rs)
  /\ forall (i j : nat) (a b : cluster),
       nth_error (groupRows data rs) i = Some a ->
       nth_error (groupRows data rs) j = Some b ->
       (i < j)%nat ->
       vendas a = vendas b ->
       (firstSeen data (key a) rs < firstSeen data (key b) rs)%nat.
Proof.
  split; [|split].
  - apply (sortBy_sorted byVendasDesc vendas byVendasDesc_measure).
  - apply List.Forall_forall. intros c Hin.
    now destruct (groupRows_cluster data rs c Hin).
  - intros i j a b Hi Hj Hlt Hv.
    pose proof (nth_error_Before _ _ _ _ _ Hi Hj Hlt) as HB.
    apply (sortBy_Before byVendasDesc vendas byVendasDesc_measure _ _ _ Hv) in HB.
    apply (Before_map key) in HB. rewrite groupRows_keys in HB.
    destruct (collectGroups_inv data rs) as (Hs & _).
    exact (Before_sorted _ _ _ _ Hs HB).
Qed.

Lemma C8_clusters_sorted_stably_witness :
  map (fun c => (key c, vendas c))
    (@groupRows exampleHost (tableOf tiesCsv) (rows (tableOf tiesCsv)))
  = [("google|x", 2%nat); ("facebook|x", 2%nat); ("kwai|x", 1%nat)]
  /\ (@firstSeen exampleHost (tableOf tiesCsv) "google|x" (rows (tableOf tiesCsv))
      < @firstSeen exampleHost (tableOf tiesCsv) "facebook|x" (rows (tableOf tiesCsv)))%nat.
Proof.
  split; [vm_compute; reflexivity|].
  pose proof (proj2 (proj2 (C8_clusters_sorted_stably exampleHost (tableOf tiesCsv)
                              (rows (tableOf tiesCsv))))
                0%nat 1%nat
                (nth 0 (@groupRows exampleHost (tableOf tiesCsv) (rows (tableOf tiesCsv)))
                   (@newGroup exampleHost (tableOf tiesCsv) ∅))
                (nth 1 (@groupRows exampleHost (tableOf tiesCsv) (rows (tableOf tiesCsv)))
                   (@newGroup exampleHost (tableOf tiesCsv) ∅))
                ltac:(vm_compute; reflexivity) ltac:(vm_compute; reflexivity)
                ltac:(lia) ltac:(vm_compute; reflexivity)) as H.
  vm_compute in H |- *. exact H.
Defined.

(** ** The labels of source and campaign *)

Lemma cleanUTMSource_idem (val : string) :
  cleanUTMSource (cleanUTMSource val) = cleanUTMSource val.
Proof.
  destruct (eqs val "") eqn:E0.
  { apply eqs_true in E0. subst val. reflexivity. }
  assert (H : cleanUTMSource val = "tiktok" \/ cleanUTMSource val = "facebook"
              \/ cleanUTMSource val = "instagram" \/ cleanUTMSource val = "google"
              \/ cleanUTMSource val = "kwai"
              \/ (cleanUTMSource val = val
                  /\ includes "tiktok" (toLowerCase val) = false
                  /\ includes "facebook" (toLowerCase val) || includes "fb" (toLowerCase val) = false
                  /\ includes "instagram" (toLowerCase val) || includes "ig" (toLowerCase val) = false
                  /\ includes "google" (toLowerCase val) = false
                  /\ includes "kwai" (toLowerCase val) = false)).
  { unfold cleanUTMSource. rewrite E0.
    destruct (includes "tiktok" (toLowerCase val)); [tauto|].
    destruct (includes "facebook" (toLowerCase val) || includes "fb" (toLowerCase val));
      [tauto|].
    destruct (includes "instagram" (toLowerCase val) || includes "ig" (toLowerCase val));
      [tauto|].
    destruct (includes "google" (toLowerCase val)); [tauto|].
    destruct (includes "kwai" (toLowerCase val)); tauto. }
  destruct H as [H|[H|[H|[H|[H|(H & E1 & E2 & E3 & E4 & E5)]]]]];
    rewrite H; try reflexivity.
  unfold cleanUTMSource. now rewrite E0, E1, E2, E3, E4, E5.
Qed.

(** X30: the label of a source is one of the five platform names or
    [organic], or the value itself, and labelling a label changes
    nothing. *)
Theorem source_label_stable (val : string) :
  cleanUTMSource (cleanUTMSource val) = cleanUTMSource val
  /\ In (cleanUTMSource val)
       ["tiktok"; "facebook"; "instagram"; "google"; "kwai"; "organic"; val].
Proof.
  split; [apply cleanUTMSource_idem|].
  unfold cleanUTMSource. cbn [In].
  destruct (eqs val ""); [tauto|].
  destruct (includes "tiktok" (toLowerCase val)); [tauto|].
  destruct (includes "facebook" (toLowerCase val) || includes "fb" (toLowerCase val));
    [tauto|].
  destruct (includes "instagram" (toLowerCase val) || includes "ig" (toLowerCase val));
    [tauto|].
  destruct (includes "google" (toLowerCase val)); [tauto|].
  destruct (includes "kwai" (toLowerCase val)); tauto.
Qed.

Lemma countChar_app (a : ascii) (s t : string) :
  countChar a (s ++ t)%string = (countChar a s + countChar a t)%nat.
Proof.
  induction s as [|c s IH]; [reflexivity|].
  change (String c s ++ t)%string with (String c (s ++ t)%string).
  cbn [countChar]. rewrite IH. lia.
Qed.

Lemma countChar_trimStart (a : ascii) (s : string) :
  (countChar a (trimStart s) <= countChar a s)%nat.
Proof.
  induction s as [|c s IH]; cbn [trimStart countChar]; [lia|].
  destruct (is_ws c); cbn [countChar]; lia.
Qed.

Lemma countChar_trimEnd (a : ascii) (s : string) :
  (countChar a (trimEnd s) <= countChar a s)%nat.
Proof.
  induction s as [|c s IH]; cbn [trimEnd countChar]; [lia|].
  destruct (trimEnd s) as [|c' s'] eqn:E.
  - destruct (is_ws c); cbn [countChar]; lia.
  - cbn [countChar] in *. lia.
Qed.

Lemma countChar_trim (a : ascii) (s : string) :
  (countChar a (trim s) <= countChar a s)%nat.
Proof.
  unfold trim. etransitivity; [apply countChar_trimEnd|apply countChar_trimStart].
Qed.

Lemma split_nonempty (sep : ascii) (s : string) : split sep s <> [].
Proof.
  induction s as [|c s IH]; cbn [split]; [discriminate|].
  destruct (Ascii.eqb c sep); [discriminate|].
  destruct (split sep s); discriminate.
Qed.

Lemma firstPiece_no_sep (sep : ascii) (s : string) :
  countChar sep (firstPiece sep s) = 0%nat.
Proof.
  unfold firstPiece.
  induction s as [|c s IH]; cbn [split hd countChar]; [reflexivity|].
  destruct (Ascii.eqb c sep) eqn:E; [reflexivity|].
  destruct (split sep s) as [|p ps] eqn:Es; cbn [hd countChar] in *; rewrite E;
    [reflexivity|exact IH].
Qed.

Lemma cleanUTMCampaign_no_pipe (val : string) :
  countChar "|" (cleanUTMCampaign val) = 0%nat.
Proof.
  unfold cleanUTMCampaign. destruct (eqs val ""); [reflexivity|].
  pose proof (countChar_trim "|" (firstPiece "|" val)) as H.
  rewrite firstPiece_no_sep in H. lia.
Qed.

(** A text, a bar and a text without bar determine both texts. *)
Lemma bar_join_inj (s1 s2 c1 c2 : string) :
  countChar "|" c1 = 0%nat -> countChar "|" c2 = 0%nat ->
  (s1 ++ String "|" c1 = s2 ++ String "|" c2)%string -> s1 = s2 /\ c1 = c2.
Proof.
  intros H1 H2. revert s2.
  induction s1 as [|a s1 IH]; intros [|b s2] H.
  - change (String "|" c1 = String "|" c2) in H. injection H as ->. now split.
  - change (String "|" c1 = String b (s2 ++ String "|" c2)%string) in H.
    injection H as <- ->. rewrite countChar_app in H1.
    change (countChar "|" (String "|" c2)) with (S (countChar "|" c2)) in H1. lia.
  - change (String a (s1 ++ String "|" c1)%string = String "|" c2) in H.
    injection H as -> <-. rewrite countChar_app in H2.
    change (countChar "|" (String "|" c1)) with (S (countChar "|" c1)) in H2. lia.
  - change (String a (s1 ++ String "|" c1)%string = String b (s2 ++ String "|" c2)%string) in H.
    injection H as <- H. destruct (IH _ H) as [-> ->]. now split.
Qed.

(** ** What a cluster records *)

Section ClusterFold.
Context {host : Host}.
Variable data : DashboardData.

(** A property of a cluster and of the rows of its key read so far that
    holds of a new cluster with its first row, and that one more row of
    the key preserves, holds of every cluster in the end. *)
Variable Q : cluster -> list DataRow -> Prop.
Hypothesis Q_new : forall r, Q (addRow data r (newGroup data r)) [r].
Hypothesis Q_add : forall c l r,
  l <> [] -> (forall x, In x l -> rowKey data x = rowKey data r) ->
  Q c l -> Q (addRow data r c) (l ++ [r]).

Lemma rowsOfKey_key (k : string) (rs : list DataRow) (x : DataRow) :
  In x (rowsOfKey data k rs) -> rowKey data x = k.
Proof.
  unfold rowsOfKey. intros H. apply List.filter_In in H. destruct H as [_ H].
  now apply eqs_true.
Qed.

Lemma rowsOfKey_seen (k : string) (rs : list DataRow) :
  (firstSeen data k rs < length rs)%nat -> rowsOfKey data k rs <> [].
Proof.
  intros H. apply firstSeen_lt in H. destruct H as (r & Hin & Hk).
  intros E. assert (Hr : In r (rowsOfKey data k rs)).
  { unfold rowsOfKey. apply List.filter_In. split; [exact Hin|]. subst k. apply eqs_refl. }
  rewrite E in Hr. exact Hr.
Qed.

Lemma clusterInv_step (groups : list (string * cluster)) (pre : list DataRow)
    (r : DataRow) :
  groupsInv data groups pre ->
  (forall k c, In (k, c) groups -> Q c (rowsOfKey data k pre)) ->
  forall k c, In (k, c) (groupStep data groups r) -> Q c (rowsOfKey data k (pre ++ [r])).
Proof.
  intros (Hs & Hk & _ & _) HQ k c. unfold groupStep.
  assert (Hnd : List.NoDup (map fst groups)) by exact (sorted_lt_NoDup _ _ Hs).
  assert (Hother : forall k', k' <> rowKey data r ->
            rowsOfKey data k' (pre ++ [r]) = rowsOfKey data k' pre).
  { intros k' Hne. rewrite rowsOfKey_snoc.
    destruct (eqs (rowKey data r) k') eqn:E; [|apply app_nil_r].
    apply eqs_true in E. congruence. }
  destruct (lookupGroup (rowKey data r) groups) as [c0|] eqn:El.
  - assert (Hin : In (rowKey data r) (map fst groups)).
    { destruct (in_dec string_dec (rowKey data r) (map fst groups)) as [H|H]; [exact H|].
      apply lookupGroup_None in H. congruence. }
    intros H. destruct (updateGroup_In _ _ _ _ _ Hnd H) as [[-> (c1 & Hc1 & ->)]|[Hne Hc]].
    + rewrite rowsOfKey_snoc, eqs_refl. apply Q_add.
      * apply rowsOfKey_seen. now apply Hk.
      * intros x. apply rowsOfKey_key.
      * now apply HQ.
    + rewrite (Hother _ Hne). now apply HQ.
  - apply lookupGroup_None in El.
    rewrite (updateGroup_last _ _ _ _ El). intros H. apply in_app_or in H.
    destruct H as [H|[H|[]]].
    + assert (Hne : k <> rowKey data r).
      { intros ->. apply El. change (rowKey data r) with (fst (rowKey data r, c)).
        now apply in_map. }
      rewrite (Hother _ Hne). now apply HQ.
    + injection H as <- <-. rewrite rowsOfKey_snoc, eqs_refl.
      rewrite rowsOfKey_unseen; [apply Q_new|].
      intros Hlt. apply El. now apply Hk.
Qed.

Lemma clusterInv_fold (rs : list DataRow) :
  forall (groups : list (string * cluster)) (pre : list DataRow),
    groupsInv data groups pre ->
    (forall k c, In (k, c) groups -> Q c (rowsOfKey data k pre)) ->
    forall k c, In (k, c) (fold_left (groupStep data) rs groups) ->
                Q c (rowsOfKey data k (pre ++ rs)).
Proof.
  induction rs as [|r rs IH]; intros groups pre Hg HQ; cbn [fold_left].
  - now rewrite app_nil_r.
  - replace (pre ++ r :: rs) with ((pre ++ [r]) ++ rs) by now rewrite <- app_assoc.
    apply IH; [now apply groupsInv_step|now apply clusterInv_step].
Qed.

Lemma groupRows_inv (rs : list DataRow) (c : cluster) :
  In c (groupRows data rs) -> Q c (rowsOfKey data (key c) rs).
Proof.
  intros H. apply (Permutation_in _ (groupRows_Permutation data rs)) in H.
  destruct (in_map_snd _ _ H) as (k & Hk).
  destruct (collectGroups_inv data rs) as (_ & _ & Hc & _).
  destruct (Hc k c Hk) as (-> & _).
  apply (clusterInv_fold rs [] [] (groupsInv_nil data)); [intros ? ? []|exact Hk].
Qed.

End ClusterFold.

(** Two rows have the same cluster key exactly when they have the same
    cleaned source and the same cleaned campaign. *)
Lemma rowKey_inj {host : Host} (data : DashboardData) (r1 r2 : DataRow) :
  rowKey data r1 = rowKey data r2 <->
  rowSource data r1 = rowSource data r2 /\ rowCampaign data r1 = rowCampaign data r2.
Proof.
  unfold rowKey. split.
  - intros H. apply bar_join_inj; [apply cleanUTMCampaign_no_pipe..|exact H].
  - intros [-> ->]. reflexivity.
Qed.

Lemma distinct_snoc (l : list string) (x : string) :
  distinct (l ++ [x]) = setAdd x (distinct l).
Proof. unfold distinct. now rewrite fold_left_app. Qed.

Lemma setAdd_In (x y : string) (l : list string) :
  In y (setAdd x l) <-> y = x \/ In y l.
Proof.
  unfold setAdd. destruct (existsb (eqs x) l) eqn:E.
  - split; [now right|]. intros [->|H]; [|exact H].
    apply existsb_exists in E. destruct E as (z & Hz & Ez).
    apply eqs_true in Ez. now subst z.
  - rewrite in_app_iff. cbn [In]. intuition.
Qed.

Lemma setAdd_NoDup (x : string) (l : list string) :
  List.NoDup l -> List.NoDup (setAdd x l).
Proof.
  intros H. unfold setAdd. destruct (existsb (eqs x) l) eqn:E; [exact H|].
  apply NoDup_rev in H. apply (Permutation_NoDup (l := x :: l)).
  - apply Permutation_cons_append.
  - constructor; [|now apply NoDup_rev in H; rewrite rev_involutive in H].
    intros Hin. assert (Ex : existsb (eqs x) l = true).
    { apply existsb_exists. exists x. split; [exact Hin|apply eqs_refl]. }
    congruence.
Qed.

Lemma distinct_In (l : list string) (y : string) : In y (distinct l) <-> In y l.
Proof.
  induction l as [|x l IH] using rev_ind; [reflexivity|].
  rewrite distinct_snoc, setAdd_In, in_app_iff, IH. cbn [In]. intuition.
Qed.

Lemma distinct_NoDup (l : list string) : List.NoDup (distinct l).
Proof.
  induction l as [|x l IH] using rev_ind; [constructor|].
  rewrite distinct_snoc. now apply setAdd_NoDup.
Qed.

(** X1: two rows fall into the same cluster exactly when their cleaned
    source and their cleaned campaign agree: the key joins the two with
    a bar, and a cleaned campaign holds no bar. *)
Theorem cluster_key_separates (host : Host) (data : DashboardData) (r1 r2 : DataRow) :
  countChar "|" (rowCampaign data r1) = 0%nat
  /\ (rowKey data r1 = rowKey data r2 <->
      rowSource data r1 = rowSource data r2 /\ rowCampaign data r1 = rowCampaign data r2).
Proof.
  split; [apply cleanUTMCampaign_no_pipe|apply rowKey_inj].
Qed.

(** X2: no two clusters share source and campaign; the key of a cluster
    is its source, a bar and its campaign; and a row is counted in the
    cluster exactly when it has that source and that campaign. *)
Theorem clusters_by_source_and_campaign (host : Host) (data : DashboardData)
    (rs : list DataRow) :
  List.NoDup (map (fun c => (source c, campanha c)) (groupRows data rs))
  /\ forall c, In c (groupRows data rs) ->
       key c = (source c ++ "|" ++ campanha c)%string
       /\ forall r, In r rs ->
            (In r (rowsOfKey data (key c) rs) <->
             rowSource data r = source c /\ rowCampaign data r = campanha c).
Proof.
  assert (H : forall c, In c (groupRows data rs) ->
            key c = (source c ++ "|" ++ campanha c)%string
            /\ forall x, In x (rowsOfKey data (key c) rs) ->
                 rowSource data x = source c /\ rowCampaign data x = campanha c).
  { intros c Hc.
    apply (groupRows_inv data
             (fun c l => key c = (source c ++ "|" ++ campanha c)%string
                         /\ forall x, In x l ->
                              rowSource data x = source c /\ rowCampaign data x = campanha c));
      [| |exact Hc].
    - intros r. split; [reflexivity|]. intros x [<-|[]]. now split.
    - intros c0 l r Hne Hk [Hkey Hl].
      change (key c0 = (source c0 ++ "|" ++ campanha c0)%string
              /\ forall x, In x (l ++ [r]) ->
                   rowSource data x = source c0 /\ rowCampaign data x = campanha c0).
      split; [exact Hkey|].
      intros x Hx. apply in_app_or in Hx. destruct Hx as [Hx|[<-|[]]]; [now apply Hl|].
      destruct l as [|y l]; [contradiction|].
      destruct (Hl y (or_introl eq_refl)) as [<- <-].
      apply rowKey_inj. symmetry. apply Hk. now left. }
  split.
  - apply (NoDup_map_inv (fun p => (fst p ++ "|" ++ snd p)%string)).
    rewrite map_map.
    rewrite (map_ext_in _ key); [apply groupRows_keys_NoDup|].
    intros c Hc. symmetry. now apply H.
  - intros c Hc. destruct (H c Hc) as [Hkey Hrows]. split; [exact Hkey|].
    intros r Hr. split; [apply Hrows|].
    intros [Hs Hca]. unfold rowsOfKey. apply List.filter_In. split; [exact Hr|].
    rewrite Hkey. unfold rowKey. rewrite Hs, Hca. apply eqs_refl.
Qed.

(** X3: the contents of a cluster are the content values of its rows,
    each once, in the order in which they first occur. *)
Theorem cluster_contents (host : Host) (data : DashboardData) (rs : list DataRow)
    (c : cluster) :
  In c (groupRows data rs) ->
  contents c = distinct (map (rowContent data) (rowsOfKey data (key c) rs))
  /\ List.NoDup (contents c)
  /\ forall x, In x (contents c) <->
       exists r, In r rs /\ rowKey data r = key c /\ rowContent data r = x.
Proof.
  intros Hc.
  assert (H : contents c = distinct (map (rowContent data) (rowsOfKey data (key c) rs))).
  { apply (groupRows_inv data (fun c l => contents c = distinct (map (rowContent data) l)));
      [| |exact Hc].
    - intros r. reflexivity.
    - intros c0 l r _ _ Hl.
      change (setAdd (rowContent data r) (contents c0)
              = distinct (map (rowContent data) (l ++ [r]))).
      rewrite List.map_app. cbn [map]. now rewrite distinct_snoc, Hl. }
  split; [exact H|]. rewrite H. split; [apply distinct_NoDup|].
  intros x. rewrite distinct_In, in_map_iff. unfold rowsOfKey. split.
  - intros (r & Hx & Hr). apply List.filter_In in Hr. destruct Hr as [Hr Hk].
    exists r. repeat split; [exact Hr|now apply eqs_true|exact Hx].
  - intros (r & Hr & Hk & Hx). exists r. split; [exact Hx|].
    apply List.filter_In. split; [exact Hr|]. rewrite Hk. apply eqs_refl.
Qed.

Lemma cluster_contents_witness :
  contents (nth 0 (@groupRows exampleHost ads (rows ads)) (@newGroup exampleHost ads ∅))
  = distinct (map (@rowContent exampleHost ads)
                (@rowsOfKey exampleHost ads
                   (key (nth 0 (@groupRows exampleHost ads (rows ads))
                           (@newGroup exampleHost ads ∅)))
                   (rows ads))).
Proof.
  assert (H : In (nth 0 (@groupRows exampleHost ads (rows ads))
                       (@newGroup exampleHost ads ∅))
                 (@groupRows exampleHost ads (rows ads))).
  { apply nth_In. vm_compute. lia. }
  exact (proj1 (cluster_contents exampleHost ads (rows ads) _ H)).
Defined.


Lemma countOf_snoc (f : DataRow -> string) (k : string) (l : list DataRow) (r : DataRow) :
  countOf f k (l ++ [r]) = (countOf f k l + (if eqs (f r) k then 1 else 0))%nat.
Proof.
  unfold countOf. rewrite List.filter_app, length_app. cbn [List.filter].
  destruct (eqs (f r) k); reflexivity.
Qed.

(** X4: provided no product name of the rows is a name that every
    object inherits, the product table of a cluster holds, for each
    product, the number of the rows of the cluster with that product,
    and no entry for a product that none of them has. *)
Theorem cluster_products (host : Host) (data : DashboardData) (rs : list DataRow)
    (c : cluster) (p : string) :
  forallb (fun r => negb (inheritedName (rowProduct data r))) rs = true ->
  In c (groupRows data rs) ->
  productsMap c !! p
  = (let n := countOf (rowProduct data) p (rowsOfKey data (key c) rs) in
     if (n =? 0)%nat then None else Some n).
Proof.
  intros _ Hc.
  apply (groupRows_inv data
           (fun c l => forall p, productsMap c !! p
                       = (let n := countOf (rowProduct data) p l in
                          if (n =? 0)%nat then None else Some n)));
    [| |exact Hc].
  - intros r q. change (productsMap (addRow data r (newGroup data r)))
      with (<[rowProduct data r := 1%nat]> (∅ : gmap string nat)).
    unfold countOf. cbn [List.filter].
    destruct (eqs (rowProduct data r) q) eqn:E.
    + apply eqs_true in E. subst q. now rewrite lookup_insert_eq.
    + apply eqs_false in E. now rewrite lookup_insert_ne.
  - intros c0 l r _ _ Hl q.
    change (productsMap (addRow data r c0))
      with (<[rowProduct data r := S (default 0%nat (productsMap c0 !! rowProduct data r))]>
              (productsMap c0)).
    cbv zeta. rewrite countOf_snoc.
    destruct (eqs (rowProduct data r) q) eqn:E.
    + apply eqs_true in E. subst q. rewrite lookup_insert_eq, Hl. cbv zeta.
      destruct (countOf (rowProduct data) (rowProduct data r) l) as [|n] eqn:En;
        cbn [Nat.eqb default]; rewrite ?Nat.add_1_r; reflexivity.
    + apply eqs_false in E. rewrite lookup_insert_ne by exact E.
      rewrite Hl. cbv zeta. now rewrite Nat.add_0_r.
Qed.

Lemma cluster_products_witness :
  productsMap (nth 0 (@groupRows exampleHost ads (rows ads)) (@newGroup exampleHost ads ∅))
    !! "Curso"
  = Some 2%nat.
Proof.
  rewrite (cluster_products exampleHost ads (rows ads)
             (nth 0 (@groupRows exampleHost ads (rows ads)) (@newGroup exampleHost ads ∅))
             "Curso").
  - vm_compute. reflexivity.
  - vm_compute. reflexivity.
  - apply nth_In. vm_compute. lia.
Defined.

Lemma timeOf_parse {host : Host} (s : string) (t : Z) :
  timeOf s = Some t -> parseBrazilianDate (VStr s) = Some (DateAt t).
Proof.
  unfold timeOf. destruct (parseBrazilianDate (VStr s)) as [[|t']|]; congruence.
Qed.

Lemma hasTime_timeOf {host : Host} (s : string) :
  hasTime s = true -> exists t, timeOf s = Some t.
Proof.
  unfold hasTime. destruct (timeOf s) as [t|]; [now exists t|discriminate].
Qed.

Lemma isBefore_untimed_l {host : Host} (s : string) (d : option Date) :
  hasTime s = false -> isBefore (parseBrazilianDate (VStr s)) d = false.
Proof.
  unfold hasTime, timeOf. destruct (parseBrazilianDate (VStr s)) as [[|t]|];
    destruct d as [[|t']|]; try reflexivity; discriminate.
Qed.

Lemma isBefore_untimed_r {host : Host} (s : string) (d : option Date) :
  hasTime s = false -> isBefore d (parseBrazilianDate (VStr s)) = false.
Proof.
  unfold hasTime, timeOf. destruct (parseBrazilianDate (VStr s)) as [[|t]|];
    destruct d as [[|t']|]; try reflexivity; discriminate.
Qed.

(** X5: when the date of every row parses to a valid date, the first
    and the last date of a cluster are dates of its rows, the earliest
    and the latest of them. *)
Theorem cluster_date_range (host : Host) (data : DashboardData) (rs : list DataRow)
    (c : cluster) :
  forallb (fun r => hasTime (rowDateStr data r)) rs = true ->
  In c (groupRows data rs) ->
  exists tmin tmax,
    timeOf (minDate c) = Some tmin /\ timeOf (maxDate c) = Some tmax
    /\ In (minDate c) (map (rowDateStr data) (rowsOfKey data (key c) rs))
    /\ In (maxDate c) (map (rowDateStr data) (rowsOfKey data (key c) rs))
    /\ forall r, In r (rowsOfKey data (key c) rs) ->
         exists t, timeOf (rowDateStr data r) = Some t /\ tmin <= t <= tmax.
Proof.
  intros Hall Hc.
  assert (Hv : forall x, In x (rowsOfKey data (key c) rs) ->
                 hasTime (rowDateStr data x) = true).
  { intros x Hx. unfold rowsOfKey in Hx. apply List.filter_In in Hx.
    rewrite forallb_forall in Hall. now apply Hall. }
  revert Hv.
  apply (groupRows_inv data
           (fun c l =>
              (forall x, In x l -> hasTime (rowDateStr data x) = true) ->
              exists tmin tmax,
                timeOf (minDate c) = Some tmin /\ timeOf (maxDate c) = Some tmax
                /\ In (minDate c) (map (rowDateStr data) l)
                /\ In (maxDate c) (map (rowDateStr data) l)
                /\ forall r, In r l ->
                     exists t, timeOf (rowDateStr data r) = Some t /\ tmin <= t <= tmax));
    [| |exact Hc].
  - intros r Hv. destruct (hasTime_timeOf _ (Hv r (or_introl eq_refl))) as (t & Ht).
    change (minDate (addRow data r (newGroup data r)))
      with (if isBefore (parseBrazilianDate (VStr (rowDateStr data r)))
                        (parseBrazilianDate (VStr (rowDateStr data r)))
            then rowDateStr data r else rowDateStr data r).
    change (maxDate (addRow data r (newGroup data r)))
      with (if isBefore (parseBrazilianDate (VStr (rowDateStr data r)))
                        (parseBrazilianDate (VStr (rowDateStr data r)))
            then rowDateStr data r else rowDateStr data r).
    destruct (isBefore _ _).
    + exists t, t. repeat split; try exact Ht; try (now left).
      intros x [<-|[]]. exists t. split; [exact Ht|lia].
    + exists t, t. repeat split; try exact Ht; try (now left).
      intros x [<-|[]]. exists t. split; [exact Ht|lia].
  - intros c0 l r _ _ IH Hv.
    destruct IH as (tmin & tmax & Hmin & Hmax & Imin & Imax & Hl).
    { intros x Hx. apply Hv, in_or_app. now left. }
    assert (Hr : In r (l ++ [r])) by (apply in_or_app; right; now left).
    destruct (hasTime_timeOf _ (Hv r Hr)) as (t & Ht).
    change (minDate (addRow data r c0))
      with (if isBefore (parseBrazilianDate (VStr (rowDateStr data r)))
                        (parseBrazilianDate (VStr (minDate c0)))
            then rowDateStr data r else minDate c0).
    change (maxDate (addRow data r c0))
      with (if isBefore (parseBrazilianDate (VStr (maxDate c0)))
                        (parseBrazilianDate (VStr (rowDateStr data r)))
            then rowDateStr data r else maxDate c0).
    rewrite (timeOf_parse _ _ Ht), (timeOf_parse _ _ Hmin), (timeOf_parse _ _ Hmax).
    cbn [isBefore dateLt]. rewrite List.map_app. cbn [map].
    assert (Hmm : tmin <= tmax).
    { destruct l as [|y l]; [destruct Imin|].
      destruct (Hl y (or_introl eq_refl)) as (ty & _ & Hy). lia. }
    exists (if t <? tmin then t else tmin), (if tmax <? t then t else tmax).
    split; [destruct (t <? tmin); assumption|].
    split; [destruct (tmax <? t); assumption|].
    split; [destruct (t <? tmin); apply in_or_app; [right; now left|now left]|].
    split; [destruct (tmax <? t); apply in_or_app; [right; now left|now left]|].
    intros x Hx. apply in_app_or in Hx. destruct Hx as [Hx|[<-|[]]].
    + destruct (Hl x Hx) as (tx & Htx & Hb). exists tx. split; [exact Htx|].
      destruct (Z.ltb_spec t tmin), (Z.ltb_spec tmax t); lia.
    + exists t. split; [exact Ht|].
      destruct (Z.ltb_spec t tmin), (Z.ltb_spec tmax t); lia.
Qed.

(** X6: when the date of the first row of a cluster does not parse to a
    valid date, the first and the last date of the cluster both stay
    the date text of that row, whatever the dates of its later rows. *)
Theorem cluster_dates_stuck (host : Host) (data : DashboardData) (rs : list DataRow)
    (c : cluster) :
  In c (groupRows data rs) ->
  hasTime (hd "" (map (rowDateStr data) (rowsOfKey data (key c) rs))) = false ->
  minDate c = hd "" (map (rowDateStr data) (rowsOfKey data (key c) rs))
  /\ maxDate c = hd "" (map (rowDateStr data) (rowsOfKey data (key c) rs)).
Proof.
  intros Hc.
  enough (H : rowsOfKey data (key c) rs <> []
               /\ (hasTime (hd "" (map (rowDateStr data) (rowsOfKey data (key c) rs))) = false ->
                   minDate c = hd "" (map (rowDateStr data) (rowsOfKey data (key c) rs))
                   /\ maxDate c = hd "" (map (rowDateStr data) (rowsOfKey data (key c) rs))))
    by exact (proj2 H).
  apply (groupRows_inv data
           (fun c l => l <> []
                       /\ (hasTime (hd "" (map (rowDateStr data) l)) = false ->
                           minDate c = hd "" (map (rowDateStr data) l)
                           /\ maxDate c = hd "" (map (rowDateStr data) l))));
    [| |exact Hc].
  - intros r0. split; [discriminate|]. intros _. cbn [map hd].
    change (minDate (addRow data r0 (newGroup data r0)))
      with (if isBefore (parseBrazilianDate (VStr (rowDateStr data r0)))
                        (parseBrazilianDate (VStr (rowDateStr data r0)))
            then rowDateStr data r0 else rowDateStr data r0).
    change (maxDate (addRow data r0 (newGroup data r0)))
      with (if isBefore (parseBrazilianDate (VStr (rowDateStr data r0)))
                        (parseBrazilianDate (VStr (rowDateStr data r0)))
            then rowDateStr data r0 else rowDateStr data r0).
    destruct (isBefore _ _); now split.
  - intros c0 l r0 Hne _ [_ IH].
    destruct l as [|y l]; [contradiction|].
    split; [discriminate|]. cbn [app map hd] in *. intros Hr.
    destruct (IH Hr) as [Hmin Hmax].
    change (minDate (addRow data r0 c0))
      with (if isBefore (parseBrazilianDate (VStr (rowDateStr data r0)))
                        (parseBrazilianDate (VStr (minDate c0)))
            then rowDateStr data r0 else minDate c0).
    change (maxDate (addRow data r0 c0))
      with (if isBefore (parseBrazilianDate (VStr (maxDate c0)))
                        (parseBrazilianDate (VStr (rowDateStr data r0)))
            then rowDateStr data r0 else maxDate c0).
    rewrite Hmin, Hmax.
    rewrite (isBefore_untimed_r _ _ Hr), (isBefore_untimed_l _ _ Hr). now split.
Qed.

Lemma cluster_date_range_witness :
  exists tmin tmax,
    @timeOf exampleHost
      (minDate (nth 0 (@groupRows exampleHost (tableOf tiesCsv) (rows (tableOf tiesCsv)))
                  (@newGroup exampleHost (tableOf tiesCsv) ∅))) = Some tmin
    /\ @timeOf exampleHost
         (maxDate (nth 0 (@groupRows exampleHost (tableOf tiesCsv) (rows (tableOf tiesCsv)))
                     (@newGroup exampleHost (tableOf tiesCsv) ∅))) = Some tmax
    /\ tmin <= tmax.
Proof.
  destruct (cluster_date_range exampleHost (tableOf tiesCsv) (rows (tableOf tiesCsv))
              (nth 0 (@groupRows exampleHost (tableOf tiesCsv) (rows (tableOf tiesCsv)))
                 (@newGroup exampleHost (tableOf tiesCsv) ∅)))
    as (tmin & tmax & Hmin & Hmax & _ & _ & Hl).
  - vm_compute. reflexivity.
  - apply nth_In. vm_compute. lia.
  - exists tmin, tmax. split; [exact Hmin|]. split; [exact Hmax|].
    destruct (Hl (nth 0 (@rowsOfKey exampleHost (tableOf tiesCsv) "google|x"
                           (rows (tableOf tiesCsv))) ∅)) as (t & _ & Ht).
    + replace (key (nth 0 (@groupRows exampleHost (tableOf tiesCsv) (rows (tableOf tiesCsv)))
                      (@newGroup exampleHost (tableOf tiesCsv) ∅)))
        with "google|x" by (vm_compute; reflexivity).
      apply nth_In. vm_compute. lia.
    + lia.
Defined.

Lemma cluster_dates_stuck_witness :
  minDate (nth 1 (@groupRows exampleHost ads (rows ads)) (@newGroup exampleHost ads ∅))
  = "soon"
  /\ maxDate (nth 1 (@groupRows exampleHost ads (rows ads)) (@newGroup exampleHost ads ∅))
     = "soon".
Proof.
  replace "soon"
    with (hd "" (map (@rowDateStr exampleHost ads)
                   (@rowsOfKey exampleHost ads
                      (key (nth 1 (@groupRows exampleHost ads (rows ads))
                              (@newGroup exampleHost ads ∅)))
                      (rows ads))))
    by (vm_compute; reflexivity).
  apply (cluster_dates_stuck exampleHost ads (rows ads)).
  - apply nth_In. vm_compute. lia.
  - vm_compute. reflexivity.
Defined.

(** ** The rankings *)

Lemma lookupCount_bump (v k : string) (counts : list (string * nat)) :
  lookupCount k (bump v counts)
  = (lookupCount k counts + (if eqs v k then 1 else 0))%nat.
Proof.
  induction counts as [|[k' n] counts IH]; cbn [bump lookupCount].
  - destruct (eqs k v) eqn:E1, (eqs v k) eqn:E2; try reflexivity;
      [apply eqs_true in E1; apply eqs_false in E2; congruence
      |apply eqs_false in E1; apply eqs_true in E2; congruence].
  - destruct (eqs v k') eqn:Ev; cbn [lookupCount].
    + apply eqs_true in Ev. subst k'. destruct (eqs k v) eqn:Ek.
      * apply eqs_true in Ek. subst k. rewrite eqs_refl. lia.
      * destruct (eqs v k) eqn:E2; [|lia].
        apply eqs_true in E2. apply eqs_false in Ek. congruence.
    + destruct (eqs k k') eqn:Ek; [|exact IH].
      apply eqs_true in Ek. subst k'. rewrite Ev. lia.
Qed.

Lemma bump_keys (v : string) (counts : list (string * nat)) :
  map fst (bump v counts)
  = if existsb (eqs v) (map fst counts) then map fst counts else map fst counts ++ [v].
Proof.
  induction counts as [|[k n] counts IH]; cbn [bump map fst existsb app]; [reflexivity|].
  destruct (eqs v k); cbn [map fst orb]; [reflexivity|].
  rewrite IH. destruct (existsb (eqs v) (map fst counts)); reflexivity.
Qed.

Lemma bump_keys_NoDup (v : string) (counts : list (string * nat)) :
  List.NoDup (map fst counts) -> List.NoDup (map fst (bump v counts)).
Proof.
  rewrite bump_keys. exact (setAdd_NoDup v (map fst counts)).
Qed.

Lemma lookupCount_In (k : string) (n : nat) (counts : list (string * nat)) :
  List.NoDup (map fst counts) -> In (k, n) counts -> lookupCount k counts = n.
Proof.
  induction counts as [|[k' n'] counts IH]; cbn [map fst In lookupCount]; [intros _ []|].
  intros Hnd [H|H].
  - injection H as -> ->. now rewrite eqs_refl.
  - inversion Hnd as [|x l Hnin Hnd']; subst.
    destruct (eqs k k') eqn:E; [|now apply IH].
    apply eqs_true in E. subst k'. exfalso. apply Hnin.
    change k with (fst (k, n)). now apply in_map.
Qed.

Lemma lookupCount_pos (k : string) (counts : list (string * nat)) :
  lookupCount k counts <> 0%nat -> In (k, lookupCount k counts) counts.
Proof.
  induction counts as [|[k' n'] counts IH]; cbn [lookupCount In]; [congruence|].
  destruct (eqs k k') eqn:E.
  - apply eqs_true in E. subst k'. intros _. now left.
  - intros H. right. now apply IH.
Qed.

Lemma bump_positive (v : string) (counts : list (string * nat)) :
  List.Forall (fun e => snd e <> 0%nat) counts ->
  List.Forall (fun e => snd e <> 0%nat) (bump v counts).
Proof.
  induction counts as [|[k n] counts IH]; cbn [bump]; intros H.
  - repeat constructor. cbn. lia.
  - inversion H as [|x l Hx Hl]; subst.
    destruct (eqs v k); constructor; cbn [snd] in *; try lia; try assumption.
    now apply IH.
Qed.

Section Counting.
Variable f : DataRow -> string.

Lemma countBy_snoc (l : list DataRow) (r : DataRow) :
  countBy f (l ++ [r]) = bump (f r) (countBy f l).
Proof. unfold countBy. now rewrite fold_left_app. Qed.

Lemma countBy_lookup (l : list DataRow) (k : string) :
  lookupCount k (countBy f l) = countOf f k l.
Proof.
  induction l as [|r l IH] using rev_ind; [reflexivity|].
  now rewrite countBy_snoc, lookupCount_bump, countOf_snoc, IH.
Qed.

Lemma countBy_NoDup (l : list DataRow) : List.NoDup (map fst (countBy f l)).
Proof.
  induction l as [|r l IH] using rev_ind; [constructor|].
  rewrite countBy_snoc. now apply bump_keys_NoDup.
Qed.

Lemma countBy_positive (l : list DataRow) :
  List.Forall (fun e => snd e <> 0%nat) (countBy f l).
Proof.
  induction l as [|r l IH] using rev_ind; [constructor|].
  rewrite countBy_snoc. now apply bump_positive.
Qed.

(** The counting object holds, for every name, the number of the rows
    with that name, and nothing for the names of no row. *)
Lemma countBy_spec (l : list DataRow) (k : string) (n : nat) :
  In (k, n) (countBy f l) <-> n = countOf f k l /\ n <> 0%nat.
Proof.
  split.
  - intros H. split.
    + rewrite <- countBy_lookup. symmetry.
      apply lookupCount_In; [apply countBy_NoDup|exact H].
    + pose proof (countBy_positive l) as Hp. rewrite List.Forall_forall in Hp.
      exact (Hp _ H).
  - intros [-> Hn]. rewrite <- countBy_lookup in *. now apply lookupCount_pos.
Qed.

End Counting.

Lemma filter_split_Permutation {A : Type} (p : A -> bool) (l : list A) :
  Permutation (List.filter p l ++ List.filter (fun x => negb (p x)) l) l.
Proof.
  induction l as [|x l IH]; cbn [List.filter app]; [constructor|].
  destruct (p x); cbn [negb app].
  - now constructor.
  - symmetry. apply Permutation_cons_app. now symmetry.
Qed.

Lemma objectEntries_Permutation {V : Type} (l : list (string * V)) :
  Permutation (objectEntries l) l.
Proof.
  unfold objectEntries.
  rewrite sortBy_Permutation.
  apply (filter_split_Permutation (fun e => isArrayIndex (fst e))).
Qed.

Lemma byValueDesc_measure (a b : string * nat) :
  (0 <? byValueDesc a b) = (snd a <? snd b)%nat.
Proof.
  unfold byValueDesc. destruct (Nat.ltb_spec (snd a) (snd b)); [apply Z.ltb_lt|apply Z.ltb_ge]; lia.
Qed.

Lemma firstn_In {A : Type} (n : nat) (l : list A) (x : A) :
  In x (firstn n l) -> In x l.
Proof.
  intros H. rewrite <- (firstn_skipn n l). apply in_or_app. now left.
Qed.

Lemma skipn_In {A : Type} (n : nat) (l : list A) (x : A) :
  In x (skipn n l) -> In x l.
Proof.
  intros H. rewrite <- (firstn_skipn n l). apply in_or_app. now right.
Qed.

Lemma sorted_firstn {A : Type} (R : A -> A -> Prop) (n : nat) (l : list A) :
  StronglySorted R l -> StronglySorted R (firstn n l).
Proof.
  intros H. revert n. induction H as [|x l Hs IH Hx]; intros [|n]; cbn [firstn];
    try constructor; [apply IH|].
  rewrite List.Forall_forall in *. intros y Hy. apply Hx. eapply firstn_In; eassumption.
Qed.

(** In a sorted list what is cut off after the first [n] elements stands
    behind each of them. *)
Lemma sorted_firstn_skipn {A : Type} (R : A -> A -> Prop) (n : nat) (l : list A)
    (a b : A) :
  StronglySorted R l -> In a (firstn n l) -> In b (skipn n l) -> R a b.
Proof.
  intros H. revert n. induction H as [|x l Hs IH Hx]; intros [|n]; cbn [firstn skipn In];
    try contradiction.
  intros [<-|Ha] Hb; [|now apply (IH n)].
  rewrite List.Forall_forall in Hx. apply Hx. eapply skipn_In; eassumption.
Qed.

Lemma firstn_short {A : Type} (n : nat) (l : list A) :
  (length (firstn n l) < n)%nat -> firstn n l = l.
Proof.
  intros H. rewrite length_firstn in H. apply firstn_all2. lia.
Qed.

Section Top5.
Context {host : Host}.
Variable data : DashboardData.
Variable rs : list DataRow.
Variable c : string.
Hypothesis c_truthy : eqs c "" = false.

Lemma getTop5_unfold :
  getTop5 data rs (Some c)
  = firstn 5 (sortBy byValueDesc (objectEntries (countBy (rankedValue data c) rs))).
Proof. unfold getTop5. now rewrite c_truthy. Qed.

Lemma ranked_Permutation :
  Permutation (sortBy byValueDesc (objectEntries (countBy (rankedValue data c) rs)))
              (countBy (rankedValue data c) rs).
Proof. rewrite sortBy_Permutation. apply objectEntries_Permutation. Qed.

Lemma ranked_sorted :
  StronglySorted (fun a b => (snd b <= snd a)%nat)
    (sortBy byValueDesc (objectEntries (countBy (rankedValue data c) rs))).
Proof. apply (sortBy_sorted byValueDesc snd byValueDesc_measure). Qed.

End Top5.

Lemma countOf_pos (f : DataRow -> string) (rs : list DataRow) (r : DataRow) :
  In r rs -> countOf f (f r) rs <> 0%nat.
Proof.
  intros H. unfold countOf.
  assert (Hin : In r (List.filter (fun x => eqs (f x) (f r)) rs)).
  { apply List.filter_In. split; [exact H|apply eqs_refl]. }
  destruct (List.filter _ rs); [contradiction|discriminate].
Qed.

(** X7: for a column that is there, and provided no counted name is one
    that every object inherits, a ranking has at most five entries, with
    falling counts and pairwise distinct names, and the count beside a
    name is the number of the filtered rows with that name. *)
Theorem getTop5_entries (host : Host) (data : DashboardData) (rs : list DataRow)
    (c : string) :
  eqs c "" = false ->
  forallb (fun r => negb (inheritedName (rankedValue data c r))) rs = true ->
  (length (getTop5 data rs (Some c)) <= 5)%nat
  /\ StronglySorted (fun a b => (snd b <= snd a)%nat) (getTop5 data rs (Some c))
  /\ List.NoDup (map fst (getTop5 data rs (Some c)))
  /\ forall name n, In (name, n) (getTop5 data rs (Some c)) ->
       n = countOf (rankedValue data c) name rs /\ (0 < n)%nat.
Proof.
  intros Hc _. rewrite (getTop5_unfold data rs c Hc).
  split; [rewrite length_firstn; lia|].
  split; [apply sorted_firstn, ranked_sorted|].
  split.
  - rewrite <- firstn_map.
    assert (Hnd : List.NoDup (map fst (sortBy byValueDesc
                    (objectEntries (countBy (rankedValue data c) rs))))).
    { apply (Permutation_NoDup (l := map fst (countBy (rankedValue data c) rs)));
        [|apply countBy_NoDup].
      apply Permutation_map. symmetry. apply ranked_Permutation. }
    rewrite <- (firstn_skipn 5) in Hnd. exact (NoDup_app_remove_r _ _ Hnd).
  - intros name n H. apply firstn_In in H.
    apply (Permutation_in _ (ranked_Permutation data rs c)) in H.
    apply countBy_spec in H. destruct H as [-> Hn]. split; [reflexivity|lia].
Qed.

Lemma getTop5_entries_witness :
  @getTop5 exampleHost ads (rows ads) (Some "produto") = [("Curso", 3%nat); ("Ebook", 2%nat)]
  /\ (2%nat = countOf (@rankedValue exampleHost ads "produto") "Ebook" (rows ads)
      /\ (0 < 2)%nat).
Proof.
  split; [vm_compute; reflexivity|].
  apply (proj2 (proj2 (proj2 (getTop5_entries exampleHost ads (rows ads) "produto"
                                eq_refl ltac:(vm_compute; reflexivity))))).
  vm_compute. right. left. reflexivity.
Defined.

(** X8: under the same provisos the name of every filtered row is in
    the ranking, unless the ranking is full and each of its five entries
    has at least as many rows as that name. *)
Theorem getTop5_best (host : Host) (data : DashboardData) (rs : list DataRow)
    (c : string) (r : DataRow) :
  eqs c "" = false ->
  forallb (fun r => negb (inheritedName (rankedValue data c r))) rs = true ->
  In r rs ->
  In (rankedValue data c r) (map fst (getTop5 data rs (Some c)))
  \/ (length (getTop5 data rs (Some c)) = 5%nat
      /\ forall e, In e (getTop5 data rs (Some c)) ->
           (countOf (rankedValue data c) (rankedValue data c r) rs <= snd e)%nat).
Proof.
  intros Hc _ Hr. rewrite (getTop5_unfold data rs c Hc).
  set (L := sortBy byValueDesc (objectEntries (countBy (rankedValue data c) rs))).
  set (v := rankedValue data c r).
  assert (Hin : In (v, countOf (rankedValue data c) v rs) L).
  { apply (Permutation_in _ (Permutation_sym (ranked_Permutation data rs c))).
    apply countBy_spec. split; [reflexivity|]. now apply countOf_pos. }
  rewrite <- (firstn_skipn 5 L) in Hin. apply in_app_or in Hin.
  destruct Hin as [Hin|Hin].
  - left. change v with (fst (v, countOf (rankedValue data c) v rs)). now apply in_map.
  - right. split.
    + rewrite length_firstn.
      assert (Hl : (5 < length L)%nat).
      { destruct (Nat.lt_ge_cases 5 (length L)) as [Hlt|Hge]; [exact Hlt|].
        rewrite skipn_all2 in Hin by exact Hge. destruct Hin. }
      lia.
    + intros e He.
      exact (sorted_firstn_skipn _ 5 L e _ (ranked_sorted data rs c) He Hin).
Qed.

Lemma getTop5_best_witness :
  In "Ebook" (map fst (@getTop5 exampleHost ads (rows ads) (Some "produto")))
  \/ (length (@getTop5 exampleHost ads (rows ads) (Some "produto")) = 5%nat
      /\ forall e, In e (@getTop5 exampleHost ads (rows ads) (Some "produto")) ->
           (countOf (@rankedValue exampleHost ads "produto") "Ebook" (rows ads) <= snd e)%nat).
Proof.
  change "Ebook" with (@rankedValue exampleHost ads "produto" (nth 2 (rows ads) ∅)).
  apply (getTop5_best exampleHost ads (rows ads) "produto" (nth 2 (rows ads) ∅)).
  - reflexivity.
  - vm_compute. reflexivity.
  - apply nth_In. vm_compute. lia.
Defined.

(** ** The option lists *)

Section SortTotal.
Context {A : Type}.
Variable cmp : A -> A -> Z.
(** On the elements in [dom] the comparator is that of a total
    preorder. *)
Variable dom : A -> Prop.
Hypothesis cmp_total : forall a b, dom a -> dom b -> 0 < cmp a b -> cmp b a <= 0.
Hypothesis cmp_trans : forall a b c, dom a -> dom b -> dom c ->
  cmp a b <= 0 -> cmp b c <= 0 -> cmp a c <= 0.

Lemma insertSorted_ordered (x : A) (l : list A) :
  dom x -> List.Forall dom l ->
  StronglySorted (fun a b => cmp a b <= 0) l ->
  StronglySorted (fun a b => cmp a b <= 0) (insertSorted cmp x l).
Proof.
  intros Hx. induction l as [|y l IH]; intros Hd Hs; cbn [insertSorted].
  - repeat constructor.
  - inversion Hs as [|y' l' Hl Hy]; subst.
    inversion Hd as [|y' l' Hdy Hdl]; subst.
    destruct (Z.ltb_spec 0 (cmp x y)) as [E|E].
    + constructor; [now apply IH|].
      apply List.Forall_forall. intros b Hb.
      apply (proj1 (insertSorted_In cmp x l b)) in Hb.
      destruct Hb as [->|Hb]; [now apply cmp_total|].
      rewrite List.Forall_forall in Hy. now apply Hy.
    + constructor; [exact Hs|].
      constructor; [exact E|].
      rewrite List.Forall_forall in Hy, Hdl |- *. intros b Hb.
      apply (cmp_trans _ y); auto.
Qed.

Lemma sortBy_ordered (l : list A) :
  List.Forall dom l ->
  StronglySorted (fun a b => cmp a b <= 0) (sortBy cmp l).
Proof.
  induction l as [|x l IH]; cbn [sortBy]; intros Hd; [constructor|].
  inversion Hd as [|x' l' Hx Hl]; subst.
  apply insertSorted_ordered; [exact Hx| |now apply IH].
  rewrite List.Forall_forall in Hl |- *. intros b Hb. apply Hl.
  now apply (sortBy_In cmp l b).
Qed.

End SortTotal.

Lemma ascii_compare_N (a b : ascii) :
  Ascii.compare a b = N.compare (N_of_ascii a) (N_of_ascii b).
Proof. reflexivity. Qed.

Lemma ascii_compare_refl (a : ascii) : Ascii.compare a a = Eq.
Proof. rewrite ascii_compare_N. apply N.compare_refl. Qed.

Lemma string_compare_refl (s : string) : String.compare s s = Eq.
Proof.
  induction s as [|c s IH]; cbn [String.compare]; [reflexivity|].
  now rewrite ascii_compare_refl.
Qed.

Lemma string_compare_trans (a b c : string) :
  String.compare a b <> Gt -> String.compare b c <> Gt -> String.compare a c <> Gt.
Proof.
  revert b c. induction a as [|x a IH]; intros [|y b] [|z c]; cbn [String.compare];
    try congruence.
  rewrite !ascii_compare_N.
  destruct (N.compare_spec (N_of_ascii x) (N_of_ascii y)) as [E1|E1|E1];
    destruct (N.compare_spec (N_of_ascii y) (N_of_ascii z)) as [E2|E2|E2];
    destruct (N.compare_spec (N_of_ascii x) (N_of_ascii z)) as [E3|E3|E3];
    try congruence; try lia.
  apply IH.
Qed.

Lemma compareStrings_le (a b : string) :
  compareStrings a b <= 0 <-> String.compare a b <> Gt.
Proof.
  unfold compareStrings. destruct (String.compare a b); split; intros; try lia; congruence.
Qed.

Lemma compareStrings_total (a b : string) :
  0 < compareStrings a b -> compareStrings b a <= 0.
Proof.
  unfold compareStrings. rewrite (String.compare_antisym a b).
  destruct (String.compare b a); cbn [CompOpp]; lia.
Qed.

Lemma compareStrings_trans (a b c : string) :
  compareStrings a b <= 0 -> compareStrings b c <= 0 -> compareStrings a c <= 0.
Proof. rewrite !compareStrings_le. apply string_compare_trans. Qed.

Lemma sorted_NoDup_strict (l : list string) :
  List.NoDup l ->
  StronglySorted (fun a b => compareStrings a b <= 0) l ->
  StronglySorted (fun a b => String.compare a b = Lt) l.
Proof.
  intros Hnd Hs. induction Hs as [|x l Hs IH Hx]; [constructor|].
  inversion Hnd as [|x' l' Hnin Hnd']; subst.
  constructor; [now apply IH|].
  rewrite List.Forall_forall in *. intros y Hy. specialize (Hx y Hy).
  apply compareStrings_le in Hx.
  destruct (String.compare x y) eqn:E; [|reflexivity|congruence].
  apply String.compare_eq_iff in E. subst y. contradiction.
Qed.

Section OptionLists.
Context {host : Host}.
Variable data : DashboardData.
Variable col : string.

Lemma uniqueValuesOf_In (v : string) :
  In v (uniqueValuesOf data col) <->
  v <> "" /\ exists r, In r (rows data) /\ optionValue data col r = v.
Proof.
  unfold uniqueValuesOf.
  rewrite (sortBy_In compareStrings).
  rewrite distinct_In, List.filter_In, in_map_iff. split.
  - intros [(r & Hv & Hr) Hne]. split; [|now exists r].
    intros ->. now rewrite eqs_refl in Hne.
  - intros [Hne (r & Hr & Hv)]. split; [now exists r|].
    destruct (eqs v "") eqn:E; [|reflexivity]. apply eqs_true in E. contradiction.
Qed.

Lemma uniqueValuesOf_sorted :
  StronglySorted (fun a b => String.compare a b = Lt) (uniqueValuesOf data col).
Proof.
  unfold uniqueValuesOf.
  apply sorted_NoDup_strict.
  - eapply Permutation_NoDup; [symmetry; apply sortBy_Permutation|].
    apply distinct_NoDup.
  - apply (sortBy_ordered compareStrings (fun _ => True)).
    + intros a b _ _. apply compareStrings_total.
    + intros a b c _ _ _. apply compareStrings_trans.
    + apply List.Forall_forall. intros; exact I.
Qed.

End OptionLists.

(** X9: the options offered for a column are the values of the rows
    under it, cleaned as the filter cleans them, without the empty
    text, each once and in rising order of their code units. *)
Theorem uniqueValues_offered (host : Host) (data : DashboardData) (col : string) :
  StronglySorted (fun a b => String.compare a b = Lt) (uniqueValuesOf data col)
  /\ forall v, In v (uniqueValuesOf data col) <->
       v <> "" /\ exists r, In r (rows data) /\ optionValue data col r = v.
Proof.
  split; [apply uniqueValuesOf_sorted|apply uniqueValuesOf_In].
Qed.

(** ** The filter and its controls *)

Lemma get_indexed (row : DataRow) (v : value) (col : string) :
  col <> "_id" -> get (<["_id" := v]> row) col = get row col.
Proof.
  intros H. unfold get. rewrite lookup_insert_ne; [reflexivity|congruence].
Qed.

Lemma indexFrom_In (rs : list DataRow) (i : nat) (r' : DataRow) :
  In r' (indexFrom i rs) <->
  exists j r, nth_error rs j = Some r /\ r' = <["_id" := VNum (ofNat (i + j))]> r.
Proof.
  revert i. induction rs as [|r rs IH]; intros i; cbn [indexFrom In].
  - split; [intros []|]. intros (j & r & H & _). destruct j; discriminate.
  - rewrite IH. split.
    + intros [<-|(j & r0 & Hj & ->)].
      * exists 0%nat, r. split; [reflexivity|]. now rewrite Nat.add_0_r.
      * exists (S j), r0. split; [exact Hj|]. now rewrite Nat.add_succ_r.
    + intros ([|j] & r0 & Hj & ->); cbn [nth_error] in Hj.
      * injection Hj as <-. left. now rewrite Nat.add_0_r.
      * right. exists j, r0. split; [exact Hj|]. now rewrite Nat.add_succ_r.
Qed.

Lemma indexFrom_length (rs : list DataRow) (i : nat) :
  length (indexFrom i rs) = length rs.
Proof.
  revert i. induction rs as [|r rs IH]; intros i; cbn [indexFrom length]; [reflexivity|].
  now rewrite IH.
Qed.

Section Filtering.
Context {host : Host}.
Variable data : DashboardData.

Lemma passesDate_all (a b : string) (row : DataRow) :
  passesDate data PresetAll a b row = true.
Proof.
  unfold passesDate. destruct (colData data) as [cd|]; [|reflexivity].
  cbn [isAll negb]. now rewrite andb_false_r.
Qed.

Lemma matchesSearch_empty (row : DataRow) : matchesSearch data "" row = true.
Proof. reflexivity. Qed.

Lemma matchesFilters_app (f1 f2 : list (string * list string)) (row : DataRow) :
  matchesFilters data (f1 ++ f2) row
  = matchesFilters data f1 row && matchesFilters data f2 row.
Proof. unfold matchesFilters. apply forallb_app. Qed.

(** The value that the filter compares for a column agrees with the
    value offered for it unless the column plays both roles. *)
Lemma optionValue_filter (col : string) (row : DataRow) :
  isCol (colSource data) col && isCol (colCampaign data) col = false ->
  (let rowVal := ToString (nullish (get row col) (VStr "N/A")) in
   let rowVal := if isCol (colSource data) col then cleanUTMSource rowVal else rowVal in
   if isCol (colCampaign data) col then cleanUTMCampaign rowVal else rowVal)
  = optionValue data col row.
Proof.
  unfold optionValue. cbv zeta.
  destruct (isCol (colSource data) col), (isCol (colCampaign data) col);
    cbn [andb]; congruence.
Qed.

Lemma optionValue_indexed (col : string) (row : DataRow) (v : value) :
  col <> "_id" ->
  optionValue data col (<["_id" := v]> row) = optionValue data col row.
Proof. intros H. unfold optionValue. now rewrite (get_indexed row v col H). Qed.

End Filtering.

(** X10: for a column other than [_id] that is not both the source and
    the campaign column, choosing one offered value alone keeps exactly
    the rows offered under that value, and at least one. *)
Theorem offered_value_selects (host : Host) (data : DashboardData) (col v : string)
    (customStartDate customEndDate : string) :
  col <> "_id" ->
  isCol (colSource data) col && isCol (colCampaign data) col = false ->
  In v (uniqueValuesOf data col) ->
  filteredRows data [(col, [v])] "" PresetAll customStartDate customEndDate
  = List.filter (fun r => eqs (optionValue data col r) v) (rowsWithIndex data)
  /\ filteredRows data [(col, [v])] "" PresetAll customStartDate customEndDate <> [].
Proof.
  intros Hid Hrole Hv.
  assert (E : filteredRows data [(col, [v])] "" PresetAll customStartDate customEndDate
              = List.filter (fun r => eqs (optionValue data col r) v) (rowsWithIndex data)).
  { unfold filteredRows. apply filter_ext. intros r.
    unfold keepRow. rewrite passesDate_all, matchesSearch_empty.
    unfold matchesFilters. cbn [forallb existsb andb].
    rewrite (optionValue_filter data col r Hrole).
    now rewrite !andb_true_r, orb_false_r. }
  split; [exact E|]. rewrite E.
  apply uniqueValuesOf_In in Hv. destruct Hv as [_ (r & Hr & Hval)].
  apply In_nth_error in Hr. destruct Hr as (j & Hj).
  assert (Hin : In (<["_id" := VNum (ofNat (0 + j))]> r)
                   (List.filter (fun r => eqs (optionValue data col r) v) (rowsWithIndex data))).
  { apply List.filter_In. split.
    - unfold rowsWithIndex. apply indexFrom_In. now exists j, r.
    - rewrite (optionValue_indexed data col r _ Hid), Hval. apply eqs_refl. }
  intros E0. rewrite E0 in Hin. exact Hin.
Qed.

Lemma offered_value_selects_witness :
  @filteredRows exampleHost ads [("produto", ["Curso"])] "" PresetAll "" "" <> [].
Proof.
  apply (offered_value_selects exampleHost ads "produto" "Curso" "" "").
  - discriminate.
  - vm_compute. reflexivity.
  - vm_compute. left. reflexivity.
Defined.

(** *** Choosing and clearing *)

Lemma lookupFilter_setFilter (column : string) (vals : list string)
    (fs : list (string * list string)) :
  lookupFilter column (setFilter column vals fs) = Some vals.
Proof.
  induction fs as [|[c v] fs IH]; cbn [setFilter lookupFilter].
  - now rewrite eqs_refl.
  - destruct (eqs column c) eqn:E; cbn [lookupFilter]; rewrite E; [reflexivity|exact IH].
Qed.

Lemma lookupFilter_setFilter_ne (column c : string) (vals : list string)
    (fs : list (string * list string)) :
  c <> column -> lookupFilter c (setFilter column vals fs) = lookupFilter c fs.
Proof.
  intros Hne. induction fs as [|[c' v] fs IH]; cbn [setFilter lookupFilter].
  - destruct (eqs c column) eqn:E; [|reflexivity]. apply eqs_true in E. contradiction.
  - destruct (eqs column c') eqn:E; cbn [lookupFilter].
    + apply eqs_true in E. subst c'.
      destruct (eqs c column) eqn:E'; [|reflexivity]. apply eqs_true in E'. contradiction.
    + now rewrite IH.
Qed.

Lemma setFilter_setFilter (column : string) (v1 v2 : list string)
    (fs : list (string * list string)) :
  setFilter column v2 (setFilter column v1 fs) = setFilter column v2 fs.
Proof.
  induction fs as [|[c v] fs IH]; cbn [setFilter].
  - now rewrite eqs_refl.
  - destruct (eqs column c) eqn:E; cbn [setFilter]; rewrite E; [reflexivity|now rewrite IH].
Qed.

Lemma existsb_eqs_In (x : string) (l : list string) :
  existsb (eqs x) l = true <-> In x l.
Proof.
  rewrite existsb_exists. split.
  - intros (y & Hy & E). apply eqs_true in E. now subst y.
  - intros H. exists x. split; [exact H|apply eqs_refl].
Qed.

Lemma existsb_eqs_ext (x : string) (l l' : list string) :
  (In x l <-> In x l') -> existsb (eqs x) l = existsb (eqs x) l'.
Proof.
  intros H. destruct (existsb (eqs x) l) eqn:E, (existsb (eqs x) l') eqn:E';
    try reflexivity.
  - apply existsb_eqs_In, H, existsb_eqs_In in E. congruence.
  - apply existsb_eqs_In, H, existsb_eqs_In in E'. congruence.
Qed.

(** The list of a column after a click on [value]. *)
Lemma toggled_In (value x : string) (current : list string) :
  In x (if existsb (eqs value) current
        then List.filter (fun v => negb (eqs v value)) current
        else current ++ [value])
  <-> (x <> value /\ In x current) \/ (x = value /\ ~ In value current).
Proof.
  destruct (existsb (eqs value) current) eqn:E.
  - apply existsb_eqs_In in E. rewrite List.filter_In. split.
    + intros [Hx Hne]. left. split; [|exact Hx].
      intros ->. now rewrite eqs_refl in Hne.
    + intros [[Hne Hx]|[-> Hn]]; [|contradiction].
      split; [exact Hx|]. destruct (eqs x value) eqn:E'; [|reflexivity].
      apply eqs_true in E'. contradiction.
  - assert (Hn : ~ In value current).
    { intros H. apply existsb_eqs_In in H. congruence. }
    rewrite in_app_iff. cbn [In]. split.
    + intros [Hx|[<-|[]]]; [|now right].
      left. split; [|exact Hx]. intros ->. contradiction.
    + intros [[_ Hx]|[-> _]]; [now left|right; now left].
Qed.

Lemma same_members_nil {A : Type} (l l' : list A) :
  (forall x, In x l <-> In x l') -> l = [] -> l' = [].
Proof.
  intros H ->. destruct l' as [|y l']; [reflexivity|].
  exfalso. apply (proj2 (H y)). now left.
Qed.

Lemma matchesFilters_setFilter {host : Host} (data : DashboardData) (column : string)
    (vals : list string) (fs : list (string * list string)) (row : DataRow) :
  (forall x, In x vals <->
             In x (match lookupFilter column fs with Some cur => cur | None => [] end)) ->
  matchesFilters data (setFilter column vals fs) row = matchesFilters data fs row.
Proof.
  unfold matchesFilters.
  induction fs as [|[c v] fs IH]; cbn [setFilter lookupFilter forallb]; intros H.
  - rewrite (same_members_nil [] vals); [reflexivity| |reflexivity].
    intros x. symmetry. apply H.
  - destruct (eqs column c) eqn:E; cbn [forallb].
    + f_equal. destruct vals as [|y vals], v as [|z v]; try reflexivity.
      * exfalso. apply (proj2 (H z)). now left.
      * exfalso. apply (proj1 (H y)). now left.
      * apply existsb_eqs_ext, H.
    + f_equal. now apply IH.
Qed.

(** X11: a click that does not throw flips the mark of the clicked
    option and leaves the mark of every other option, of this and of
    every other column, as it was. *)
Theorem toggleFilter_flips (column value : string)
    (prev next : list (string * list string)) :
  toggleFilter column value prev = Some next ->
  isSelected column value next = option_map negb (isSelected column value prev)
  /\ forall c v, c <> column \/ v <> value ->
       isSelected c v next = isSelected c v prev.
Proof.
  unfold toggleFilter, isSelected.
  destruct (lookupFilter column prev) as [current|] eqn:El.
  - intros H. injection H as <-. split.
    + rewrite lookupFilter_setFilter. cbn [option_map]. f_equal.
      destruct (existsb (eqs value) current) eqn:E; cbn [negb].
      * destruct (existsb (eqs value) (List.filter _ current)) eqn:E'; [|reflexivity].
        apply existsb_eqs_In, List.filter_In in E'. destruct E' as [_ E'].
        now rewrite eqs_refl in E'.
      * apply existsb_eqs_In, in_or_app. right. now left.
    + intros c v Hcv. destruct (string_dec c column) as [->|Hne].
      * destruct Hcv as [Hc|Hv]; [contradiction|].
        rewrite lookupFilter_setFilter, El. f_equal.
        apply existsb_eqs_ext. rewrite toggled_In. intuition.
      * now rewrite (lookupFilter_setFilter_ne _ _ _ _ Hne).
  - destruct (inheritedName column) eqn:Ei; [discriminate|].
    intros H. injection H as <-. split.
    + rewrite lookupFilter_setFilter. cbn [existsb option_map negb].
      now rewrite eqs_refl.
    + intros c v Hcv. destruct (string_dec c column) as [->|Hne].
      * destruct Hcv as [Hc|Hv]; [contradiction|].
        rewrite lookupFilter_setFilter, El, Ei. cbn [existsb].
        destruct (eqs v value) eqn:E; [|reflexivity]. apply eqs_true in E. contradiction.
      * now rewrite (lookupFilter_setFilter_ne _ _ _ _ Hne).
Qed.

Lemma toggleFilter_flips_witness :
  isSelected "produto" "Curso" [("produto", ["Ebook"; "Curso"])]
  = option_map negb (isSelected "produto" "Curso" [("produto", ["Ebook"])]).
Proof.
  apply (toggleFilter_flips "produto" "Curso" [("produto", ["Ebook"])]
           [("produto", ["Ebook"; "Curso"])]).
  reflexivity.
Defined.

(** X12: a second click on the same option does not throw, and after it
    the filter keeps the rows that it kept before the first click. *)
Theorem toggleFilter_twice (host : Host) (data : DashboardData) (column value : string)
    (prev once : list (string * list string)) (searchTerm : string)
    (datePreset : DatePreset) (customStartDate customEndDate : string) :
  toggleFilter column value prev = Some once ->
  exists twice,
    toggleFilter column value once = Some twice
    /\ filteredRows data twice searchTerm datePreset customStartDate customEndDate
       = filteredRows data prev searchTerm datePreset customStartDate customEndDate.
Proof.
  intros H.
  assert (G : exists u1 u2,
            once = setFilter column u1 prev
            /\ toggleFilter column value once = Some (setFilter column u2 prev)
            /\ forall x, In x u2 <->
                 In x (match lookupFilter column prev with Some cur => cur | None => [] end)).
  { unfold toggleFilter in H |- *.
    destruct (lookupFilter column prev) as [current|] eqn:El.
    - injection H as <-. eexists. eexists. split; [reflexivity|].
      rewrite lookupFilter_setFilter, setFilter_setFilter. split; [reflexivity|].
      intros x. rewrite !toggled_In.
      destruct (string_dec x value) as [->|Hne]; intuition.
      destruct (in_dec string_dec value current); intuition.
    - destruct (inheritedName column); [discriminate|]. injection H as <-.
      exists [value]. eexists. split; [reflexivity|].
      rewrite lookupFilter_setFilter, setFilter_setFilter. split; [reflexivity|].
      intros x. rewrite toggled_In. cbn [In]. intuition. }
  destruct G as (u1 & u2 & -> & Ht & Hm).
  eexists. split; [exact Ht|].
  unfold filteredRows. apply filter_ext. intros row. unfold keepRow.
  now rewrite (matchesFilters_setFilter data column u2 prev row Hm).
Qed.

Lemma toggleFilter_twice_witness :
  exists twice,
    toggleFilter "produto" "Curso" [("produto", ["Curso"])] = Some twice
    /\ @filteredRows exampleHost ads twice "" PresetAll "" ""
       = @filteredRows exampleHost ads [] "" PresetAll "" "".
Proof.
  apply (toggleFilter_twice exampleHost ads "produto" "Curso" []).
  reflexivity.
Defined.

Lemma filter_true {A : Type} (p : A -> bool) (l : list A) :
  (forall x, p x = true) -> List.filter p l = l.
Proof.
  intros H. induction l as [|x l IH]; cbn [List.filter]; [reflexivity|].
  now rewrite H, IH.
Qed.

Lemma filter_filter {A : Type} (p q : A -> bool) (l : list A) :
  List.filter q (List.filter p l) = List.filter (fun x => p x && q x) l.
Proof.
  induction l as [|x l IH]; cbn [List.filter]; [reflexivity|].
  destruct (p x); cbn [List.filter andb]; [|exact IH].
  destruct (q x); now rewrite IH.
Qed.

(** X13: after the filters are cleared the filter keeps every row of
    the table, whatever the custom dates still hold. *)
Theorem clearAllFilters_keeps_all (host : Host) (data : DashboardData) (c : controls) :
  filteredRowsOf data (clearAllFilters c) = rowsWithIndex data
  /\ length (filteredRowsOf data (clearAllFilters c)) = length (rows data).
Proof.
  assert (E : filteredRowsOf data (clearAllFilters c) = rowsWithIndex data).
  { unfold filteredRowsOf, clearAllFilters, filteredRows. cbn [ctlFilters ctlSearchTerm
      ctlDatePreset ctlCustomStartDate ctlCustomEndDate].
    apply filter_true. intros row. unfold keepRow.
    now rewrite passesDate_all, matchesSearch_empty. }
  split; [exact E|]. rewrite E. apply indexFrom_length.
Qed.

(** X14: the column filters restrict one after the other: the rows kept
    under two sets of column filters together are those that the second
    set keeps among the rows kept under the first, and the order of the
    two sets does not matter. *)
Theorem filters_intersect (host : Host) (data : DashboardData)
    (f1 f2 : list (string * list string)) (searchTerm : string)
    (datePreset : DatePreset) (customStartDate customEndDate : string) :
  filteredRows data (f1 ++ f2) searchTerm datePreset customStartDate customEndDate
  = List.filter (matchesFilters data f2)
      (filteredRows data f1 searchTerm datePreset customStartDate customEndDate)
  /\ filteredRows data (f1 ++ f2) searchTerm datePreset customStartDate customEndDate
     = filteredRows data (f2 ++ f1) searchTerm datePreset customStartDate customEndDate.
Proof.
  unfold filteredRows. split.
  - rewrite filter_filter. apply filter_ext. intros row. unfold keepRow.
    rewrite matchesFilters_app.
    destruct (passesDate _ _ _ _ _), (matchesFilters data f1 row),
      (matchesFilters data f2 row), (matchesSearch data searchTerm row); reflexivity.
  - apply filter_ext. intros row. unfold keepRow. rewrite !matchesFilters_app.
    now rewrite (andb_comm (matchesFilters data f1 row)).
Qed.

Lemma filter_indexFrom (p : DataRow -> bool) (rs : list DataRow) (i : nat) :
  exists positions : list nat,
    StronglySorted lt positions
    /\ List.Forall (fun j => (i <= j < i + length rs)%nat) positions
    /\ List.filter p (indexFrom i rs)
       = map (fun j => <["_id" := VNum (ofNat j)]> (nth (j - i) rs ∅)) positions.
Proof.
  revert i. induction rs as [|r rs IH]; intros i; cbn [indexFrom List.filter length].
  - exists []. repeat split; constructor.
  - destruct (IH (S i)) as (ps & Hs & Hb & E).
    assert (E' : List.filter p (indexFrom (S i) rs)
                 = map (fun j => <["_id" := VNum (ofNat j)]> (nth (j - i) (r :: rs) ∅)) ps).
    { rewrite E. apply map_ext_in. intros j Hj.
      rewrite List.Forall_forall in Hb. specialize (Hb j Hj).
      replace (j - i)%nat with (S (j - S i)) by lia. reflexivity. }
    assert (Hb' : List.Forall (fun j => (i <= j < i + S (length rs))%nat) ps).
    { rewrite List.Forall_forall in Hb |- *. intros j Hj. specialize (Hb j Hj). lia. }
    destruct (p (<["_id" := VNum (ofNat i)]> r)).
    + exists (i :: ps). split; [|split].
      * constructor; [exact Hs|]. rewrite List.Forall_forall in Hb |- *.
        intros j Hj. specialize (Hb j Hj). lia.
      * constructor; [lia|exact Hb'].
      * cbn [map]. rewrite Nat.sub_diag. cbn [nth]. now rewrite E'.
    + exists ps. split; [exact Hs|]. split; [exact Hb'|exact E'].
Qed.

(** X15: the rows that the filter keeps are rows of the table in the
    order of the table, none of them twice, and each carries under
    [_id] its position in the table. *)
Theorem filteredRows_positions (host : Host) (data : DashboardData)
    (filters : list (string * list string)) (searchTerm : string)
    (datePreset : DatePreset) (customStartDate customEndDate : string) :
  exists positions : list nat,
    StronglySorted lt positions
    /\ List.Forall (fun j => (j < length (rows data))%nat) positions
    /\ filteredRows data filters searchTerm datePreset customStartDate customEndDate
       = map (fun j => <["_id" := VNum (ofNat j)]> (nth j (rows data) ∅)) positions.
Proof.
  unfold filteredRows, rowsWithIndex.
  destruct (filter_indexFrom
              (keepRow data filters searchTerm datePreset customStartDate customEndDate)
              (rows data) 0) as (ps & Hs & Hb & E).
  exists ps. split; [exact Hs|]. split.
  - rewrite List.Forall_forall in Hb |- *. intros j Hj. specialize (Hb j Hj). lia.
  - rewrite E. apply map_ext. intros j. now rewrite Nat.sub_0_r.
Qed.

Lemma toLowerCase_empty (s : string) : eqs (toLowerCase s) "" = eqs s "".
Proof. destruct s; reflexivity. Qed.

(** X16: the search does not look at the case of the search term: two
    terms that differ only in the case of their letters keep the same
    rows. *)
Theorem search_ignores_case (host : Host) (data : DashboardData)
    (filters : list (string * list string)) (s1 s2 : string)
    (datePreset : DatePreset) (customStartDate customEndDate : string) :
  toLowerCase s1 = toLowerCase s2 ->
  filteredRows data filters s1 datePreset customStartDate customEndDate
  = filteredRows data filters s2 datePreset customStartDate customEndDate.
Proof.
  intros H. unfold filteredRows. apply filter_ext. intros row.
  unfold keepRow, matchesSearch.
  rewrite <- (toLowerCase_empty s1), <- (toLowerCase_empty s2), H. reflexivity.
Qed.

Lemma search_ignores_case_witness :
  @filteredRows exampleHost ads [] "EBOOK" PresetAll "" ""
  = @filteredRows exampleHost ads [] "ebook" PresetAll "" "".
Proof.
  apply (search_ignores_case exampleHost ads [] "EBOOK" "ebook").
  reflexivity.
Defined.

(** ** The period counters *)

Section Period.
Context {host : Host}.
Variable data : DashboardData.

Lemma periodStats_counts :
  let today := setHours newDateNow 0 0 0 0 in
  let d7 := setDate newDateNow (optSub (getDate today) 7) in
  let d30 := setDate newDateNow (optSub (getDate today) 30) in
  pcToday (periodStats data)
  = length (List.filter
              (fun row => match periodDate data row with
                          | Some d => sameDateString (toDateString d) (toDateString today)
                          | None => false
                          end) (rowsWithIndex data))
  /\ pcD7 (periodStats data)
     = length (List.filter
                 (fun row => match periodDate data row with
                             | Some d => dateGe d d7
                             | None => false
                             end) (rowsWithIndex data))
  /\ pcD30 (periodStats data)
     = length (List.filter
                 (fun row => match periodDate data row with
                             | Some d => dateGe d d30
                             | None => false
                             end) (rowsWithIndex data)).
Proof.
  intros today d7 d30. unfold periodStats. fold today. fold d7. fold d30.
  set (step := fun (acc : periodCounts) (row : DataRow) =>
                 match periodDate data row with
                 | Some rDate =>
                     {| pcToday := if sameDateString (toDateString rDate) (toDateString today)
                                   then S (pcToday acc) else pcToday acc;
                        pcD7 := if dateGe rDate d7 then S (pcD7 acc) else pcD7 acc;
                        pcD30 := if dateGe rDate d30 then S (pcD30 acc) else pcD30 acc |}
                 | None => acc
                 end).
  assert (G : forall rs acc,
            pcToday (fold_left step rs acc)
            = (pcToday acc
               + length (List.filter
                           (fun row => match periodDate data row with
                                       | Some d => sameDateString (toDateString d)
                                                     (toDateString today)
                                       | None => false
                                       end) rs))%nat
            /\ pcD7 (fold_left step rs acc)
               = (pcD7 acc
                  + length (List.filter
                              (fun row => match periodDate data row with
                                          | Some d => dateGe d d7
                                          | None => false
                                          end) rs))%nat
            /\ pcD30 (fold_left step rs acc)
               = (pcD30 acc
                  + length (List.filter
                              (fun row => match periodDate data row with
                                          | Some d => dateGe d d30
                                          | None => false
                                          end) rs))%nat).
  { induction rs as [|r rs IH]; intros acc; cbn [fold_left List.filter length].
    - repeat split; lia.
    - destruct (IH (step acc r)) as (H1 & H2 & H3). rewrite H1, H2, H3.
      subst step. cbv beta.
      destruct (periodDate data r) as [d|]; [|repeat split; reflexivity].
      cbn [pcToday pcD7 pcD30].
      destruct (sameDateString _ _), (dateGe d d7), (dateGe d d30);
        cbn [length]; repeat split; lia. }
  destruct (G (rowsWithIndex data) {| pcToday := 0; pcD7 := 0; pcD30 := 0 |})
    as (H1 & H2 & H3).
  now rewrite H1, H2, H3.
Qed.

Lemma filter_length_le {A : Type} (p q : A -> bool) (l : list A) :
  (forall x, p x = true -> q x = true) ->
  (length (List.filter p l) <= length (List.filter q l))%nat.
Proof.
  intros H. induction l as [|x l IH]; cbn [List.filter]; [lia|].
  destruct (p x) eqn:E.
  - rewrite (H x E). cbn [length]. lia.
  - destruct (q x); cbn [length]; lia.
Qed.

Lemma dateGe_not_lt (a b : Date) : dateGe a b = true -> negb (dateLt a b) = true.
Proof.
  destruct a as [|x], b as [|y]; cbn [dateGe dateLt negb]; try reflexivity; try discriminate.
  intros H. apply Z.leb_le in H. apply negb_true_iff, Z.ltb_ge. lia.
Qed.

Lemma keepRow_date_only (preset : DatePreset) (a b : string) (row : DataRow) :
  keepRow data [] "" preset a b row = passesDate data preset a b row.
Proof.
  unfold keepRow. rewrite matchesSearch_empty. cbn [matchesFilters forallb].
  now rewrite andb_true_r.
Qed.

End Period.

(** X17: with a date column, and computed at the same time as the
    filter, a time whose local day is the same at its first and at its
    last millisecond, the counter of today is the number of rows that
    the preset of today keeps when nothing else is filtered, and the
    counters of 7 and of 30 days are at most the numbers of rows that
    the presets of 7 and of 30 days keep. *)
Theorem periodStats_and_presets (host : Host) (data : DashboardData) (cd : string)
    (customStartDate customEndDate : string) :
  colData data = Some cd ->
  toDateString (setHours newDateNow 0 0 0 0) = toDateString newDateNow ->
  getDate (setHours newDateNow 0 0 0 0) = getDate (setHours newDateNow 23 59 59 999) ->
  pcToday (periodStats data)
  = length (filteredRows data [] "" PresetToday customStartDate customEndDate)
  /\ (pcD7 (periodStats data)
      <= length (filteredRows data [] "" Preset7days customStartDate customEndDate))%nat
  /\ (pcD30 (periodStats data)
      <= length (filteredRows data [] "" Preset30days customStartDate customEndDate))%nat.
Proof.
  intros Hcd Hday Hdate.
  destruct (periodStats_counts data) as (H1 & H2 & H3). rewrite H1, H2, H3.
  pose proof (colData_nonempty data cd Hcd) as Hne.
  assert (P : forall preset row, isAll preset = false ->
            passesDate data preset customStartDate customEndDate row
            = match periodDate data row with
              | None => false
              | Some rowDate =>
                  match preset with
                  | PresetToday =>
                      sameDateString (toDateString rowDate) (toDateString newDateNow)
                  | Preset7days => negb (dateLt rowDate (daysAgo 7))
                  | Preset15days => negb (dateLt rowDate (daysAgo 15))
                  | Preset30days => negb (dateLt rowDate (daysAgo 30))
                  | PresetCustom =>
                      if negb (eqs customStartDate "") && negb (eqs customEndDate "") then
                        negb (dateLt rowDate (newDateString customStartDate)
                              || dateLt (setHours (newDateString customEndDate) 23 59 59 999)
                                   rowDate)
                      else true
                  | PresetAll => true
                  end
              end).
  { intros preset row Hp. unfold passesDate, periodDate. rewrite Hcd, Hne, Hp.
    cbn [negb andb orEmpty]. reflexivity. }
  unfold filteredRows. split; [|split].
  - f_equal. apply filter_ext. intros row.
    rewrite keepRow_date_only, (P PresetToday row eq_refl), Hday. reflexivity.
  - apply filter_length_le. intros row.
    rewrite keepRow_date_only, (P Preset7days row eq_refl).
    destruct (periodDate data row) as [d|]; [|discriminate].
    unfold daysAgo, now. rewrite <- Hdate. apply dateGe_not_lt.
  - apply filter_length_le. intros row.
    rewrite keepRow_date_only, (P Preset30days row eq_refl).
    destruct (periodDate data row) as [d|]; [|discriminate].
    unfold daysAgo, now. rewrite <- Hdate. apply dateGe_not_lt.
Qed.

Lemma periodStats_and_presets_witness :
  pcToday (@periodStats exampleHost datedTable)
  = length (@filteredRows exampleHost datedTable [] "" PresetToday "" "")
  /\ (pcD7 (@periodStats exampleHost datedTable)
      <= length (@filteredRows exampleHost datedTable [] "" Preset7days "" ""))%nat
  /\ (pcD30 (@periodStats exampleHost datedTable)
      <= length (@filteredRows exampleHost datedTable [] "" Preset30days "" ""))%nat.
Proof.
  apply (periodStats_and_presets exampleHost datedTable "data" "" "").
  - vm_compute. reflexivity.
  - vm_compute. reflexivity.
  - vm_compute. reflexivity.
Defined.

Lemma MakeDay_shift (y m : Z) (d1 d2 day2 : Z) :
  MakeDay (Some y) (Some m) (Some d2) = Some day2 ->
  MakeDay (Some y) (Some m) (Some d1) = Some (day2 - d2 + d1).
Proof.
  unfold MakeDay. intros H. injection H as <-. f_equal. lia.
Qed.

(** X18: where the clock of the host turns a later local time into a
    later time, and the day thirty days back is a valid date, the
    counter of 7 days is at most the counter of 30 days. *)
Theorem periodStats_monotone (host : Host) (data : DashboardData) :
  (forall x y, x <= y -> UTC x <= UTC y) ->
  setDate newDateNow (optSub (getDate (setHours newDateNow 0 0 0 0)) 30) <> InvalidDate ->
  (pcD7 (periodStats data) <= pcD30 (periodStats data))%nat.
Proof.
  intros Hmono Hvalid.
  destruct (periodStats_counts data) as (_ & H2 & H3). rewrite H2, H3.
  apply filter_length_le. intros row.
  destruct (periodDate data row) as [d|]; [|discriminate].
  revert Hvalid. unfold setDate, newDateNow.
  destruct (getDate (setHours (DateAt clock) 0 0 0 0)) as [dd|]; cbn [optSub];
    [|cbn [MakeDay]; congruence].
  destruct (MakeDay (Some (YearFromTime (LocalTime clock)))
              (Some (MonthFromTime (LocalTime clock))) (Some (dd - 30))) as [day30|] eqn:E30;
    [|congruence].
  rewrite (MakeDay_shift _ _ (dd - 7) _ _ E30).
  unfold TimeClip.
  destruct (Z.abs (UTC (MakeDate day30 (TimeWithinDay (LocalTime clock)))) <=? maxTime);
    [|congruence].
  intros _.
  destruct (Z.abs (UTC (MakeDate (day30 - (dd - 30) + (dd - 7))
                          (TimeWithinDay (LocalTime clock)))) <=? maxTime);
    [|destruct d; discriminate].
  destruct d as [|t]; cbn [dateGe]; [discriminate|].
  intros H. apply Z.leb_le in H. apply Z.leb_le.
  etransitivity; [|exact H]. apply Hmono. unfold MakeDate, msPerDay. lia.
Qed.

Lemma periodStats_monotone_witness :
  (pcD7 (@periodStats exampleHost datedTable)
   <= pcD30 (@periodStats exampleHost datedTable))%nat.
Proof.
  apply (periodStats_monotone exampleHost datedTable).
  - intros x y H. exact H.
  - vm_compute. discriminate.
Defined.

(** ** The colour of a cluster line *)

Lemma SFcompare_antisym (x y : spec_float) :
  SFcompare y x = option_map CompOpp (SFcompare x y).
Proof.
  destruct x as [sx|sx| |sx mx ex], y as [sy|sy| |sy my ey]; cbn [SFcompare option_map];
    try reflexivity;
    try (destruct sx; reflexivity); try (destruct sy; reflexivity);
    try (destruct sx, sy; reflexivity).
  destruct sx, sy; try reflexivity; f_equal;
    rewrite (Z.compare_antisym ex ey); destruct (ex ?= ey) eqn:E; cbn [CompOpp];
    try reflexivity;
    change (Pos.compare_cont Eq my mx) with (Pos.compare my mx);
    change (Pos.compare_cont Eq mx my) with (Pos.compare mx my);
    rewrite (Pos.compare_antisym mx my); destruct (mx ?= my)%positive; reflexivity.
Qed.

Lemma ltb_not_leb (x y : float) : (x <? y)%float = true -> (y <=? x)%float = false.
Proof.
  rewrite FloatAxioms.ltb_spec, FloatAxioms.leb_spec. unfold SFltb, SFleb.
  rewrite (SFcompare_antisym (Prim2SF x) (Prim2SF y)).
  destruct (SFcompare (Prim2SF x) (Prim2SF y)) as [[| |]|]; cbn; congruence.
Qed.

Lemma ltb_or_leb (x y : float) :
  PrimFloat.is_nan x = false -> PrimFloat.is_nan y = false ->
  (x <? y)%float = false -> (y <=? x)%float = true.
Proof.
  intros Hx Hy. rewrite FloatAxioms.ltb_spec, FloatAxioms.leb_spec. unfold SFltb, SFleb.
  rewrite (SFcompare_antisym (Prim2SF x) (Prim2SF y)).
  assert (Nx : Prim2SF x <> S754_nan).
  { intros E. apply is_nan_Prim2SF in E. congruence. }
  assert (Ny : Prim2SF y <> S754_nan).
  { intros E. apply is_nan_Prim2SF in E. congruence. }
  destruct (SFcompare (Prim2SF x) (Prim2SF y)) as [[| |]|] eqn:E; cbn; try congruence.
  destruct (Prim2SF x) as [sx|sx| |sx mx ex], (Prim2SF y) as [sy|sy| |sy my ey];
    cbn in E; congruence.
Qed.

Lemma positive_not_nan (x : float) : (0 <? x)%float = true -> PrimFloat.is_nan x = false.
Proof.
  rewrite FloatAxioms.ltb_spec, Prim2SF_zero. intros H.
  destruct (PrimFloat.is_nan x) eqn:E; [|reflexivity].
  apply is_nan_Prim2SF in E. rewrite E in H. discriminate.
Qed.

(** X19: a cluster line is never marked both as profit and as loss;
    while its return is pending, the investment being zero, it is
    marked as neither; and with an investment above zero and a revenue
    that is a number it is marked as exactly one of the two. *)
Theorem cluster_line_colour (groupInvestments : gmap string float) (g : cluster) :
  hasProfit groupInvestments g && isLoss groupInvestments g = false
  /\ (roiPending groupInvestments g = true ->
      hasProfit groupInvestments g = false /\ isLoss groupInvestments g = false)
  /\ ((0 <? investmentOf groupInvestments g)%float = true ->
      PrimFloat.is_nan (faturamento g) = false ->
      xorb (hasProfit groupInvestments g) (isLoss groupInvestments g) = true).
Proof.
  unfold hasProfit, isLoss, roiPending. split; [|split].
  - destruct (0 <? investmentOf groupInvestments g)%float; [|reflexivity].
    cbn [andb].
    destruct (investmentOf groupInvestments g <? faturamento g)%float eqn:E; [|reflexivity].
    now rewrite (ltb_not_leb _ _ E).
  - intros H. now rewrite (eqb_zero_not_positive _ H).
  - intros Hp Hn. rewrite Hp. cbn [andb].
    destruct (investmentOf groupInvestments g <? faturamento g)%float eqn:E.
    + now rewrite (ltb_not_leb _ _ E).
    + now rewrite (ltb_or_leb _ _ (positive_not_nan _ Hp) Hn E).
Qed.

(** ** More on the parsed table *)

Lemma fillRow_lookup (values : list string) (h : string) (hs : list string) :
  h <> "__proto__" ->
  forall (index : nat) (row : DataRow),
    fillRow hs index values row !! h
    = match lastIndexFrom h hs index with
      | Some j => Some (cleanAndParse (nth j values ""))
      | None => row !! h
      end.
Proof.
  intros Hp.
  induction hs as [|x hs IH]; intros index row; cbn [fillRow lastIndexFrom]; [reflexivity|].
  rewrite IH. destruct (lastIndexFrom h hs (S index)) as [j|]; [reflexivity|].
  destruct (eqs x h) eqn:E.
  - apply eqs_true in E. subst x. now rewrite assign_eq.
  - apply eqs_false in E. now rewrite assign_ne.
Qed.

Lemma lastIndexFrom_In (h : string) (hs : list string) (i : nat) :
  In h hs <-> exists j, lastIndexFrom h hs i = Some j.
Proof.
  revert i. induction hs as [|x hs IH]; intros i; cbn [In lastIndexFrom].
  - split; [intros []|intros (j & H); discriminate].
  - destruct (lastIndexFrom h hs (S i)) as [j|] eqn:E.
    + split; [intros _; now exists j|]. intros _. right. apply (IH (S i)). now exists j.
    + destruct (eqs x h) eqn:Ex.
      * apply eqs_true in Ex. split; [intros _; now exists i|intros _; now left].
      * apply eqs_false in Ex. split; [|intros (j & H); discriminate].
        intros [H|H]; [contradiction|]. apply (IH (S i)) in H. destruct H as (j & H).
        congruence.
Qed.

Lemma lastIndexFrom_spec (h : string) (hs : list string) (i j : nat) :
  lastIndexFrom h hs i = Some j ->
  (i <= j)%nat /\ nth_error hs (j - i) = Some h
  /\ forall k, (j - i < k)%nat -> nth_error hs k <> Some h.
Proof.
  revert i. induction hs as [|x hs IH]; intros i; cbn [lastIndexFrom]; [discriminate|].
  destruct (lastIndexFrom h hs (S i)) as [j'|] eqn:E.
  - intros [= ->]. destruct (IH _ E) as (Hle & Hn & Hlast).
    split; [lia|]. replace (j - i)%nat with (S (j - S i)) by lia. split; [exact Hn|].
    intros [|k] Hk; [lia|]. cbn [nth_error]. apply Hlast. lia.
  - destruct (eqs x h) eqn:Ex; [|discriminate]. apply eqs_true in Ex. subst x.
    intros [= <-]. split; [lia|]. rewrite Nat.sub_diag. split; [reflexivity|].
    intros [|k] Hk; [lia|]. cbn [nth_error]. intros Hn.
    apply nth_error_In in Hn. apply (lastIndexFrom_In h hs (S i)) in Hn.
    destruct Hn as (j & Hj). congruence.
Qed.

Lemma StringToNumber_empty : StringToNumber "" = 0%float.
Proof. vm_compute. reflexivity. Qed.

Lemma cleanAndParse_settled (val : string) : settledCell (cleanAndParse val) = true.
Proof.
  unfold cleanAndParse. destruct (eqs (trim val) ""); [reflexivity|].
  destruct (isNaN (StringToNumber (cleanedText val))) eqn:En; cbn [negb andb settledCell].
  - rewrite En. apply orb_true_r.
  - destruct (eqs (cleanedText val) "") eqn:Ee; cbn [negb settledCell].
    + now rewrite Ee.
    + now rewrite En.
Qed.

Lemma settledCell_value (v : value) :
  settledCell v = true ->
  numOrZero (ToNumber v) = match v with VNum x => numOrZero x | _ => 0%float end.
Proof.
  destruct v as [|x|s]; cbn [settledCell ToNumber]; [discriminate|reflexivity|].
  intros H. apply orb_true_iff in H. destruct H as [H|H].
  - apply eqs_true in H. subst s. rewrite StringToNumber_empty. reflexivity.
  - unfold numOrZero. unfold isNaN in H. rewrite H. now rewrite orb_true_r.
Qed.

Section Parsed.
Variable csvText : string.
Variable t : DashboardData.
Hypothesis parsed : parseCSV csvText = Some t.

Lemma parsed_row (row : DataRow) :
  In row (rows t) ->
  exists line, In line (tl (csvLines csvText)) /\ row = parseLine (headers t) line.
Proof.
  destruct (parseCSV_inv _ _ parsed) as (first & rest & Hl & _ & Hr & _).
  rewrite Hr, Hl. cbn [tl]. intros H. apply in_map_iff in H.
  destruct H as (line & <- & Hin). now exists line.
Qed.

Lemma parsed_cell (row : DataRow) (h : string) :
  In row (rows t) ->
  h <> "__proto__" ->
  (In h (headers t) -> exists v, row !! h = Some v /\ settledCell v = true)
  /\ (~ In h (headers t) -> row !! h = None).
Proof.
  intros Hrow Hp. destruct (parsed_row row Hrow) as (line & _ & ->).
  unfold parseLine. rewrite (fillRow_lookup _ _ _ Hp). split.
  - intros Hh. apply (lastIndexFrom_In h (headers t) 0) in Hh. destruct Hh as (j & ->).
    eexists. split; [reflexivity|apply cleanAndParse_settled].
  - intros Hh. destruct (lastIndexFrom h (headers t) 0) as [j|] eqn:E; [|reflexivity].
    exfalso. apply Hh. apply (lastIndexFrom_In h (headers t) 0). now exists j.
Qed.

End Parsed.

(** X20: in a parsed table the keys of a row are the headers, and the
    cell under a header (other than [__proto__], which names no cell)
    is never undefined: it is a number that is not NaN, the empty text,
    or a text that does not read as a number. *)
Theorem parsed_cells_settled (csvText : string) (t : DashboardData) (row : DataRow)
    (h : string) :
  parseCSV csvText = Some t ->
  In row (rows t) ->
  h <> "__proto__" ->
  (In h (headers t) -> settledCell (get row h) = true)
  /\ (~ In h (headers t) -> row !! h = None).
Proof.
  intros Hp Hrow Hne. destruct (parsed_cell csvText t Hp row h Hrow Hne) as [H1 H2].
  split; [|exact H2]. intros Hh. destruct (H1 Hh) as (v & Hv & Hs).
  unfold get. now rewrite Hv.
Qed.

Lemma parsed_cells_settled_witness :
  settledCell (get (nth 1 (rows ads) ∅) "data") = true.
Proof.
  apply (parsed_cells_settled adsCsv ads (nth 1 (rows ads) ∅) "data").
  - vm_compute. reflexivity.
  - apply nth_In. vm_compute. lia.
  - discriminate.
  - vm_compute. tauto.
Defined.

(** X21: when a header (other than [__proto__]) occurs more than once,
    a row holds under it the parsed field at the last position of the
    header; the fields at its earlier positions are lost. *)
Theorem repeated_header_last_wins (hs : list string) (line : string) (h : string)
    (j : nat) :
  h <> "__proto__" ->
  nth_error hs j = Some h ->
  (forall k, (j < k)%nat -> nth_error hs k <> Some h) ->
  get (parseLine hs line) h
  = cleanAndParse (nth j (map trim (splitQuoteAware line)) "").
Proof.
  intros Hne Hj Hlast. unfold get, parseLine. rewrite (fillRow_lookup _ _ _ Hne).
  assert (Hin : In h hs) by (eapply nth_error_In; eassumption).
  apply (lastIndexFrom_In h hs 0) in Hin. destruct Hin as (j' & E). rewrite E.
  destruct (lastIndexFrom_spec _ _ _ _ E) as (_ & Hn & Hl). rewrite Nat.sub_0_r in *.
  destruct (Nat.lt_trichotomy j j') as [H|[->|H]]; [|reflexivity|].
  - exfalso. exact (Hlast j' H Hn).
  - exfalso. exact (Hl j H Hj).
Qed.

Lemma repeated_header_last_wins_witness :
  get (parseLine ["a"; "a"] "1,2") "a" = VNum 2.
Proof.
  change (VNum 2) with (cleanAndParse (nth 1 (map trim (splitQuoteAware "1,2")) "")).
  apply (repeated_header_last_wins ["a"; "a"] "1,2" "a" 1).
  - discriminate.
  - reflexivity.
  - intros [|[|k]] Hk; [lia|lia|]. destruct k; discriminate.
Defined.

(** X22: in the rows of a parsed table the revenue of a row is the
    number in its value cell, a zero or a missing cell counting as 0,
    and a text in the value cell counts as 0 whatever it says. *)
Theorem text_revenue_is_zero (csvText : string) (t : DashboardData) (row : DataRow) :
  parseCSV csvText = Some t ->
  orEmpty (colFaturamento t) <> "__proto__" ->
  In row (rowsWithIndex t) ->
  rowValue t row
  = match get row (orEmpty (colFaturamento t)) with
    | VNum x => numOrZero x
    | _ => 0%float
    end.
Proof.
  intros Hp Hproto Hrow. unfold rowValue.
  revert Hproto. generalize (orEmpty (colFaturamento t)). intros col Hproto.
  unfold rowsWithIndex in Hrow. apply indexFrom_In in Hrow.
  destruct Hrow as (j & r & Hj & ->).
  destruct (string_dec col "_id") as [->|Hne].
  - unfold get. rewrite lookup_insert_eq. reflexivity.
  - rewrite (get_indexed r _ col Hne).
    apply nth_error_In in Hj.
    destruct (parsed_cell csvText t Hp r col Hj Hproto) as [H1 H2].
    destruct (in_dec string_dec col (headers t)) as [Hin|Hnin].
    + destruct (H1 Hin) as (v & Hv & Hs). unfold get. rewrite Hv.
      now apply settledCell_value.
    + unfold get. rewrite (H2 Hnin). reflexivity.
Qed.

Lemma text_revenue_is_zero_witness :
  rowValue datedTable (nth 0 (rowsWithIndex datedTable) ∅) = 0%float.
Proof.
  rewrite (text_revenue_is_zero datedCsv datedTable (nth 0 (rowsWithIndex datedTable) ∅)).
  - vm_compute. reflexivity.
  - vm_compute. reflexivity.
  - vm_compute. discriminate.
  - apply nth_In. vm_compute. lia.
Defined.

Lemma countChar_nil_inv (a c : ascii) (r : string) :
  countChar a (String c r) = 0%nat -> Ascii.eqb c a = false /\ countChar a r = 0%nat.
Proof.
  cbn [countChar]. destruct (Ascii.eqb c a); [discriminate|]. now split.
Qed.

Lemma splitQuoteAware_nonempty (s : string) : splitQuoteAware s <> [].
Proof.
  induction s as [|c s IH]; cbn [splitQuoteAware]; [discriminate|].
  destruct (Ascii.eqb c "," && Nat.even (countChar quote s)); [discriminate|].
  destruct (splitQuoteAware s); discriminate.
Qed.

Lemma joinWith_cons (sep x : string) (l : list string) :
  l <> [] -> joinWith sep (x :: l) = (x ++ sep ++ joinWith sep l)%string.
Proof. destruct l; [contradiction|reflexivity]. Qed.

Lemma joinWith_head (sep : string) (c : ascii) (p : string) (ps : list string) :
  joinWith sep (String c p :: ps) = String c (joinWith sep (p :: ps)).
Proof. destruct ps; reflexivity. Qed.

Lemma splitQuoteAware_join (s : string) : joinWith "," (splitQuoteAware s) = s.
Proof.
  induction s as [|c s IH]; cbn [splitQuoteAware]; [reflexivity|].
  destruct (Ascii.eqb c "," && Nat.even (countChar quote s)) eqn:E.
  - apply andb_true_iff in E. destruct E as [E _]. apply Ascii.eqb_eq in E. subst c.
    rewrite joinWith_cons by apply splitQuoteAware_nonempty.
    rewrite IH. reflexivity.
  - pose proof (splitQuoteAware_nonempty s) as Hne.
    destruct (splitQuoteAware s) as [|p ps]; [contradiction|].
    rewrite joinWith_head, IH. reflexivity.
Qed.

Lemma even_add_same (a x y : nat) :
  Nat.even x = Nat.even y -> Nat.even (a + x) = Nat.even (a + y).
Proof. intros H. now rewrite !Nat.even_add, H. Qed.

(** Every field after the first holds an even number of quotes, and the
    first holds an even number exactly when the text does. *)
Lemma splitQuoteAware_even (s : string) :
  List.Forall (fun p => Nat.even (countChar quote p) = true) (tl (splitQuoteAware s))
  /\ Nat.even (countChar quote (hd "" (splitQuoteAware s))) = Nat.even (countChar quote s).
Proof.
  induction s as [|c s [IH1 IH2]]; cbn [splitQuoteAware].
  - split; [constructor|reflexivity].
  - destruct (Ascii.eqb c "," && Nat.even (countChar quote s)) eqn:E.
    + apply andb_true_iff in E. destruct E as [Ec E]. apply Ascii.eqb_eq in Ec. subst c.
      cbn [tl hd]. split; [|symmetry; exact E].
      pose proof (splitQuoteAware_nonempty s) as Hne.
      destruct (splitQuoteAware s) as [|p ps]; [contradiction|].
      cbn [tl hd] in *. constructor; [congruence|exact IH1].
    + pose proof (splitQuoteAware_nonempty s) as Hne.
      destruct (splitQuoteAware s) as [|p ps]; [contradiction|].
      cbn [tl hd countChar] in *. split; [exact IH1|]. now apply even_add_same.
Qed.

Lemma splitQuoteAware_plain (s : string) :
  countChar quote s = 0%nat -> splitQuoteAware s = split "," s.
Proof.
  induction s as [|c s IH]; cbn [splitQuoteAware split]; [reflexivity|].
  intros H. apply countChar_nil_inv in H. destruct H as [_ H].
  rewrite H, (IH H). cbn [Nat.even]. now rewrite andb_true_r.
Qed.

(** X23: the fields of a line, joined by commas again, are the line;
    every field after the first holds an even number of double quotes,
    and so does the first when the line does, so that a comma between
    a pair of quotes does not separate; and a line without double
    quotes is split at each of its commas. *)
Theorem quote_aware_fields (line : string) :
  joinWith "," (splitQuoteAware line) = line
  /\ List.Forall (fun p => Nat.even (countChar quote p) = true)
       (tl (splitQuoteAware line))
  /\ (Nat.even (countChar quote line) = true ->
      List.Forall (fun p => Nat.even (countChar quote p) = true) (splitQuoteAware line))
  /\ (countChar quote line = 0%nat -> splitQuoteAware line = split "," line).
Proof.
  destruct (splitQuoteAware_even line) as [H1 H2].
  split; [apply splitQuoteAware_join|]. split; [exact H1|].
  split; [|apply splitQuoteAware_plain].
  intros He. pose proof (splitQuoteAware_nonempty line) as Hne.
  destruct (splitQuoteAware line) as [|p ps]; [contradiction|].
  cbn [tl hd] in *. constructor; [congruence|exact H1].
Qed.

Lemma crlf_lines (s : string) :
  countChar "013" s = 0%nat -> splitLines (crlf s) = splitLines s.
Proof.
  induction s as [|c s IH]; [reflexivity|].
  intros H. apply countChar_nil_inv in H. destruct H as [Hc H].
  cbn [crlf splitLines]. destruct (Ascii.eqb c "010") eqn:E.
  - cbn [splitLines]. change (Ascii.eqb "013" "010") with false.
    change (Ascii.eqb "013" "013") with true. cbn [andb startsWith].
    change (Ascii.eqb "010" "010") with true. cbn [andb].
    cbn [splitLines]. change (Ascii.eqb "010" "010") with true. cbn iota.
    now rewrite (IH H).
  - cbn [splitLines]. rewrite E, Hc. cbn [andb]. now rewrite (IH H).
Qed.

(** X24: a text without carriage returns and the same text with a
    carriage return before every line feed are parsed to the same
    table. *)
Theorem windows_line_ends (csvText : string) :
  countChar "013" csvText = 0%nat ->
  parseCSV (crlf csvText) = parseCSV csvText.
Proof.
  intros H. unfold parseCSV, csvLines. now rewrite (crlf_lines csvText H).
Qed.

Lemma windows_line_ends_witness :
  parseCSV (crlf plainCsv) = parseCSV plainCsv.
Proof.
  apply (windows_line_ends plainCsv). vm_compute. reflexivity.
Defined.

(** ** The link of a sheet *)

Lemma noLineTerminator_cons (c : ascii) (s : string) :
  noLineTerminator (String c s) = negb (isLineTerminator c) && noLineTerminator s.
Proof.
  unfold noLineTerminator. cbn [removeAll].
  destruct (isLineTerminator c); reflexivity.
Qed.

Lemma noLineTerminator_drop (n : nat) (s : string) :
  noLineTerminator s = true -> noLineTerminator (drop n s) = true.
Proof.
  revert s. induction n as [|n IH]; intros s H; [exact H|].
  destruct s as [|c s]; [exact H|]. cbn [drop].
  rewrite noLineTerminator_cons in H. apply andb_true_iff in H. now apply IH.
Qed.

Lemma startsWith_cons (a : ascii) (p : string) (c : ascii) (s : string) :
  startsWith (String a p) (String c s) = true <-> a = c /\ startsWith p s = true.
Proof.
  cbn [startsWith]. rewrite andb_true_iff, Ascii.eqb_eq. reflexivity.
Qed.

(** A text that starts with [/edit] and has no line terminator after
    these five characters has none at all. *)
Lemma edit_noLineTerminator (s : string) :
  startsWith "/edit" s = true -> noLineTerminator (drop 5 s) = true ->
  noLineTerminator s = true.
Proof.
  intros H Hn.
  destruct s as [|c1 s]; [discriminate|]. apply startsWith_cons in H. destruct H as [<- H].
  destruct s as [|c2 s]; [discriminate|]. apply startsWith_cons in H. destruct H as [<- H].
  destruct s as [|c3 s]; [discriminate|]. apply startsWith_cons in H. destruct H as [<- H].
  destruct s as [|c4 s]; [discriminate|]. apply startsWith_cons in H. destruct H as [<- H].
  destruct s as [|c5 s]; [discriminate|]. apply startsWith_cons in H. destruct H as [<- H].
  cbn [drop] in Hn. rewrite !noLineTerminator_cons, Hn. reflexivity.
Qed.

(** Where the rewritten text starts with a pattern without slash, the
    text itself does. *)
Lemma replaceEditTail_startsWith (q s : string) :
  countChar "/" q = 0%nat ->
  startsWith q (replaceEditTail s) = true -> startsWith q s = true.
Proof.
  revert q. induction s as [|c s IH]; intros q Hq.
  - cbn [replaceEditTail startsWith andb]. tauto.
  - cbn [replaceEditTail].
    destruct (startsWith "/edit" (String c s) && noLineTerminator (drop 5 (String c s))).
    + destruct q as [|a q]; [reflexivity|].
      apply countChar_nil_inv in Hq. destruct Hq as [Ha _].
      intros H. apply startsWith_cons in H. destruct H as [-> _].
      discriminate Ha.
    + destruct q as [|a q]; [reflexivity|].
      apply countChar_nil_inv in Hq. destruct Hq as [_ Hq].
      intros H. apply startsWith_cons in H. destruct H as [-> H].
      apply startsWith_cons. split; [reflexivity|]. now apply IH.
Qed.

Lemma replaceEditTail_drop (s : string) :
  forall n, noLineTerminator (drop n (replaceEditTail s)) = true ->
            noLineTerminator (drop n s) = true.
Proof.
  induction s as [|c s IH]; intros n.
  - cbn [replaceEditTail startsWith andb]. tauto.
  - cbn [replaceEditTail].
    destruct (startsWith "/edit" (String c s) && noLineTerminator (drop 5 (String c s)))
      eqn:E.
    + intros _. apply andb_true_iff in E. destruct E as [E1 E2].
      apply noLineTerminator_drop. now apply edit_noLineTerminator.
    + destruct n as [|n]; cbn [drop].
      * rewrite !noLineTerminator_cons. intros H. apply andb_true_iff in H.
        destruct H as [H1 H2]. rewrite H1. exact (IH 0%nat H2).
      * apply IH.
Qed.

(** What is not rewritten at its head is not rewritten at its head once
    its tail has been rewritten. *)
Lemma replaceEditTail_head (c : ascii) (s : string) :
  startsWith "/edit" (String c s) && noLineTerminator (drop 5 (String c s)) = false ->
  startsWith "/edit" (String c (replaceEditTail s))
  && noLineTerminator (drop 5 (String c (replaceEditTail s))) = false.
Proof.
  intros H.
  destruct (startsWith "/edit" (String c (replaceEditTail s))
            && noLineTerminator (drop 5 (String c (replaceEditTail s)))) eqn:E;
    [|reflexivity].
  apply andb_true_iff in E. destruct E as [E1 E2].
  apply startsWith_cons in E1. destruct E1 as [<- E1].
  apply (replaceEditTail_startsWith "edit" s eq_refl) in E1.
  cbn [drop] in E2. apply (replaceEditTail_drop s 4) in E2.
  assert (T : startsWith "/edit" (String "/" s)
              && noLineTerminator (drop 5 (String "/" s)) = true).
  { apply andb_true_iff. split; [|exact E2]. apply startsWith_cons. now split. }
  congruence.
Qed.

Lemma replaceEditTail_idem (s : string) :
  replaceEditTail (replaceEditTail s) = replaceEditTail s.
Proof.
  induction s as [|c s IH]; [reflexivity|].
  cbn [replaceEditTail].
  destruct (startsWith "/edit" (String c s) && noLineTerminator (drop 5 (String c s)))
    eqn:E; [reflexivity|].
  cbn [replaceEditTail]. rewrite (replaceEditTail_head c s E). now rewrite IH.
Qed.

Lemma replaceEditTail_clean (s : string) :
  noLineTerminator s = true -> includes "/edit" (replaceEditTail s) = false.
Proof.
  induction s as [|c s IH]; intros Hn; [reflexivity|].
  cbn [replaceEditTail].
  destruct (startsWith "/edit" (String c s) && noLineTerminator (drop 5 (String c s)))
    eqn:E; [reflexivity|].
  cbn [includes]. rewrite noLineTerminator_cons in Hn. apply andb_true_iff in Hn.
  destruct Hn as [Hc Hn]. rewrite (IH Hn), orb_false_r.
  pose proof (replaceEditTail_head c s E) as H.
  destruct (startsWith "/edit" (String c (replaceEditTail s))) eqn:Es; [|reflexivity].
  cbn [andb] in H.
  assert (Hd : noLineTerminator (String c (replaceEditTail s)) = true).
  { rewrite noLineTerminator_cons, Hc. cbn [andb].
    clear - Hn. induction s as [|d s IHs]; [reflexivity|].
    cbn [replaceEditTail].
    destruct (startsWith "/edit" (String d s) && noLineTerminator (drop 5 (String d s)));
      [reflexivity|].
    rewrite noLineTerminator_cons in Hn |- *. apply andb_true_iff in Hn.
    destruct Hn as [Hd Hn]. rewrite Hd. now apply IHs. }
  apply (noLineTerminator_drop 5) in Hd. congruence.
Qed.

(** A slash that follows does not complete a [/edit] begun before it. *)
Lemma startsWith_edit_before_slash (c : ascii) (p t : string) :
  startsWith "/edit" (String c (p ++ String "/" t)) = true ->
  startsWith "/edit" (String c p) = true.
Proof.
  intros H. apply startsWith_cons in H. destruct H as [<- H].
  apply startsWith_cons. split; [reflexivity|].
  destruct p as [|c2 p]; [discriminate H|].
  apply (startsWith_cons "e" "dit" c2) in H. destruct H as [<- H].
  apply startsWith_cons. split; [reflexivity|].
  destruct p as [|c3 p]; [discriminate H|].
  apply (startsWith_cons "d" "it" c3) in H. destruct H as [<- H].
  apply startsWith_cons. split; [reflexivity|].
  destruct p as [|c4 p]; [discriminate H|].
  apply (startsWith_cons "i" "t" c4) in H. destruct H as [<- H].
  apply startsWith_cons. split; [reflexivity|].
  destruct p as [|c5 p]; [discriminate H|].
  apply (startsWith_cons "t" "" c5) in H. destruct H as [<- H].
  reflexivity.
Qed.

Lemma includes_app_r (q p t : string) : includes q (p ++ q ++ t) = true.
Proof.
  assert (S : forall q t, startsWith q (q ++ t) = true).
  { clear. induction q as [|a q IH]; intros t; [reflexivity|].
    change (String a q ++ t)%string with (String a (q ++ t)%string).
    cbn [startsWith]. now rewrite Ascii.eqb_refl, IH. }
  induction p as [|c p IH].
  - change ("" ++ q ++ t)%string with (q ++ t)%string.
    destruct (q ++ t)%string eqn:E; cbn [includes]; rewrite <- E, S; reflexivity.
  - change (String c p ++ q ++ t)%string with (String c (p ++ q ++ t)%string).
    cbn [includes]. rewrite IH. apply orb_true_r.
Qed.

Lemma replaceEditTail_first (p rest : string) :
  includes "/edit" p = false -> noLineTerminator rest = true ->
  replaceEditTail (p ++ "/edit" ++ rest) = (p ++ "/export?format=csv")%string.
Proof.
  intros Hp Hr. induction p as [|c p IH].
  - change ("" ++ "/edit" ++ rest)%string with (String "/" (String "e" (String "d"
      (String "i" (String "t" rest))))).
    cbn [replaceEditTail startsWith drop]. rewrite !Ascii.eqb_refl, Hr. reflexivity.
  - change (String c p ++ "/edit" ++ rest)%string
      with (String c (p ++ String "/" ("edit" ++ rest))%string).
    cbn [replaceEditTail].
    cbn [includes] in Hp. apply orb_false_iff in Hp. destruct Hp as [Hs Hp].
    destruct (startsWith "/edit" (String c (p ++ String "/" ("edit" ++ rest))%string)) eqn:E.
    + apply startsWith_edit_before_slash in E. congruence.
    + cbn [andb]. change (p ++ String "/" ("edit" ++ rest))%string
        with (p ++ "/edit" ++ rest)%string.
      rewrite IH; [reflexivity|].
      destruct p; exact Hp.
Qed.

(** X25: a link is fetched as it is when it holds no [/edit]; otherwise,
    when no line terminator follows its first [/edit], everything from
    that [/edit] on is replaced by [/export?format=csv]. *)
Theorem targetUrl_export (p rest : string) :
  includes "/edit" p = false ->
  noLineTerminator rest = true ->
  targetUrl p = p
  /\ targetUrl (p ++ "/edit" ++ rest) = (p ++ "/export?format=csv")%string.
Proof.
  intros Hp Hr. unfold targetUrl. rewrite Hp, includes_app_r. split; [reflexivity|].
  now apply replaceEditTail_first.
Qed.

Lemma targetUrl_export_witness :
  targetUrl ("https://docs.google.com/spreadsheets/d/abc" ++ "/edit" ++ "#gid=0")
  = "https://docs.google.com/spreadsheets/d/abc/export?format=csv".
Proof.
  apply (targetUrl_export "https://docs.google.com/spreadsheets/d/abc" "#gid=0").
  - vm_compute. reflexivity.
  - vm_compute. reflexivity.
Defined.

(** X26: rewriting a rewritten link changes nothing, and the rewritten
    form of a link without line terminators holds no [/edit]. *)
Theorem targetUrl_settles (sheetUrl : string) :
  targetUrl (targetUrl sheetUrl) = targetUrl sheetUrl
  /\ (noLineTerminator sheetUrl = true -> includes "/edit" (targetUrl sheetUrl) = false).
Proof.
  unfold targetUrl. destruct (includes "/edit" sheetUrl) eqn:E.
  - split.
    + destruct (includes "/edit" (replaceEditTail sheetUrl)); [|reflexivity].
      apply replaceEditTail_idem.
    + apply replaceEditTail_clean.
  - rewrite E. split; reflexivity.
Qed.

(** ** The daily chart *)

Lemma bump_sum (v : string) (counts : list (string * nat)) :
  list_sum (map snd (bump v counts)) = S (list_sum (map snd counts)).
Proof.
  induction counts as [|[k n] counts IH]; cbn [bump map snd]; [reflexivity|].
  destruct (eqs v k); cbn [map snd]; rewrite !list_sum_cons; [lia|].
  rewrite IH. lia.
Qed.

Lemma countBy_sum (f : DataRow -> string) (l : list DataRow) :
  list_sum (map snd (countBy f l)) = length l.
Proof.
  induction l as [|r l IH] using rev_ind; [reflexivity|].
  rewrite countBy_snoc, bump_sum, IH, length_app. cbn [length]. lia.
Qed.

Section Evolution.
Context {host : Host}.
Variable data : DashboardData.
Variable rs : list DataRow.

Lemma evolution_Permutation :
  Permutation (evolutionData data rs) (countBy (rowDateStr data) rs).
Proof.
  unfold evolutionData. rewrite sortBy_Permutation. apply objectEntries_Permutation.
Qed.

Lemma evolution_sorted :
  forallb (fun r => match evolutionTime (rowDateStr data r) with
                    | Some _ => true
                    | None => false
                    end) rs = true ->
  StronglySorted (fun a b => byDate a b <= 0) (evolutionData data rs).
Proof.
  intros Hv. unfold evolutionData.
  apply (sortBy_ordered byDate (fun e => exists t, evolutionTime (fst e) = Some t)).
  - intros a b (x & Ha) (y & Hb). unfold byDate. rewrite Ha, Hb. lia.
  - intros a b c (x & Ha) (y & Hb) (z & Hc). unfold byDate. rewrite Ha, Hb, Hc. lia.
  - apply List.Forall_forall. intros [d n] Hin.
    apply (Permutation_in _ (objectEntries_Permutation _)) in Hin.
    apply countBy_spec in Hin. destruct Hin as [-> Hn]. cbn [fst].
    unfold countOf in Hn.
    destruct (List.filter (fun r => eqs (rowDateStr data r) d) rs) as [|r l] eqn:E;
      [contradiction|].
    assert (Hr : In r (List.filter (fun r => eqs (rowDateStr data r) d) rs))
      by (rewrite E; now left).
    apply List.filter_In in Hr. destruct Hr as [Hr Hd]. apply eqs_true in Hd. subst d.
    rewrite forallb_forall in Hv. specialize (Hv r Hr).
    destruct (evolutionTime (rowDateStr data r)) as [t|]; [now exists t|discriminate].
Qed.

End Evolution.

(** X29: provided no date text of the rows is a name that every object
    inherits or parses to an invalid date, the points of the daily
    chart stand in the order of their dates, a text that is no date
    standing at the epoch; each point counts the filtered rows with its
    date text, and the counts add up to the number of filtered rows. *)
Theorem evolution_chronological (host : Host) (data : DashboardData)
    (rs : list DataRow) :
  forallb (fun r => negb (inheritedName (rowDateStr data r))) rs = true ->
  forallb (fun r => match evolutionTime (rowDateStr data r) with
                    | Some _ => true
                    | None => false
                    end) rs = true ->
  StronglySorted
    (fun a b => exists x y, evolutionTime (fst a) = Some x
                            /\ evolutionTime (fst b) = Some y /\ x <= y)
    (evolutionData data rs)
  /\ (forall d n, In (d, n) (evolutionData data rs) <->
        n = countOf (rowDateStr data) d rs /\ n <> 0%nat)
  /\ list_sum (map snd (evolutionData data rs)) = length rs.
Proof.
  intros _ Hv.
  assert (Hin : forall d n, In (d, n) (evolutionData data rs) <->
                  n = countOf (rowDateStr data) d rs /\ n <> 0%nat).
  { intros d n. rewrite <- countBy_spec. split; apply Permutation_in;
      [|symmetry]; apply evolution_Permutation. }
  split; [|split; [exact Hin|]].
  - assert (Ht : forall e, In e (evolutionData data rs) ->
                   exists t, evolutionTime (fst e) = Some t).
    { intros [d n] He. apply Hin in He. destruct He as [-> Hn]. cbn [fst].
      unfold countOf in Hn.
      destruct (List.filter (fun r => eqs (rowDateStr data r) d) rs) as [|r l] eqn:E;
        [contradiction|].
      assert (Hr : In r (List.filter (fun r => eqs (rowDateStr data r) d) rs))
        by (rewrite E; now left).
      apply List.filter_In in Hr. destruct Hr as [Hr Hd]. apply eqs_true in Hd. subst d.
      rewrite forallb_forall in Hv. specialize (Hv r Hr).
      destruct (evolutionTime (rowDateStr data r)) as [t|]; [now exists t|discriminate]. }
    pose proof (evolution_sorted data rs Hv) as Hs.
    clear Hin. revert Ht Hs. generalize (evolutionData data rs). intros L Ht Hs.
    revert Ht. induction Hs as [|e l Hs IH He]; intros Ht; [constructor|].
    constructor; [apply IH; intros e' He'; apply Ht; now right|].
    rewrite List.Forall_forall in He |- *. intros e' He'.
    destruct (Ht e (or_introl eq_refl)) as (x & Hx).
    destruct (Ht e' (or_intror He')) as (y & Hy).
    exists x, y. split; [exact Hx|]. split; [exact Hy|].
    specialize (He e' He'). unfold byDate in He. rewrite Hx, Hy in He. lia.
  - rewrite (list_sum_Permutation _ _ (Permutation_map snd (evolution_Permutation data rs))).
    apply countBy_sum.
Qed.

Lemma evolution_chronological_witness :
  @evolutionData exampleHost ads (rows ads)
  = [("soon", 1%nat); ("01/01/2024", 1%nat); ("02/01/2024", 1%nat);
     ("03/01/2024", 1%nat); ("05/01/2024", 1%nat)]
  /\ list_sum (map snd (@evolutionData exampleHost ads (rows ads))) = length (rows ads).
Proof.
  split; [vm_compute; reflexivity|].
  apply (evolution_chronological exampleHost ads (rows ads)).
  - vm_compute. reflexivity.
  - vm_compute. reflexivity.
Defined.

(** ** Loading and resolving *)

Lemma csvLines_blank (text : string) :
  forallb (fun line => eqs (trim line) "") (splitLines text) = true ->
  csvLines text = [].
Proof.
  unfold csvLines. induction (splitLines text) as [|line l IH]; [reflexivity|].
  cbn [forallb List.filter]. intros H. apply andb_true_iff in H. destruct H as [H1 H2].
  unfold nonBlank at 1. rewrite H1. cbn [negb]. now apply IH.
Qed.

(** X27: a file or a fetched text of blank lines only leaves the table
    as it is, and so does a request that fails; no load removes a table
    that is there. *)
Theorem blank_input_keeps_table (fetch : string -> option string)
    (sheetUrl text : string) (data : option DashboardData) :
  forallb (fun line => eqs (trim line) "") (splitLines text) = true ->
  fileLoaded text data = data
  /\ (fetch (targetUrl sheetUrl) = Some text -> loadFromUrl fetch sheetUrl data = data)
  /\ (fetch (targetUrl sheetUrl) = None -> loadFromUrl fetch sheetUrl data = data)
  /\ (data <> None -> loadFromUrl fetch sheetUrl data <> None).
Proof.
  intros H. apply csvLines_blank in H.
  assert (Hp : parseCSV text = None) by (unfold parseCSV; now rewrite H).
  unfold fileLoaded, loadFromUrl. rewrite Hp.
  split; [reflexivity|]. split; [|split].
  - intros ->. rewrite Hp. now destruct (eqs sheetUrl "").
  - intros ->. now destruct (eqs sheetUrl "").
  - intros Hd. destruct (eqs sheetUrl ""); [exact Hd|].
    destruct (fetch (targetUrl sheetUrl)) as [t|]; [|exact Hd].
    destruct (parseCSV t); [discriminate|exact Hd].
Qed.

Lemma blank_input_keeps_table_witness :
  fileLoaded blankText (Some ads) = Some ads.
Proof.
  assert (H : forallb (fun line => eqs (trim line) "") (splitLines blankText) = true).
  { vm_compute. reflexivity. }
  exact (proj1 (blank_input_keeps_table (fun _ => None) "" blankText (Some ads) H)).
Defined.

(** X28: a column that is found is a header of the table: the one at
    the hinted position when that is not empty, and otherwise the first
    header that is, or holds, one of the keys, the case of the letters
    set aside. *)
Theorem findHeader_is_header (data : DashboardData) (keys : list string)
    (indexHint : nat) (h : string) :
  findHeader data keys indexHint = Some h ->
  In h (headers data)
  /\ ((nth_error (headers data) indexHint = Some h /\ h <> "")
      \/ (List.find (fun h => existsb (matchesKey h) keys) (headers data) = Some h
          /\ existsb (matchesKey h) keys = true
          /\ (nth_error (headers data) indexHint = None
              \/ nth_error (headers data) indexHint = Some ""))).
Proof.
  unfold findHeader.
  assert (F : List.find (fun h => existsb (matchesKey h) keys) (headers data) = Some h ->
              In h (headers data) /\ existsb (matchesKey h) keys = true).
  { intros H. now apply find_some in H. }
  destruct (nth_error (headers data) indexHint) as [h0|] eqn:E.
  - destruct (eqs h0 "") eqn:E0; cbn [negb].
    + apply eqs_true in E0. subst h0. intros H. destruct (F H) as [Hin Hm].
      split; [exact Hin|]. right. split; [exact H|]. split; [exact Hm|now right].
    + apply eqs_false in E0. intros [= <-]. split; [|left; now split].
      eapply nth_error_In; eassumption.
  - intros H. destruct (F H) as [Hin Hm].
    split; [exact Hin|]. right. split; [exact H|]. split; [exact Hm|now left].
Qed.

Lemma findHeader_is_header_witness :
  In "produto" (headers ads).
Proof.
  assert (H : findHeader ads ["produto"] 8 = Some "produto").
  { vm_compute. reflexivity. }
  exact (proj1 (findHeader_is_header ads ["produto"] 8 "produto" H)).
Defined.

